(** * PermastoreIt client: SDK (permastoreit_sdk.py) and CLI (permastoreit_cli.py)

    A shallow embedding of the Python client library and of the command
    layer built on it, with the properties of the specification stated
    over that embedding.

    Conventions of the model
    - Python [str] values are [string]s; the characters are the code points
      below 256.
    - Python [int] values are [Z]; Python [float] values are the binary64
      numbers of [PrimFloat], with their rounding arithmetic.
    - Python objects (what JSON decodes to, what a caller passes) are the
      inductive [pyval]; a [dict] is an association list in insertion order.
    - Exceptions are the inductive [exn]; class membership ([isinstance],
      [except C]) is a boolean predicate per class.
    - File system paths are taken to hold no NUL character (on such a
      path [os.makedirs], [open] and [os.remove] raise [ValueError]).
    - The network, the file system, the clock and the output streams are
      explicit state: a [node] for what the SDK touches, a [console] for
      what only the command layer touches.
    - Rich reads what [console.print] is given as markup and raises
      [MarkupError] on a closing tag that closes nothing.  Whether it does so
      for an item into which text of a response or of a caught exception is
      interpolated is asked of the console ([rejects]); the texts of the
      program itself and the operator's own arguments (URL, hash, paths,
      pattern) are taken to hold no markup of their own. *)

From Stdlib Require Import ZArith List Bool Ascii String Lia QArith PrimFloat.
From Stdlib Require Import DecimalString.
From Stdlib Require DecimalPos DecimalZ.
Import ListNotations.

Set Warnings "-register-all".

Local Open Scope string_scope.
Local Open Scope Z_scope.

(* ================================================================== *)
(** * Python primitives used by the client *)
(* ================================================================== *)

Module Py.

(** ** Strings *)

Definition slash : ascii := "/"%char.

(** [n] copies of the character [c]. *)
Fixpoint replicate (n : nat) (c : ascii) : string :=
  match n with
  | O => EmptyString
  | S n' => String c (replicate n' c)
  end.

(** [s.lstrip(c)] for a one-character argument. *)
Fixpoint lstrip (c : ascii) (s : string) : string :=
  match s with
  | EmptyString => EmptyString
  | String a s' => if Ascii.eqb a c then lstrip c s' else s
  end.

(** [s.rstrip(c)] for a one-character argument. *)
Fixpoint rstrip (c : ascii) (s : string) : string :=
  match s with
  | EmptyString => EmptyString
  | String a s' =>
      match rstrip c s' with
      | EmptyString => if Ascii.eqb a c then EmptyString else String a EmptyString
      | r => String a r
      end
  end.

(** [s.split(c)] for a one-character separator: never the empty list. *)
Fixpoint split (c : ascii) (s : string) : list string :=
  match s with
  | EmptyString => [EmptyString]
  | String a s' =>
      if Ascii.eqb a c then EmptyString :: split c s'
      else match split c s' with
           | h :: t => String a h :: t
           | [] => [String a EmptyString]
           end
  end.

(** [c.lower()] on one code point below 256: A-Z and the Latin-1 capitals
    (192-222 except the multiplication sign 215) move up by 32. *)
Definition lower_char (a : ascii) : ascii :=
  let n := nat_of_ascii a in
  if ((65 <=? n) && (n <=? 90))%nat then ascii_of_nat (n + 32)
  else if ((192 <=? n) && (n <=? 222) && negb (n =? 215))%nat then ascii_of_nat (n + 32)
  else a.

(** [s.lower()]. *)
Fixpoint lower (s : string) : string :=
  match s with
  | EmptyString => EmptyString
  | String a s' => String (lower_char a) (lower s')
  end.

(** [pat in s] on strings: [pat] occurs as a contiguous substring. *)
Fixpoint contains (pat s : string) : bool :=
  String.prefix pat s ||
  match s with
  | EmptyString => false
  | String _ s' => contains pat s'
  end.

(** [x in l] on a list of strings. *)
Definition str_in (x : string) (l : list string) : bool :=
  existsb (String.eqb x) l.

(** [s[:n]]. *)
Definition take (n : nat) (s : string) : string := String.substring 0 n s.

(** [str(n)] for an integer. *)
Definition str_of_int (z : Z) : string := NilZero.string_of_int (Z.to_int z).

(** No character of [s] is [c]. *)
Fixpoint free_of (c : ascii) (s : string) : bool :=
  match s with
  | EmptyString => true
  | String a s' => negb (Ascii.eqb a c) && free_of c s'
  end.

(** [s.startswith(c)] and [s.endswith(c)] for one character. *)
Definition starts_with (c : ascii) (s : string) : bool :=
  match s with
  | String a _ => Ascii.eqb a c
  | EmptyString => false
  end.

Fixpoint ends_with (c : ascii) (s : string) : bool :=
  match s with
  | EmptyString => false
  | String a EmptyString => Ascii.eqb a c
  | String _ s' => ends_with c s'
  end.

End Py.

(* ================================================================== *)
(** * Python values, dictionaries and exceptions *)
(* ================================================================== *)

(** A Python value as the client meets it: what [response.json()] decodes
    to, and what a caller may pass for [limit]. *)
Inductive pyval : Type :=
| PyNone
| PyBool (b : bool)
| PyInt (z : Z)
| PyFloat (f : float)
| PyStr (s : string)
| PyList (l : list pyval)
| PyDict (d : list (string * pyval)).

(** A [dict] with string keys, in insertion order. *)
Definition pydict := list (string * pyval).

(** [d[k]] when the key is present. *)
Fixpoint dict_lookup (k : string) (d : pydict) : option pyval :=
  match d with
  | [] => None
  | (k', v) :: d' => if String.eqb k k' then Some v else dict_lookup k d'
  end.

(** [d.get(k, default)]. *)
Definition dict_get (k : string) (default : pyval) (d : pydict) : pyval :=
  match dict_lookup k d with
  | Some v => v
  | None => default
  end.

(** [d[k] = v]: an existing key keeps its place, a new one goes last. *)
Fixpoint dict_set (k : string) (v : pyval) (d : pydict) : pydict :=
  match d with
  | [] => [(k, v)]
  | (k', v') :: d' =>
      if String.eqb k k' then (k, v) :: d' else (k', v') :: dict_set k v d'
  end.

(** Truth value of a Python object ([bool(v)]). *)
Definition truthy (v : pyval) : bool :=
  match v with
  | PyNone => false
  | PyBool b => b
  | PyInt z => negb (z =? 0)
  | PyFloat f => negb (PrimFloat.eqb f 0%float)
  | PyStr s => negb (String.eqb s EmptyString)
  | PyList l => match l with [] => false | _ => true end
  | PyDict d => match d with [] => false | _ => true end
  end.

(** [a or b]. *)
Definition py_or (a b : pyval) : pyval := if truthy a then a else b.

(** [isinstance(v, int)]: [bool] is a subclass of [int]. *)
Definition isinstance_int (v : pyval) : bool :=
  match v with
  | PyInt _ | PyBool _ => true
  | _ => false
  end.

(** The integer an [int] instance denotes ([True] is 1, [False] is 0). *)
Definition int_value (v : pyval) : option Z :=
  match v with
  | PyInt z => Some z
  | PyBool b => Some (if b then 1 else 0)
  | _ => None
  end.

(** [v == s] for a string literal [s]. *)
Definition eq_str (v : pyval) (s : string) : bool :=
  match v with
  | PyStr s' => String.eqb s' s
  | _ => false
  end.

(** Exceptions of the SDK, of the [requests] library and the built-in
    ones the code can meet.  [PermastoreItError] and [NetworkError] are
    always raised [from] another exception, kept as [cause]; the Python
    message is [msg] followed by [str(cause)]. *)
Inductive exn : Type :=
(* permastoreit_sdk *)
| PermastoreItError (msg : string) (cause : exn)
| APIError (status_code : Z) (detail : pyval) (response_text : string)
| NetworkError (msg : string) (cause : exn)
| FileNotFoundErrorOnServer (resource_id : string)
| ZKPDisabledError
(* requests.exceptions *)
| Timeout (msg : string)
| ConnectionError (msg : string)
| RequestException (msg : string)
| JSONDecodeError
(* built-in *)
| FileNotFoundError (msg : string)
| OSError (msg : string)
| ValueError (msg : string)
| NameError (name : string)
| AttributeError (msg : string)
| TypeError (msg : string)
| SystemExit (code : Z)
(* rich.errors *)
| MarkupError (msg : string).

(** Class membership, following the class statements of the SDK and the
    hierarchy of [requests.exceptions] (where [RequestException] derives
    from [IOError]). *)
Definition is_FileNotFoundErrorOnServer (e : exn) : bool :=
  match e with FileNotFoundErrorOnServer _ => true | _ => false end.

Definition is_ZKPDisabledError (e : exn) : bool :=
  match e with ZKPDisabledError => true | _ => false end.

Definition is_APIError (e : exn) : bool :=
  match e with
  | APIError _ _ _ | FileNotFoundErrorOnServer _ | ZKPDisabledError => true
  | _ => false
  end.

Definition is_NetworkError (e : exn) : bool :=
  match e with NetworkError _ _ => true | _ => false end.

Definition is_PermastoreItError (e : exn) : bool :=
  match e with
  | PermastoreItError _ _ | NetworkError _ _ => true
  | _ => is_APIError e
  end.

Definition is_Timeout (e : exn) : bool :=
  match e with Timeout _ => true | _ => false end.

Definition is_ConnectionError (e : exn) : bool :=
  match e with ConnectionError _ => true | _ => false end.

Definition is_RequestException (e : exn) : bool :=
  match e with
  | Timeout _ | ConnectionError _ | RequestException _ | JSONDecodeError => true
  | _ => false
  end.

Definition is_FileNotFoundError (e : exn) : bool :=
  match e with FileNotFoundError _ => true | _ => false end.

(** [IOError] is [OSError]. *)
Definition is_IOError (e : exn) : bool :=
  match e with
  | OSError _ | FileNotFoundError _ => true
  | _ => is_RequestException e
  end.

(** [Exception]: everything but [SystemExit]. *)
Definition is_Exception (e : exn) : bool :=
  match e with SystemExit _ => false | _ => true end.

(** [APIError.__init__]. *)
Definition mkAPIError (status_code : Z) (detail : pyval) (response_text : string) : exn :=
  APIError status_code
           (py_or detail (PyStr ("Server returned status " ++ Py.str_of_int status_code)))
           response_text.

(** The attributes [status_code] and [detail] of an [APIError] instance. *)
Definition exn_status_code (e : exn) : Z :=
  match e with
  | APIError s _ _ => s
  | FileNotFoundErrorOnServer _ => 404
  | ZKPDisabledError => 501
  | _ => 0
  end.

Definition exn_detail (e : exn) : pyval :=
  match e with
  | APIError _ d _ => d
  | FileNotFoundErrorOnServer r => PyStr ("Resource '" ++ r ++ "' not found on server.")
  | ZKPDisabledError => PyStr "ZKP is not enabled on the target node."
  | _ => PyNone
  end.

(** ** Computations that may raise *)

Inductive result (A : Type) : Type :=
| Returned (a : A)
| Raised (e : exn).
Arguments Returned {A} a.
Arguments Raised {A} e.

(** A computation over a state [S]. *)
Definition M (S A : Type) : Type := S -> S * result A.

Definition ret {S A} (a : A) : M S A := fun s => (s, Returned a).

Definition raise {S A} (e : exn) : M S A := fun s => (s, Raised e).

Definition bind {S A B} (m : M S A) (k : A -> M S B) : M S B :=
  fun s =>
    match m s with
    | (s', Returned a) => k a s'
    | (s', Raised e) => (s', Raised e)
    end.

(** [try: m  except C1 as e: h1 e  except C2 as e: h2 e ...]: a class is
    given by its predicate, the first clause that matches handles the
    exception, and what a handler raises is not offered to the others. *)
Definition clause (S A : Type) : Type := ((exn -> bool) * (exn -> M S A))%type.

Fixpoint handle {S A} (clauses : list (clause S A)) (e : exn) : M S A :=
  match clauses with
  | [] => raise e
  | (cls, h) :: rest => if cls e then h e else handle rest e
  end.

Definition try_except {S A} (m : M S A) (clauses : list (clause S A)) : M S A :=
  fun s =>
    match m s with
    | (s', Raised e) => handle clauses e s'
    | r => r
    end.

Declare Scope py_scope.
Delimit Scope py_scope with py.
Notation "x <- m ;; k" := (bind m (fun x => k))
  (at level 61, m at next level, right associativity) : py_scope.
Notation "m ;;; k" := (bind m (fun _ => k))
  (at level 61, right associativity) : py_scope.

(* ================================================================== *)
(** * The SDK: permastoreit_sdk.py *)
(* ================================================================== *)

Module SDK.

Local Open Scope py_scope.

(** ** What the SDK touches: transport, file system, standard error *)

(** The [file] entry of a multipart upload: [(filename, content, type)]. *)
Record part : Type := mkPart {
  part_filename : string;
  part_content : string;
  part_type : string }.

(** One call of [session.request(method, url, **kwargs)]. *)
Record request : Type := mkRequest {
  req_method : string;
  req_url : string;
  req_timeout : Z;
  req_params : pydict;
  req_files : list (string * part);
  req_stream : bool }.

(** A [requests.Response]: [json_body] is what [response.json()] decodes
    [text] to, [None] when the body is not JSON. *)
Record response : Type := mkResponse {
  status_code : Z;
  text : string;
  json_body : option pyval }.

(** What the environment can make an I/O call raise: the three families
    of [requests] exceptions that [_make_request] tells apart, and
    [OSError]. *)
Inductive failure : Type :=
| TimedOut (msg : string)
| Unreachable (msg : string)
| Broken (msg : string)
| DiskError (msg : string).

Definition exn_of_failure (f : failure) : exn :=
  match f with
  | TimedOut m => Timeout m
  | Unreachable m => ConnectionError m
  | Broken m => RequestException m
  | DiskError m => OSError m
  end.

(** What [session.request] does: it returns a response or raises. *)
Inductive reply : Type :=
| Reply (r : response)
| Fails (f : failure).

Inductive event : Type :=
| Sent (r : request)
| Warned (line : string)
| MadeDirs (path : string)
| Wrote (path content : string)
| WriteFailed (path : string)
| Removed (path : string).

(** The world of the SDK.  [script] holds the replies of the transport to
    the coming requests, in order; [isfile], [guess_type], [file_content]
    ([open(path, 'rb')], [None] when it raises), [glob], [makedirs_fails]
    and [write_error] (what writing to a path raises, if anything) answer
    for the file system and the MIME table; [log] records what was done. *)
Record node : Type := mkNode {
  script : list reply;
  isfile : string -> bool;
  guess_type : string -> option string;
  file_content : string -> option string;
  glob : string -> list string;
  makedirs_fails : string -> bool;
  write_error : string -> option failure;
  log : list event }.

Definition set_script (s : list reply) (nd : node) : node :=
  mkNode s (isfile nd) (guess_type nd) (file_content nd) (glob nd)
         (makedirs_fails nd) (write_error nd) (log nd).

Definition add_event (ev : event) (nd : node) : node :=
  mkNode (script nd) (isfile nd) (guess_type nd) (file_content nd) (glob nd)
         (makedirs_fails nd) (write_error nd) (log nd ++ [ev]).

Definition emit (ev : event) : M node unit :=
  fun nd => (add_event ev nd, Returned tt).

(** The requests of a log, in order. *)
Fixpoint requests_of (l : list event) : list request :=
  match l with
  | [] => []
  | Sent r :: l' => r :: requests_of l'
  | _ :: l' => requests_of l'
  end.

(** The warnings of a log, in order. *)
Fixpoint warnings_of (l : list event) : list string :=
  match l with
  | [] => []
  | Warned s :: l' => s :: warnings_of l'
  | _ :: l' => warnings_of l'
  end.

(** [session.request]: the transport takes the request and gives the next
    reply of the script; with no reply left nothing answers. *)
Definition session_request (req : request) : M node response :=
  fun nd =>
    let nd1 := add_event (Sent req) nd in
    match script nd1 with
    | Reply r :: rest => (set_script rest nd1, Returned r)
    | Fails f :: rest => (set_script rest nd1, Raised (exn_of_failure f))
    | [] => (nd1, Raised (ConnectionError "no reply"))
    end.

(** [Response.ok] of [requests]: no 4xx or 5xx status. *)
Definition ok (r : response) : bool :=
  negb ((400 <=? status_code r) && (status_code r <? 600)).

(** [response.json()]. *)
Definition response_json {S} (r : response) : M S pyval :=
  match json_body r with
  | Some v => ret v
  | None => raise JSONDecodeError
  end.

(** [os.path.basename] and [os.path.join] (POSIX). *)
Definition basename (p : string) : string := last (Py.split Py.slash p) EmptyString.

Definition path_join (a b : string) : string :=
  if Py.starts_with Py.slash b then b
  else if String.eqb a EmptyString || Py.ends_with Py.slash a then a ++ b
  else a ++ "/" ++ b.

(** The names bound at module level in permastoreit_sdk.py: its imports
    and its classes. *)
Definition module_globals : list string :=
  ["requests"; "os"; "Dict"; "List"; "Optional"; "Any"; "mimetypes";
   "PermastoreItError"; "APIError"; "NetworkError";
   "FileNotFoundErrorOnServer"; "ZKPDisabledError"; "PermastoreItClient"].

(** Evaluating a name that is not built in and is looked up among the
    globals of the module: [NameError] when the module does not bind it. *)
Definition load_global {S} (name : string) : M S unit :=
  if Py.str_in name module_globals then ret tt else raise (NameError name).

(** ** The client *)

Record client : Type := mkClient {
  base_url : string;
  timeout : Z }.

(** [PermastoreItClient.__init__]. *)
Definition __init__ (base_url : string) (timeout : Z) : client :=
  mkClient (Py.rstrip Py.slash base_url) timeout.

(** Keyword arguments handed to [_make_request]. *)
Record kwargs : Type := mkKwargs {
  kw_timeout : option Z;
  kw_params : pydict;
  kw_files : list (string * part);
  kw_stream : bool }.

Definition no_kwargs : kwargs := mkKwargs None [] [] false.

(** [f"{self.base_url}/{endpoint.lstrip('/')}"]. *)
Definition request_url (c : client) (endpoint : string) : string :=
  base_url c ++ "/" ++ Py.lstrip Py.slash endpoint.

(** Lines 95-101: the detail of a response that is not ok. *)
Definition error_detail {S} (r : response) : M S pyval :=
  let raw_text := text r in
  match json_body r with
  | Some (PyDict data) => ret (dict_get "detail" PyNone data)
  | Some _ => raise (AttributeError "object has no attribute 'get'")
  | None =>
      ret (if negb (String.eqb raw_text EmptyString) then PyStr (Py.take 200 raw_text)
           else PyStr ("No detail provided (Status: "
                       ++ Py.str_of_int (status_code r) ++ ")"))
  end.

Definition resource_prefixes : list string := ["download"; "file-info"; "zk-proof"].

(** Lines 104-115: the exception raised for a response that is not ok. *)
Definition classify (endpoint : string) (r : response) (detail : pyval) : exn :=
  let raw_text := text r in
  if status_code r =? 404 then
    let path_parts := Py.split Py.slash (Py.lstrip Py.slash endpoint) in
    if (List.length path_parts =? 2)%nat
       && Py.str_in (nth 0 path_parts EmptyString) resource_prefixes
    then FileNotFoundErrorOnServer (nth 1 path_parts EmptyString)
    else mkAPIError (status_code r) (py_or detail (PyStr "Resource not found")) raw_text
  else if (status_code r =? 501) && Py.contains "zkp" (Py.lower endpoint) then
    ZKPDisabledError
  else mkAPIError (status_code r) detail raw_text.

(** The three [except] clauses closing [_make_request]. *)
Definition transport_handler {S A} (url : string) (m : M S A) : M S A :=
  try_except m
    [ (is_Timeout,
       fun e => raise (NetworkError ("Request timed out connecting to " ++ url ++ ": ") e));
      (is_ConnectionError,
       fun e => raise (NetworkError ("Connection error connecting to " ++ url ++ ": ") e));
      (is_RequestException,
       fun e => raise (NetworkError ("Network request error for " ++ url ++ ": ") e)) ].

(** [PermastoreItClient._make_request]. *)
Definition _make_request (c : client) (method endpoint : string) (kw : kwargs)
  : M node response :=
  let url := request_url c endpoint in
  let timeout := match kw_timeout kw with Some t => t | None => timeout c end in
  transport_handler url
    (response <- session_request
                   (mkRequest method url timeout (kw_params kw) (kw_files kw) (kw_stream kw)) ;;
     if negb (ok response) then
       detail <- error_detail response ;;
       raise (classify endpoint response detail)
     else ret response).

(** ** Public methods *)

(** [get_status]. *)
Definition get_status (c : client) : M node pyval :=
  response <- _make_request c "GET" "/status" no_kwargs ;;
  response_json response.

(** [get_health]. *)
Definition get_health (c : client) : M node pyval :=
  response <- _make_request c "GET" "/health" no_kwargs ;;
  response_json response.

(** [open(file_path, 'rb')]: the content the request body will carry. *)
Definition open_rb (file_path : string) : M node string :=
  fun nd =>
    match file_content nd file_path with
    | Some content => (nd, Returned content)
    | None => (nd, Raised (OSError ("cannot open " ++ file_path)))
    end.

(** [upload]. *)
Definition upload (c : client) (file_path : string) : M node pyval :=
  fun nd =>
    if negb (isfile nd file_path) then
      raise (FileNotFoundError
               ("Local file not found or is not a regular file: " ++ file_path)) nd
    else
      let file_name := basename file_path in
      (content_type <-
         match guess_type nd file_path with
         | Some t => ret t
         | None =>
             let content_type := "application/octet-stream" in
             load_global "sys" ;;;
             emit (Warned ("Warning: Could not guess MIME type for " ++ file_name
                           ++ ". Sending as " ++ content_type)) ;;;
             ret content_type
         end ;;
       try_except
         (f <- open_rb file_path ;;
          let files := [("file", mkPart file_name f content_type)] in
          let upload_timeout := Z.max (timeout c * 2) 120 in
          response <- _make_request c "POST" "/upload"
                        (mkKwargs (Some upload_timeout) [] files false) ;;
          response_json response)
         [ (is_IOError,
            fun e => raise (PermastoreItError
                              ("Failed to read local file " ++ file_path ++ ": ") e)) ]) nd.

(** [os.makedirs(save_dir, exist_ok=True)] on a path without NUL: it
    succeeds or raises [OSError] (here also for its subclasses, such as the
    [FileNotFoundError] of the empty path), as the file system decides. *)
Definition makedirs (save_dir : string) : M node unit :=
  fun nd =>
    if makedirs_fails nd save_dir
    then (nd, Raised (OSError ("cannot create " ++ save_dir)))
    else (add_event (MadeDirs save_dir) nd, Returned tt).

(** Opening [path] for writing and copying the body into it, chunk by
    chunk.  When that fails the file may be missing, empty or hold the
    chunks written so far: [WriteFailed] only records that the write was
    started. *)
Definition write_file (path content : string) : M node unit :=
  fun nd =>
    match write_error nd path with
    | Some f => (add_event (WriteFailed path) nd, Raised (exn_of_failure f))
    | None => (add_event (Wrote path content) nd, Returned tt)
    end.

(** [try: os.remove(path)  except OSError: pass] on a path without NUL:
    whatever [os.remove] raises is an [OSError] and is dropped. *)
Definition remove_quietly (path : string) : M node unit := emit (Removed path).

(** [download]; [save_filename] is [None] when the argument is omitted. *)
Definition download (c : client) (file_hash save_dir : string)
           (save_filename : option string) : M node string :=
  let save_filename :=
    match save_filename with
    | Some n => if String.eqb n EmptyString then file_hash else n
    | None => file_hash
    end in
  try_except (makedirs save_dir)
    [ (is_IOError,
       fun e => raise (PermastoreItError
                         ("Failed to create save directory '" ++ save_dir ++ "': ") e)) ] ;;;
  let full_save_path := path_join save_dir save_filename in
  try_except
    (response <- _make_request c "GET" ("/download/" ++ file_hash)
                   (mkKwargs None [] [] true) ;;
     write_file full_save_path (text response) ;;;
     ret full_save_path)
    [ (is_IOError,
       fun e =>
         remove_quietly full_save_path ;;;
         raise (PermastoreItError
                  ("Failed to write downloaded file to '" ++ full_save_path ++ "': ") e));
      (is_Exception,
       fun e =>
         remove_quietly full_save_path ;;;
         raise (PermastoreItError "Unexpected error during download/save: " e)) ].

(** The message of the [ValueError] raised for a bad [limit]. *)
Definition limit_error : exn := ValueError "Limit must be a positive integer.".

(** [not isinstance(limit, int) or limit < 1]. *)
Definition bad_limit (limit : pyval) : bool :=
  negb (isinstance_int limit) ||
  match int_value limit with
  | Some z => z <? 1
  | None => false
  end.

(** [list_files]; [limit] is [PyNone] when the argument is omitted. *)
Definition list_files (c : client) (limit : pyval) : M node pyval :=
  params <-
    match limit with
    | PyNone => ret []
    | _ => if bad_limit limit then raise limit_error
           else ret (dict_set "limit" limit [])
    end ;;
  response <- _make_request c "GET" "/files" (mkKwargs None params [] false) ;;
  response_json response.

(** [get_file_info]. *)
Definition get_file_info (c : client) (file_hash : string) : M node pyval :=
  response <- _make_request c "GET" ("/file-info/" ++ file_hash) no_kwargs ;;
  response_json response.

(** [search]; the default of [limit] is [PyInt 10]. *)
Definition search (c : client) (query : string) (limit : pyval) : M node pyval :=
  if bad_limit limit then raise limit_error
  else
    let params := [("query", PyStr query); ("limit", limit)] in
    response <- _make_request c "GET" "/search" (mkKwargs None params [] false) ;;
    response_json response.

(** [get_zk_proof]. *)
Definition get_zk_proof (c : client) (file_hash : string) : M node pyval :=
  response <- _make_request c "GET" ("/zk-proof/" ++ file_hash) no_kwargs ;;
  response_json response.

(** [get_root_message]. *)
Definition get_root_message (c : client) : M node pyval :=
  response <- _make_request c "GET" "/" no_kwargs ;;
  response_json response.

(** The attributes of a [PermastoreItClient]: what [__init__] sets and the
    methods of the class. *)
Definition client_attributes : list string :=
  ["base_url"; "timeout"; "session"; "__init__"; "_make_request";
   "get_root_message"; "get_status"; "get_health"; "upload"; "download";
   "list_files"; "get_file_info"; "search"; "get_zk_proof"].

(** [hasattr(client, name)]. *)
Definition hasattr (name : string) : bool := Py.str_in name client_attributes.

End SDK.

(* ================================================================== *)
(** * The command layer: permastoreit_cli.py *)
(* ================================================================== *)

Module CLI.

Import SDK.
Local Open Scope py_scope.

(** [--output-format], a [click.Choice] of ['text'] and ['json']. *)
Inductive format : Type := Text | Json.

(** The message [handle_sdk_error] builds, one constructor per branch of
    its [isinstance] chain; the text is the f-string of that branch. *)
Inductive message : Type :=
| NotFoundMessage (resource_id : string)
| ZkpMessage (e : exn)
| ApiMessage (status_code : Z) (detail : pyval)
| NetworkMessage (e : exn)
| LocalFileMessage (e : exn)
| SdkMessage (e : exn)
| UnexpectedMessage (e : exn).

(** An entry of [results_data]: [{"success": True, "result": ...}] or
    [{"success": False, "error": ..., "time_ms": ...}], the latter with
    ["source_file"] in a bulk upload. *)
Inductive record : Type :=
| Success (result : pyval)
| Failure (source_file : option string) (error : message) (time_ms : float).

Definition succeeded (r : record) : bool :=
  match r with Success _ => true | Failure _ _ _ => false end.

(** The data handed to [print_output]: a decoded payload, an entry of
    [results_data], the summary of a bulk upload. *)
Inductive printed : Type :=
| OutValue (v : pyval)
| OutRecord (r : record)
| OutSummary (total_files success failed : Z).

(** What [console.print] shows on standard error.  Only what is shown is
    kept, not its layout. *)
Inductive shown : Type :=
| Line (s : string)
| ErrorPanel (title : string) (m : message)
| HealthPanel (status : string) (healthy : bool)
| HealthTable (rows : list (string * bool))
| Field (label : string) (v : pyval)
| Duration (ms : float)
| UploadPanel (index : Z) (status : string) (result : pydict) (ms : float)
| DownloadPanel (index : Z) (path : string) (ms : float)
| Progress (description : string)
| ProgressAdvance
| BulkSummary (success failed : Z)
| Pretty (data : printed).

(** Rich reads the text of what [console.print] is given as markup.  The
    texts of the program itself and the operator's own arguments (URL,
    hash, paths, pattern) are taken to hold no markup of their own;
    [server_text] tells the items into which text of a response, or of an
    exception other than the two whose message is fixed or made of the hash,
    is interpolated. *)
Definition message_from_server (m : message) : bool :=
  match m with
  | NotFoundMessage _ | ZkpMessage _ => false
  | ApiMessage _ _ | NetworkMessage _ | LocalFileMessage _ | SdkMessage _
  | UnexpectedMessage _ => true
  end.

Definition server_text (x : shown) : bool :=
  match x with
  | ErrorPanel _ m => message_from_server m
  | HealthPanel _ _ | HealthTable _ | Field _ _ | UploadPanel _ _ _ _ => true
  | Line _ | Duration _ | DownloadPanel _ _ _ | Progress _ | ProgressAdvance
  | BulkSummary _ _ | Pretty _ => false
  end.

(** What only the command layer touches: the readings [time.perf_counter]
    will give, the two output streams, the calls of [time.sleep], and the
    renderer: [rejects x] is the message of the [MarkupError] that Rich
    raises when given [x], [None] when it renders [x]. *)
Record console : Type := mkConsole {
  clock : list float;
  stdout : list printed;
  stderr : list shown;
  slept : list Q;
  rejects : shown -> option string }.

(** The state of a running command; [vars] holds the local variables that
    the command assigns inside its [try] blocks and loops. *)
Record state (L : Type) : Type := mkState {
  nd : node;
  con : console;
  vars : L }.
Arguments mkState {L} nd con vars.
Arguments nd {L} s.
Arguments con {L} s.
Arguments vars {L} s.

(** A call into the SDK. *)
Definition call {L A} (m : M node A) : M (state L) A :=
  fun st =>
    let (nd', r) := m (nd st) in
    (mkState nd' (con st) (vars st), r).

Definition get_vars {L} : M (state L) L :=
  fun st => (st, Returned (vars st)).

Definition set_vars {L} (v : L) : M (state L) unit :=
  fun st => (mkState (nd st) (con st) v, Returned tt).

Definition on_console {L} (f : console -> console) : M (state L) unit :=
  fun st => (mkState (nd st) (f (con st)) (vars st), Returned tt).

(** [time.perf_counter()]: the next reading of the clock (0 when the list
    of readings is exhausted). *)
Definition perf_counter {L} : M (state L) float :=
  fun st =>
    let k := con st in
    (mkState (nd st)
             (mkConsole (tl (clock k)) (stdout k) (stderr k) (slept k) (rejects k))
             (vars st),
     Returned (hd 0%float (clock k))).

(** [time.sleep(delay)]. *)
Definition sleep {L} (delay : Q) : M (state L) unit :=
  on_console (fun k => mkConsole (clock k) (stdout k) (stderr k) (slept k ++ [delay])
                                (rejects k)).

(** What a renderer [r] says of [x]; it is asked only where text of the
    server is interpolated. *)
Definition verdict (r : shown -> option string) (x : shown) : option string :=
  if server_text x then r x else None.
Arguments verdict r x : simpl nomatch.

(** [console.print(...)]: the item is rendered whole before anything is
    written, so a [MarkupError] leaves standard error as it was. *)
Definition console_print {L} (x : shown) : M (state L) unit :=
  fun st =>
    match verdict (rejects (con st)) x with
    | Some msg => (st, Raised (MarkupError msg))
    | None =>
        on_console (fun k => mkConsole (clock k) (stdout k) (stderr k ++ [x]) (slept k)
                                      (rejects k)) st
    end.

(** [print_output]: compact JSON, one line on standard output, or a
    pretty print on the console. *)
Definition print_output {L} (data : printed) (output_format : format) : M (state L) unit :=
  match output_format with
  | Json =>
      on_console (fun k => mkConsole (clock k) (stdout k ++ [data]) (stderr k) (slept k)
                                    (rejects k))
  | Text => console_print (Pretty data)
  end.

(** [(t_end - t_start) * 1000], in binary64. *)
Definition duration_ms (t_start t_end : float) : float :=
  PrimFloat.mul (PrimFloat.sub t_end t_start) 1000%float.

(** [delay > 0]. *)
Definition positive (delay : Q) : bool := negb (Qle_bool delay 0).

(** [range(n)]. *)
Definition range (n : Z) : list Z := map Z.of_nat (seq 0 (Z.to_nat n)).

(** [for x in xs: body x]. *)
Fixpoint for_each {S A} (xs : list A) (body : A -> M S unit) : M S unit :=
  match xs with
  | [] => ret tt
  | x :: xs' => body x ;;; for_each xs' body
  end.

(** [result[key] = value]: item assignment with a string key. *)
Definition set_item {S} (result : pyval) (key : string) (value : pyval) : M S pydict :=
  match result with
  | PyDict d => ret (dict_set key value d)
  | _ => raise (TypeError "object does not support item assignment")
  end.

(** [v.upper()]: only a [str] has the method; the text is kept as it is. *)
Definition str_upper {S} (v : pyval) : M S string :=
  match v with
  | PyStr s => ret s
  | _ => raise (AttributeError "object has no attribute 'upper'")
  end.

(** [v.items()]. *)
Definition items {S} (v : pyval) : M S pydict :=
  match v with
  | PyDict d => ret d
  | _ => raise (AttributeError "object has no attribute 'items'")
  end.

(** The [isinstance] chain of [handle_sdk_error]: title and message. *)
Definition describe (e : exn) : string * message :=
  if is_FileNotFoundErrorOnServer e then
    ("Error", match e with
              | FileNotFoundErrorOnServer r => NotFoundMessage r
              | _ => UnexpectedMessage e
              end)
  else if is_ZKPDisabledError e then ("Warning", ZkpMessage e)
  else if is_APIError e then ("Error", ApiMessage (exn_status_code e) (exn_detail e))
  else if is_NetworkError e then ("Error", NetworkMessage e)
  else if is_FileNotFoundError e then ("Error", LocalFileMessage e)
  else if is_PermastoreItError e then ("Error", SdkMessage e)
  else ("Error", UnexpectedMessage e).

(** [handle_sdk_error]. *)
Definition handle_sdk_error {L} (e : exn) (exit_on_error : bool) : M (state L) message :=
  let (error_title, message) := describe e in
  console_print (ErrorPanel error_title message) ;;;
  if exit_on_error then raise (SystemExit 1) else ret message.

(** [result.get('status') == 'healthy']. *)
Definition is_healthy (result : pydict) : bool :=
  eq_str (dict_get "status" PyNone result) "healthy".

(** The [health] command; [vars] is [exit_code]. *)
Definition health (c : client) (output_format : format) : M (state Z) unit :=
  console_print (Line ("Fetching health from " ++ base_url c ++ "...")) ;;;
  set_vars 0 ;;;
  try_except
    (t_start <- perf_counter ;;
     result <- call (get_health c) ;;
     t_end <- perf_counter ;;
     let duration_ms := duration_ms t_start t_end in
     result <- set_item result "query_time_ms" (PyFloat duration_ms) ;;
     match output_format with
     | Json => print_output (OutValue (PyDict result)) Json
     | Text =>
         status <- str_upper (dict_get "status" (PyStr "UNKNOWN") result) ;;
         console_print (HealthPanel status (is_healthy result)) ;;;
         components <- items (dict_get "components" (PyDict []) result) ;;
         console_print
           (HealthTable (map (fun kv => (fst kv, truthy (snd kv))) components)) ;;;
         console_print (Field "Node ID" (dict_get "node_id" (PyStr "N/A") result)) ;;;
         console_print (Field "Files Stored" (dict_get "files_stored" (PyStr "N/A") result)) ;;;
         console_print
           (Field "Blockchain Length" (dict_get "blockchain_length" (PyStr "N/A") result)) ;;;
         console_print
           (Field "DHT Peers (Known)" (dict_get "peers_connected" (PyStr "N/A") result)) ;;;
         console_print (Duration duration_ms)
     end ;;;
     if negb (is_healthy result) then set_vars 2 else ret tt)
    [ (is_Exception, fun e => handle_sdk_error e true ;;; ret tt) ] ;;;
  exit_code <- get_vars ;;
  raise (SystemExit exit_code).

(** The local variables of the repeatable commands. *)
Record repeat_vars : Type := mkRepeatVars {
  results_data : list record;
  overall_success : bool }.

Definition append_result (r : record) : M (state repeat_vars) unit :=
  v <- get_vars ;;
  set_vars (mkRepeatVars (results_data v ++ [r]) (overall_success v)).

Definition set_overall_success (b : bool) : M (state repeat_vars) unit :=
  v <- get_vars ;;
  set_vars (mkRepeatVars (results_data v) b).

(** The lines that follow the loop of [upload] and of [download]. *)
Definition finish_repeat (repeat : Z) (output_format : format)
  : M (state repeat_vars) unit :=
  match output_format with
  | Json =>
      v <- get_vars ;;
      for_each (results_data v) (fun res => print_output (OutRecord res) Json)
  | Text => ret tt
  end ;;;
  v <- get_vars ;;
  if negb (overall_success v) && (1 <? repeat) then raise (SystemExit 1) else ret tt.

(** The [except Exception] clause of the loops of [upload] and [download]. *)
Definition record_failure (repeat : Z) (t_start : float) (e : exn)
  : M (state repeat_vars) unit :=
  t_end <- perf_counter ;;
  let duration_ms := duration_ms t_start t_end in
  set_overall_success false ;;;
  error_message <- handle_sdk_error e (repeat =? 1) ;;
  append_result (Failure None error_message duration_ms).

(** The [try] block in the loop of the [upload] command. *)
Definition upload_attempt (c : client) (file_path : string) (output_format : format)
           (i : Z) (t_start : float) : M (state repeat_vars) unit :=
  result <- call (SDK.upload c file_path) ;;
  t_end <- perf_counter ;;
  let duration_ms := duration_ms t_start t_end in
  result <- set_item result "upload_time_ms" (PyFloat duration_ms) ;;
  append_result (Success (PyDict result)) ;;;
  match output_format with
  | Text =>
      status <- str_upper (dict_get "status" (PyStr "N/A") result) ;;
      console_print (UploadPanel (i + 1) status result duration_ms)
  | Json => ret tt
  end.

(** One iteration of the loop of the [upload] command. *)
Definition upload_iteration (c : client) (file_path : string) (repeat : Z) (delay : Q)
           (output_format : format) (i : Z) : M (state repeat_vars) unit :=
  (if (0 <? i) && positive delay then sleep delay else ret tt) ;;;
  (if 1 <? repeat
   then console_print (Line ("-- Attempt " ++ Py.str_of_int (i + 1) ++ "/"
                             ++ Py.str_of_int repeat ++ " --"))
   else ret tt) ;;;
  t_start <- perf_counter ;;
  try_except (upload_attempt c file_path output_format i t_start)
    [ (is_Exception, record_failure repeat t_start) ].

(** The [upload] command. *)
Definition upload (c : client) (file_path : string) (repeat : Z) (delay : Q)
           (output_format : format) : M (state repeat_vars) unit :=
  console_print (Line ("Uploading '" ++ basename file_path ++ "' ...")) ;;;
  set_vars (mkRepeatVars [] true) ;;;
  for_each (range repeat) (upload_iteration c file_path repeat delay output_format) ;;;
  finish_repeat repeat output_format.

(** [f"{save_filename_base}.{i}" if repeat > 1 else save_filename_base]. *)
Definition attempt_filename (save_filename_base : string) (repeat i : Z) : string :=
  if 1 <? repeat then save_filename_base ++ "." ++ Py.str_of_int i
  else save_filename_base.

(** The [try] block in the loop of the [download] command. *)
Definition download_attempt (c : client) (file_hash out_dir save_filename : string)
           (output_format : format) (i : Z) (t_start : float) : M (state repeat_vars) unit :=
  call (makedirs out_dir) ;;;
  downloaded_path <- call (SDK.download c file_hash out_dir (Some save_filename)) ;;
  t_end <- perf_counter ;;
  let duration_ms := duration_ms t_start t_end in
  let result_data := PyDict [("downloaded_path", PyStr downloaded_path);
                             ("download_time_ms", PyFloat duration_ms)] in
  append_result (Success result_data) ;;;
  match output_format with
  | Text => console_print (DownloadPanel (i + 1) downloaded_path duration_ms)
  | Json => ret tt
  end.

(** One iteration of the loop of the [download] command. *)
Definition download_iteration (c : client) (file_hash out_dir save_filename_base : string)
           (repeat : Z) (delay : Q) (output_format : format) (i : Z)
  : M (state repeat_vars) unit :=
  let save_filename := attempt_filename save_filename_base repeat i in
  let target_path := path_join out_dir save_filename in
  (if (0 <? i) && positive delay then sleep delay else ret tt) ;;;
  (if 1 <? repeat
   then console_print (Line ("-- Attempt " ++ Py.str_of_int (i + 1) ++ "/"
                             ++ Py.str_of_int repeat ++ " -> " ++ target_path ++ " --"))
   else ret tt) ;;;
  t_start <- perf_counter ;;
  try_except (download_attempt c file_hash out_dir save_filename output_format i t_start)
    [ (is_Exception, record_failure repeat t_start) ].

(** The [download] command; [name] is [None] without [--name]. *)
Definition download (c : client) (file_hash out_dir : string) (name : option string)
           (repeat : Z) (delay : Q) (output_format : format)
  : M (state repeat_vars) unit :=
  let save_filename_base :=
    match name with
    | Some n => if String.eqb n EmptyString then file_hash else n
    | None => file_hash
    end in
  console_print (Line ("Downloading hash '" ++ file_hash ++ "' ...")) ;;;
  set_vars (mkRepeatVars [] true) ;;;
  for_each (range repeat)
           (download_iteration c file_hash out_dir save_filename_base repeat delay
                               output_format) ;;;
  finish_repeat repeat output_format.

(** The local variables of [upload_bulk]. *)
Record bulk_vars : Type := mkBulkVars {
  bulk_results : list record;
  success_count : Z;
  fail_count : Z }.

(** [[f for f in glob.glob(os.path.join(directory_path, pattern))
      if os.path.isfile(f)]]. *)
Definition find_files (directory_path pattern : string) : M node (list string) :=
  fun n => (n, Returned (filter (isfile n) (glob n (path_join directory_path pattern)))).

(** The [try] block in the loop of [upload_bulk]. *)
Definition bulk_attempt (c : client) (file_path : string) (t_start : float)
  : M (state bulk_vars) unit :=
  result <- call (SDK.upload c file_path) ;;
  t_end <- perf_counter ;;
  let duration_ms := duration_ms t_start t_end in
  result <- set_item result "upload_time_ms" (PyFloat duration_ms) ;;
  let result := dict_set "source_file" (PyStr file_path) result in
  v <- get_vars ;;
  set_vars (mkBulkVars (bulk_results v ++ [Success (PyDict result)])
                       (success_count v + 1) (fail_count v)).

(** The [except Exception] clause in the loop of [upload_bulk]. *)
Definition bulk_failure (file_path : string) (t_start : float) (e : exn)
  : M (state bulk_vars) unit :=
  t_end <- perf_counter ;;
  let duration_ms := duration_ms t_start t_end in
  error_message <- handle_sdk_error e false ;;
  v <- get_vars ;;
  set_vars (mkBulkVars
              (bulk_results v ++ [Failure (Some file_path) error_message duration_ms])
              (success_count v) (fail_count v + 1)).

(** One iteration of the loop of [upload_bulk]. *)
Definition bulk_iteration (c : client) (delay : Q) (file_path : string)
  : M (state bulk_vars) unit :=
  (if positive delay then sleep delay else ret tt) ;;;
  console_print (Progress ("Uploading " ++ basename file_path ++ "...")) ;;;
  t_start <- perf_counter ;;
  try_except (bulk_attempt c file_path t_start)
    [ (is_Exception, bulk_failure file_path t_start) ] ;;;
  console_print ProgressAdvance.

(** The [upload_bulk] command. *)
Definition upload_bulk (c : client) (directory_path pattern : string) (delay : Q)
           (output_format : format) : M (state bulk_vars) unit :=
  console_print (Line ("Uploading files matching '" ++ pattern ++ "' from '"
                       ++ directory_path ++ "' ...")) ;;;
  files_to_upload <-
    try_except (call (find_files directory_path pattern))
      [ (is_Exception,
         fun e => console_print (Line "Error finding files") ;;; raise (SystemExit 1)) ] ;;
  match files_to_upload with
  | [] => console_print (Line "No files found matching pattern.")
  | _ =>
      console_print (Line ("Found " ++ Py.str_of_int (Z.of_nat (List.length files_to_upload))
                           ++ " file(s).")) ;;;
      set_vars (mkBulkVars [] 0 0) ;;;
      console_print (Progress "Uploading...") ;;;
      for_each files_to_upload (bulk_iteration c delay) ;;;
      v <- get_vars ;;
      console_print (BulkSummary (success_count v) (fail_count v)) ;;;
      match output_format with
      | Json =>
          print_output (OutSummary (Z.of_nat (List.length files_to_upload))
                                   (success_count v) (fail_count v)) Json ;;;
          for_each (bulk_results v) (fun res => print_output (OutRecord res) Json)
      | Text => ret tt
      end
  end.

(** The exit status of the process running a command: the code given to
    [sys.exit], 0 when the command returns, 1 when an exception escapes. *)
Definition exit_status {A} (r : result A) : Z :=
  match r with
  | Returned _ => 0
  | Raised (SystemExit code) => code
  | Raised _ => 1
  end.

(** The common body of the commands [status], [info] and [zkp]: one call
    of the SDK, the elapsed time added to the payload, the payload
    printed; any exception goes to [handle_sdk_error], which exits. *)
Definition fetch_and_print (fetch : M node pyval) (output_format : format)
  : M (state unit) unit :=
  try_except
    (t_start <- perf_counter ;;
     result <- call fetch ;;
     t_end <- perf_counter ;;
     let duration_ms := duration_ms t_start t_end in
     result <- set_item result "query_time_ms" (PyFloat duration_ms) ;;
     print_output (OutValue (PyDict result)) output_format)
    [ (is_Exception, fun e => handle_sdk_error e true ;;; ret tt) ].

(** The [status] command. *)
Definition status (c : client) (output_format : format) : M (state unit) unit :=
  console_print (Line ("Fetching status from " ++ base_url c ++ "...")) ;;;
  fetch_and_print (get_status c) output_format.

(** The [info] command. *)
Definition info (c : client) (file_hash : string) (output_format : format)
  : M (state unit) unit :=
  console_print (Line ("Getting info for hash '" ++ file_hash ++ "' ...")) ;;;
  fetch_and_print (get_file_info c file_hash) output_format.

(** The [zkp] command. *)
Definition zkp (c : client) (file_hash : string) (output_format : format)
  : M (state unit) unit :=
  console_print (Line ("Generating ZKP for hash '" ++ file_hash ++ "' ...")) ;;;
  fetch_and_print (get_zk_proof c file_hash) output_format.

(** The [get_metrics] command. *)
Definition get_metrics (c : client) (output_format : format) : M (state unit) unit :=
  console_print (Line "Fetching metrics ...") ;;;
  try_except
    ((if negb (hasattr "get_metrics") then
        console_print (Line "SDK method 'get_metrics()' not found.") ;;;
        raise (SystemExit 1)
      else ret tt) ;;;
     t_start <- perf_counter ;;
     let result := [("placeholder", PyStr "Backend /metrics endpoint not implemented");
                    ("status", PyStr "not_implemented")] in
     t_end <- perf_counter ;;
     let duration_ms := duration_ms t_start t_end in
     let result := dict_set "query_time_ms" (PyFloat duration_ms) result in
     print_output (OutValue (PyDict result)) output_format)
    [ (is_Exception, fun e => handle_sdk_error e true ;;; ret tt) ].

End CLI.

(* ================================================================== *)
(** * Vocabulary of the properties *)
(* ================================================================== *)

(** What the statements below speak of: the request a call sends, the
    exception it leaves with, the outcomes of a sequence of attempts, the
    sample inputs. *)
Module Spec.

Import Py SDK CLI.

(** ** Strings *)

(** [c.join(parts)] for a list that is not empty. *)
Fixpoint join (c : ascii) (parts : list string) : string :=
  match parts with
  | [] => EmptyString
  | [p] => p
  | p :: rest => p ++ String c (join c rest)
  end.

(** ** The SDK *)

(** The request [_make_request] hands to the session. *)
Definition sent_request (c : client) (method endpoint : string) (kw : kwargs) : request :=
  mkRequest method (request_url c endpoint)
            (match kw_timeout kw with Some t => t | None => timeout c end)
            (kw_params kw) (kw_files kw) (kw_stream kw).

(** The exception [_make_request] leaves with on a response that is not ok. *)
Definition rejection (endpoint : string) (r : response) : exn :=
  match json_body r with
  | Some (PyDict data) => classify endpoint r (dict_get "detail" PyNone data)
  | Some _ => AttributeError "object has no attribute 'get'"
  | None =>
      classify endpoint r
        (if negb (String.eqb (text r) EmptyString) then PyStr (take 200 (text r))
         else PyStr ("No detail provided (Status: " ++ str_of_int (status_code r) ++ ")"))
  end.

(** The exception [_make_request] leaves with when the transport fails. *)
Definition transport_error (url : string) (f : failure) : exn :=
  match f with
  | TimedOut m => NetworkError ("Request timed out connecting to " ++ url ++ ": ") (Timeout m)
  | Unreachable m =>
      NetworkError ("Connection error connecting to " ++ url ++ ": ") (ConnectionError m)
  | Broken m => NetworkError ("Network request error for " ++ url ++ ": ") (RequestException m)
  | DiskError m => OSError m
  end.

(** The exceptions that leave [_make_request]. *)
Definition leaves_make_request (e : exn) : bool :=
  match e with
  | APIError _ _ _ | FileNotFoundErrorOnServer _ | ZKPDisabledError
  | NetworkError _ _ | AttributeError _ | OSError _ => true
  | _ => false
  end.

(** The endpoint is one of the three resource prefixes followed by one
    path segment [seg]. *)
Definition resource_shape (endpoint seg : string) : Prop :=
  exists p, In p resource_prefixes /\ free_of slash seg = true /\
            lstrip slash endpoint = p ++ "/" ++ seg.

(** A body that lets lines 95-101 compute a detail: it is not JSON, or it
    is a JSON object. *)
Definition plain_body (r : response) : Prop :=
  json_body r = None \/ exists data, json_body r = Some (PyDict data).

(** A node where every path is a readable regular file of unknown MIME
    type, in front of a server that would accept an upload. *)
Definition untyped_file : node :=
  mkNode [Reply (mkResponse 201 "{}" (Some (PyDict [("hash", PyStr "h")])))]
         (fun _ => true) (fun _ => None) (fun _ => Some "data")
         (fun _ => []) (fun _ => false) (fun _ => None) [].

(** A node that only has a script of replies. *)
Definition scripted (replies : list reply) : node :=
  mkNode replies (fun _ => false) (fun _ => None) (fun _ => None) (fun _ => [])
         (fun _ => false) (fun _ => None) [].

(** What [upload] does for a regular file with a resolved MIME type that
    can be opened: one POST to [/upload], then the decoded body. *)
Definition upload_request (c : client) (file_path content content_type : string)
  : request :=
  mkRequest "POST" (request_url c "/upload") (Z.max (timeout c * 2) 120) []
            [("file", mkPart (basename file_path) content content_type)] false.

(** A positive integer: an [int] whose value is at least 1. *)
Definition positive_integer (v : pyval) : bool :=
  match int_value v with
  | Some z => 1 <=? z
  | None => false
  end.

(** [m] never leaves with [SystemExit]: whatever it raises, an
    [except Exception] clause takes. *)
Definition never_exits {A} (m : M node A) : Prop :=
  forall n n' e, m n = (n', Raised e) -> is_Exception e = true.

(** ** The command layer *)

(** [m] returns [a] from [st], changing at most the console. *)
Definition console_step {L A} (m : M (state L) A) (st : state L) (a : A) (k : console)
  : Prop :=
  m st = (mkState (nd st) k (vars st), Returned a).


(** A degraded health payload. *)
Definition degraded_body : pydict :=
  [("status", PyStr "degraded");
   ("components", PyDict [("storage", PyBool true); ("dht", PyBool false)])].

(** SDK calls made one after the other on the node: their outcomes, and
    the node they leave. *)
Fixpoint attempts {A} (calls : list (M node A)) (n : node) : list (result A) * node :=
  match calls with
  | [] => ([], n)
  | m :: rest =>
      let (n1, o) := m n in
      let (os, n2) := attempts rest n1 in
      (o :: os, n2)
  end.

(** A step that returns [a], changes at most the console, writes nothing
    on standard output and keeps the renderer. *)
Definition quiet_step {L A} (m : M (state L) A) (st : state L) (a : A) (k : console)
  : Prop :=
  console_step m st a k /\ stdout k = stdout (con st) /\ rejects k = rejects (con st).

(** An upload attempt succeeds when [client.upload] returns an object. *)
Definition upload_ok (o : result pyval) : bool :=
  match o with
  | Returned (PyDict _) => true
  | _ => false
  end.

(** An upload result can be shown in text form: [status] is absent or a
    string. *)
Definition presentable (output_format : format) (o : result pyval) : Prop :=
  match output_format, o with
  | Text, Returned (PyDict d) => exists s, dict_get "status" (PyStr "N/A") d = PyStr s
  | _, _ => True
  end.

(** What attempt [i] of the [download] command asks of the SDK and of the
    file system. *)
Definition download_work (c : client) (file_hash out_dir : string) (name : option string)
           (repeat : Z) (i : Z) : M node string :=
  let save_filename_base :=
    match name with
    | Some n => if String.eqb n EmptyString then file_hash else n
    | None => file_hash
    end in
  bind (makedirs out_dir) (fun _ =>
  SDK.download c file_hash out_dir (Some (attempt_filename save_filename_base repeat i))).

(** A download attempt succeeds when [client.download] returns. *)
Definition download_ok (o : result string) : bool :=
  match o with
  | Returned _ => true
  | Raised _ => false
  end.

(** The summaries among what was shown. *)
Fixpoint summaries_of (l : list shown) : list (Z * Z) :=
  match l with
  | [] => []
  | BulkSummary s f :: l' => (s, f) :: summaries_of l'
  | _ :: l' => summaries_of l'
  end.



(** A directory of three files, the second without a MIME type, and a
    server that accepts the first upload it gets and refuses the next. *)
Definition three_files : node :=
  mkNode [Reply (mkResponse 201 "{}" (Some (PyDict [("status", PyStr "success")])));
          Reply (mkResponse 500 "busy" None)]
         (fun _ => true)
         (fun p => if String.eqb p "d/b" then None else Some "text/plain")
         (fun _ => Some "data")
         (fun _ => ["d/a.txt"; "d/b"; "d/c.txt"])
         (fun _ => false) (fun _ => None) [].

(** The common shape of one iteration of the loops of [upload] and
    [download]: [try_block i t] is the [try] block of iteration [i] started
    at clock reading [t], [line i] the line that announces the attempt. *)
Definition iteration (try_block : Z -> float -> M (state repeat_vars) unit)
           (line : Z -> string) (repeat : Z) (delay : Q) (i : Z)
  : M (state repeat_vars) unit :=
  bind (if (0 <? i) && positive delay then sleep delay else ret tt) (fun _ =>
  bind (if 1 <? repeat then console_print (Line (line i)) else ret tt) (fun _ =>
  bind perf_counter (fun t_start =>
  try_except (try_block i t_start) [ (is_Exception, record_failure repeat t_start) ]))).

(** The common shape of the two commands around that loop. *)
Definition command (try_block : Z -> float -> M (state repeat_vars) unit)
           (line : Z -> string) (repeat : Z) (delay : Q) (intro : string)
           (output_format : format) : M (state repeat_vars) unit :=
  bind (console_print (Line intro)) (fun _ =>
  bind (set_vars (mkRepeatVars [] true)) (fun _ =>
  bind (for_each (range repeat) (iteration try_block line repeat delay)) (fun _ =>
  finish_repeat repeat output_format))).

(** ** Further vocabulary *)

(** A GET request with the default timeout of the client. *)
Definition get_request (c : client) (url_path : string) (params : pydict) (stream : bool)
  : request :=
  mkRequest "GET" (base_url c ++ url_path) (timeout c) params [] stream.

(** The file name [download] saves under: the hash when no name, or an
    empty one, is given. *)
Definition saved_as (file_hash : string) (save_filename : option string) : string :=
  match save_filename with
  | Some n => if String.eqb n EmptyString then file_hash else n
  | None => file_hash
  end.

(** A node whose directories can be created and whose files can be
    written, in front of a server with the given replies. *)
Definition writable (replies : list reply) : node :=
  mkNode replies (fun _ => true) (fun _ => Some "text/plain") (fun _ => Some "data")
         (fun _ => []) (fun _ => false) (fun _ => None) [].

(** A fresh console and a command state around a node. *)
Definition fresh_console : console := mkConsole [] [] [] [] (fun _ => None).

Definition fresh {L} (n : node) (v : L) : state L := mkState n fresh_console v.

(** Some replies. *)
Definition reply_json (code : Z) (v : pyval) : reply :=
  Reply (mkResponse code "{}" (Some v)).

Definition reply_text (code : Z) (body : string) : reply :=
  Reply (mkResponse code body None).

(** A single-shot command and the call of the SDK it makes. *)
Definition single_shot (c : client) (fetch : M node pyval)
           (cmd : format -> M (state unit) unit) : Prop :=
  (fetch = get_status c /\ cmd = status c)
  \/ (exists h, fetch = get_file_info c h /\ cmd = info c h)
  \/ (exists h, fetch = get_zk_proof c h /\ cmd = zkp c h).


(** The exit code that [health] gives for a payload that it could show. *)
Definition health_code (d : pydict) : Z := if is_healthy d then 0 else 2.

(** The exception with which the [try] block of an attempt ends when the
    attempt fails: the one the SDK raised or, for an upload whose result is
    not an object, the [TypeError] of the item assignment. *)
Definition error_of {A} (o : result A) : exn :=
  match o with
  | Raised e => e
  | Returned _ => TypeError "object does not support item assignment"
  end.

(** A path that holds no NUL character. *)
Definition no_nul (path : string) : bool := free_of Ascii.zero path.

(** ** The renderer *)

(** A console whose renderer takes whatever it is given. *)
Definition accepts (k : console) : Prop := forall x, rejects k x = None.

(** The panel [handle_sdk_error] shows for an exception. *)
Definition panel_of (e : exn) : shown :=
  ErrorPanel (fst (describe e)) (snd (describe e)).

(** The position of the first bracket of [s] when that bracket opens the
    closing tag [[/]] and no backslash comes before it: a tag that, in a
    text whose earlier tags are all closed, has nothing to close. *)
Fixpoint closes_nothing (s : string) : option nat :=
  match s with
  | EmptyString => None
  | String a s' =>
      if Ascii.eqb a "["%char then (if String.prefix "/]" s' then Some O else None)
      else if Ascii.eqb a "\"%char then None
      else option_map Datatypes.S (closes_nothing s')
  end.

(** What Rich does with the panel of an API error whose detail is a
    string: its text is ["API Error ([bold]<status>[/]): <detail>"], the tag
    of the program is closed before the detail starts, so a detail that
    [closes_nothing] is rejected, with this message.  [strict] answers for
    these panels only and takes everything else. *)
Definition strict (x : shown) : option string :=
  match x with
  | ErrorPanel _ (ApiMessage status (PyStr detail)) =>
      match closes_nothing detail with
      | Some i =>
          let position :=
            (String.length ("API Error ([bold]" ++ str_of_int status ++ "[/]): ") + i)%nat in
          Some ("closing tag '[/]' at position " ++ str_of_int (Z.of_nat position)
                ++ " has nothing to close")
      | None => None
      end
  | _ => None
  end.

Definition strict_console : console := mkConsole [] [] [] [] strict.

(** The number of requests a node has been sent. *)
Definition requests_sent (n : node) : nat := List.length (requests_of (log n)).

(** A computation lets a measure of the state grow by at most [k]. *)
Definition grows_by {St A} (size : St -> nat) (k : nat) (m : M St A) : Prop :=
  forall s, (size (fst (m s)) <= size s + k)%nat.

(** The number of requests sent when a command is in a given state. *)
Definition sent_so_far {L} (st : state L) : nat := requests_sent (nd st).

End Spec.

(* ================================================================== *)
(** * Facts about the string primitives *)
(* ================================================================== *)

Module PyFacts.

Import Py Spec.

Example lstrip_ex : lstrip slash "//download/ab" = "download/ab".
Proof. reflexivity. Qed.

Example rstrip_ex : rstrip slash "http://h:5000///" = "http://h:5000".
Proof. reflexivity. Qed.

Example split_ex : split slash "download/ab/" = ["download"; "ab"; EmptyString].
Proof. reflexivity. Qed.

Example lower_ex : lower "/ZKP/Ab" = "/zkp/ab".
Proof. reflexivity. Qed.

Example contains_ex : contains "zkp" "/zk-proof/abc" = false.
Proof. reflexivity. Qed.

Example str_of_int_ex : str_of_int 404 = "404".
Proof. reflexivity. Qed.

(** *** [lstrip] *)

Lemma lstrip_replicate_app (c : ascii) (j : nat) (s : string) :
  lstrip c (replicate j c ++ s) = lstrip c s.
Proof.
  induction j as [|j IH]; simpl; [reflexivity|].
  now rewrite Ascii.eqb_refl.
Qed.

Lemma lstrip_decompose (c : ascii) (s : string) :
  exists j, s = replicate j c ++ lstrip c s /\ starts_with c (lstrip c s) = false.
Proof.
  induction s as [|a s [j [Hs Hn]]].
  - now exists O.
  - simpl. destruct (Ascii.eqb a c) eqn:E.
    + apply Ascii.eqb_eq in E; subst a.
      exists (S j); simpl; split; [now f_equal | exact Hn].
    + exists O; simpl; split; [reflexivity | exact E].
Qed.

Lemma lstrip_fixed (c : ascii) (s : string) :
  starts_with c s = false -> lstrip c s = s.
Proof. destruct s as [|a s]; simpl; [reflexivity | now intros ->]. Qed.

(** *** [rstrip] *)

Lemma rstrip_replicate (c : ascii) (k : nat) : rstrip c (replicate k c) = EmptyString.
Proof.
  induction k as [|k IH]; simpl; [reflexivity|].
  now rewrite IH, Ascii.eqb_refl.
Qed.

Lemma rstrip_app_replicate (c : ascii) (k : nat) (s : string) :
  rstrip c (s ++ replicate k c) = rstrip c s.
Proof.
  induction s as [|a s IH]; simpl.
  - apply rstrip_replicate.
  - now rewrite IH.
Qed.

Lemma rstrip_decompose (c : ascii) (s : string) :
  exists k, s = rstrip c s ++ replicate k c /\ ends_with c (rstrip c s) = false.
Proof.
  induction s as [|a s [k [Hs Hn]]].
  - now exists O.
  - simpl. destruct (rstrip c s) as [|b r] eqn:R.
    + destruct (Ascii.eqb a c) eqn:E.
      * apply Ascii.eqb_eq in E; subst a.
        exists (S k); simpl; split; [now f_equal | reflexivity].
      * exists k; simpl; split; [now f_equal | exact E].
    + exists k; split; [simpl; now f_equal | exact Hn].
Qed.

Lemma rstrip_fixed (c : ascii) (s : string) :
  ends_with c s = false -> rstrip c s = s.
Proof.
  induction s as [|a s IH]; [reflexivity|].
  simpl. destruct s as [|b s'].
  - simpl. now intros ->.
  - intros H. rewrite (IH H). reflexivity.
Qed.

(** *** [split] *)

Lemma split_nonempty (c : ascii) (s : string) : split c s <> [].
Proof.
  induction s as [|a s IH]; simpl; [discriminate|].
  destruct (Ascii.eqb a c); [discriminate|].
  destruct (split c s); discriminate.
Qed.

Lemma join_split (c : ascii) (s : string) : join c (split c s) = s.
Proof.
  induction s as [|a s IH]; [reflexivity|].
  simpl. destruct (Ascii.eqb a c) eqn:E.
  - apply Ascii.eqb_eq in E; subst a.
    pose proof (split_nonempty c s) as Hne.
    destruct (split c s) as [|h t]; [contradiction|].
    simpl in *. now rewrite IH.
  - pose proof (split_nonempty c s) as Hne.
    destruct (split c s) as [|h t]; [contradiction|].
    destruct t as [|h' t']; simpl in *; now rewrite <- IH.
Qed.

Lemma split_parts_free (c : ascii) (s : string) :
  Forall (fun p => free_of c p = true) (split c s).
Proof.
  induction s as [|a s IH]; simpl.
  - repeat constructor.
  - destruct (Ascii.eqb a c) eqn:E.
    + constructor; [reflexivity | exact IH].
    + destruct (split c s) as [|h t]; [repeat constructor; simpl; now rewrite E|].
      inversion IH; subst. constructor; [simpl; now rewrite E | assumption].
Qed.

Lemma split_free (c : ascii) (s : string) :
  free_of c s = true -> split c s = [s].
Proof.
  induction s as [|a s IH]; [reflexivity|].
  simpl. destruct (Ascii.eqb a c); simpl; [discriminate|].
  intros H. now rewrite (IH H).
Qed.

Lemma split_app (c : ascii) (p rest : string) :
  free_of c p = true -> split c (p ++ String c rest) = p :: split c rest.
Proof.
  induction p as [|a p IH]; simpl.
  - now rewrite Ascii.eqb_refl.
  - destruct (Ascii.eqb a c); simpl; [discriminate|].
    intros H. now rewrite (IH H).
Qed.

(** A string splits in two exactly when it is two parts free of the
    separator around one separator. *)
Lemma split_two (c : ascii) (s a b : string) :
  split c s = [a; b] <->
  s = a ++ String c b /\ free_of c a = true /\ free_of c b = true.
Proof.
  split.
  - intros H. pose proof (join_split c s) as J. pose proof (split_parts_free c s) as F.
    rewrite H in J, F. simpl in J.
    inversion F as [|? ? Fa F']; subst. inversion F' as [|? ? Fb _]; subst.
    now repeat split.
  - intros [-> [Fa Fb]]. rewrite (split_app _ _ _ Fa). now rewrite (split_free _ _ Fb).
Qed.

End PyFacts.

(* ================================================================== *)
(** * Properties of the SDK *)
(* ================================================================== *)

Module SDKSpec.

Import Py PyFacts SDK Spec.

(** ** What one call of [_make_request] does *)

Lemma classify_cases (endpoint : string) (r : response) (detail : pyval) :
  (exists id, classify endpoint r detail = FileNotFoundErrorOnServer id) \/
  classify endpoint r detail = ZKPDisabledError \/
  (exists d, classify endpoint r detail = APIError (status_code r) d (text r)).
Proof.
  unfold classify, mkAPIError.
  destruct (status_code r =? 404).
  - destruct (_ && _); [left | right; right]; eauto.
  - destruct (_ && _); [right; left | right; right]; eauto.
Qed.

Lemma classify_is_APIError (endpoint : string) (r : response) (detail : pyval) :
  is_APIError (classify endpoint r detail) = true.
Proof.
  destruct (classify_cases endpoint r detail) as [[id ->] | [-> | [d ->]]]; reflexivity.
Qed.

Lemma APIError_not_transport (e : exn) :
  is_APIError e = true ->
  is_Timeout e = false /\ is_ConnectionError e = false /\ is_RequestException e = false
  /\ is_IOError e = false /\ is_Exception e = true.
Proof. destruct e; simpl; intros H; try discriminate; repeat split. Qed.

Lemma make_request_eq (c : client) (method endpoint : string) (kw : kwargs) (n : node) :
  _make_request c method endpoint kw n =
  let n1 := add_event (Sent (sent_request c method endpoint kw)) n in
  match script n with
  | Reply r :: rest =>
      (set_script rest n1, if ok r then Returned r else Raised (rejection endpoint r))
  | Fails f :: rest =>
      (set_script rest n1, Raised (transport_error (request_url c endpoint) f))
  | [] =>
      (n1, Raised (NetworkError ("Connection error connecting to "
                                  ++ request_url c endpoint ++ ": ")
                                (ConnectionError "no reply")))
  end.
Proof.
  unfold _make_request, transport_handler, try_except, bind, session_request.
  fold (sent_request c method endpoint kw). simpl.
  destruct (script n) as [|[r|f] rest]; simpl; [reflexivity | | destruct f; reflexivity].
  destruct (ok r); simpl; [reflexivity|].
  unfold error_detail, rejection.
  destruct (json_body r) as [[| | | | | |d]|]; simpl; try reflexivity.
  - destruct (APIError_not_transport _ (classify_is_APIError endpoint r (dict_get "detail" PyNone d)))
      as (-> & -> & -> & _). reflexivity.
  - match goal with |- context [classify endpoint r ?d] =>
      destruct (APIError_not_transport _ (classify_is_APIError endpoint r d))
        as (-> & -> & -> & _) end.
    reflexivity.
Qed.

(** Every call sends exactly one request, to [request_url]. *)
Lemma make_request_log (c : client) (method endpoint : string) (kw : kwargs) (n : node) :
  log (fst (_make_request c method endpoint kw n)) =
  (log n ++ [Sent (sent_request c method endpoint kw)])%list.
Proof.
  rewrite make_request_eq. simpl.
  destruct (script n) as [|[r|f] rest]; reflexivity.
Qed.

Lemma rejection_leaves (endpoint : string) (r : response) :
  leaves_make_request (rejection endpoint r) = true.
Proof.
  unfold rejection.
  destruct (json_body r) as [[| | | | | |d]|]; try reflexivity;
    match goal with |- context [classify endpoint r ?d] =>
      destruct (classify_cases endpoint r d) as [[id ->] | [-> | [d' ->]]] end;
    reflexivity.
Qed.

Lemma make_request_outcome (c : client) (method endpoint : string) (kw : kwargs) (n : node) :
  match snd (_make_request c method endpoint kw n) with
  | Returned r => ok r = true
  | Raised e => leaves_make_request e = true
  end.
Proof.
  rewrite make_request_eq. simpl.
  destruct (script n) as [|[r|f] rest]; simpl; [reflexivity | | destruct f; reflexivity].
  destruct (ok r) eqn:E; [exact E | apply rejection_leaves].
Qed.

Lemma requests_of_app (l l' : list event) :
  requests_of (l ++ l') = (requests_of l ++ requests_of l')%list.
Proof.
  induction l as [|ev l IH]; [reflexivity|].
  destruct ev; simpl; rewrite IH; reflexivity.
Qed.

(** ** URL of the outgoing request *)

(** C10. The URL of a request is the base URL without its trailing
    slashes, one slash, and the endpoint without its leading slashes:
    (1) stated on a base [b0] that ends in no slash followed by [k] slashes
    and an endpoint [e0] that starts with no slash preceded by [j] slashes;
    (2) every base URL and every endpoint is of that form; (3) so the
    numbers of trailing and leading slashes do not change the URL;
    (4) and that URL is the one of the request [_make_request] sends. *)
Theorem request_url_strips_slashes :
  (forall b0 e0 k j t,
      ends_with slash b0 = false -> starts_with slash e0 = false ->
      request_url (__init__ (b0 ++ replicate k slash) t) (replicate j slash ++ e0)
      = b0 ++ "/" ++ e0)
  /\ (forall b e, exists b0 k e0 j,
         b = b0 ++ replicate k slash /\ ends_with slash b0 = false /\
         e = replicate j slash ++ e0 /\ starts_with slash e0 = false)
  /\ (forall b0 e0 k k' j j' t t',
         request_url (__init__ (b0 ++ replicate k slash) t) (replicate j slash ++ e0)
         = request_url (__init__ (b0 ++ replicate k' slash) t') (replicate j' slash ++ e0))
  /\ (forall b t method e kw n,
         exists req,
           requests_of (log (fst (_make_request (__init__ b t) method e kw n)))
           = (requests_of (log n) ++ [req])%list
           /\ req_url req = rstrip slash b ++ "/" ++ lstrip slash e).
Proof.
  repeat split.
  - intros b0 e0 k j t Hb He. unfold request_url, __init__; simpl.
    rewrite rstrip_app_replicate, lstrip_replicate_app.
    now rewrite (rstrip_fixed _ _ Hb), (lstrip_fixed _ _ He).
  - intros b e.
    destruct (rstrip_decompose slash b) as [k [Hb Hb']].
    destruct (lstrip_decompose slash e) as [j [He He']].
    exists (rstrip slash b), k, (lstrip slash e), j. now repeat split.
  - intros. unfold request_url, __init__; simpl.
    now rewrite !rstrip_app_replicate, !lstrip_replicate_app.
  - intros b t method e kw n.
    exists (sent_request (__init__ b t) method e kw).
    rewrite make_request_log, requests_of_app. split; reflexivity.
Qed.

Lemma request_url_strips_slashes_witness :
  ends_with slash "http://h:5000" = false /\ starts_with slash "status" = false /\
  request_url (__init__ ("http://h:5000" ++ replicate 2 slash) 60)
              (replicate 3 slash ++ "status")
  = "http://h:5000/status".
Proof.
  split; [reflexivity | split; [reflexivity|]].
  apply (proj1 request_url_strips_slashes "http://h:5000" "status" 2%nat 3%nat 60);
    reflexivity.
Defined.

(** ** Classification of a 404 *)

Lemma resource_prefix_free (p : string) :
  In p resource_prefixes -> free_of slash p = true.
Proof. intros [<- | [<- | [<- | []]]]; reflexivity. Qed.

Lemma str_in_In (x : string) (l : list string) : str_in x l = true <-> In x l.
Proof.
  unfold str_in. rewrite existsb_exists. split.
  - intros [y [Hy E]]. apply String.eqb_eq in E. now subst.
  - intros H. exists x. split; [exact H | apply String.eqb_refl].
Qed.

(** Lines 104-108 on a resource endpoint. *)
Lemma classify_404_resource (endpoint seg : string) (r : response) (detail : pyval) :
  status_code r = 404 -> resource_shape endpoint seg ->
  classify endpoint r detail = FileNotFoundErrorOnServer seg.
Proof.
  intros Hs (p & Hp & Hseg & He). unfold classify. rewrite Hs, He. simpl (404 =? 404).
  cbv iota.
  assert (Hsplit : split slash (p ++ "/" ++ seg) = [p; seg]).
  { apply split_two. repeat split; auto using resource_prefix_free. }
  rewrite Hsplit. simpl List.length. simpl nth.
  apply str_in_In in Hp. rewrite Hp. reflexivity.
Qed.

(** Lines 109-110 on any other endpoint. *)
Lemma classify_404_other (endpoint : string) (r : response) (detail : pyval) :
  status_code r = 404 -> (forall seg, ~ resource_shape endpoint seg) ->
  classify endpoint r detail
  = mkAPIError 404 (py_or detail (PyStr "Resource not found")) (text r).
Proof.
  intros Hs Hno. unfold classify. rewrite Hs. simpl (404 =? 404). cbv iota.
  destruct (_ && _) eqn:T; [exfalso | reflexivity].
  apply andb_true_iff in T. destruct T as [Hlen Hin].
  destruct (split slash (lstrip slash endpoint)) as [|a [|b [|x t]]] eqn:Sp;
    try discriminate.
  change (str_in a resource_prefixes = true) in Hin. apply str_in_In in Hin.
  apply split_two in Sp. destruct Sp as (E & _ & Fb).
  apply (Hno b). exists a. now repeat split.
Qed.

Lemma not_ok_404 (r : response) : status_code r = 404 -> ok r = false.
Proof. unfold ok. now intros ->. Qed.

Lemma not_ok_501 (r : response) : status_code r = 501 -> ok r = false.
Proof. unfold ok. now intros ->. Qed.

(** [_make_request] on a 404 whose body is not JSON or is a JSON object:
    [FileNotFoundErrorOnServer] with the segment on a resource endpoint,
    a plain [APIError] with status 404 on any other endpoint. *)
Lemma make_request_404 (c : client) (method endpoint : string) (kw : kwargs)
      (n : node) (r : response) (rest : list reply) :
  script n = Reply r :: rest -> status_code r = 404 -> plain_body r ->
  (forall seg, resource_shape endpoint seg ->
     snd (_make_request c method endpoint kw n) = Raised (FileNotFoundErrorOnServer seg))
  /\ ((forall seg, ~ resource_shape endpoint seg) ->
      exists detail,
        snd (_make_request c method endpoint kw n) = Raised (APIError 404 detail (text r))).
Proof.
  intros Hn Hs Hb. rewrite make_request_eq, Hn. cbv zeta. rewrite (not_ok_404 _ Hs).
  unfold rejection. split.
  - intros seg Hshape.
    destruct Hb as [-> | [d ->]]; simpl; now rewrite (classify_404_resource _ seg).
  - intros Hno.
    destruct Hb as [-> | [d ->]]; simpl; rewrite (classify_404_other _ _ _ Hs Hno);
      eexists; reflexivity.
Qed.

(** C4. Lines 104-110 classify a 404 as specified
    ([classify_404_resource], [classify_404_other], [make_request_404]),
    but not every 404 reaches them: when the body is JSON and not an object,
    [data.get("detail")] in line 99 raises [AttributeError], which no
    [except] clause of [_make_request] takes, so the caller gets neither
    [FileNotFoundErrorOnServer] nor [APIError]. *)
Theorem not_found_non_object_body :
  forall (c : client) (method endpoint : string) (kw : kwargs) (n : node)
         (r : response) (rest : list reply) (v : pyval),
    script n = Reply r :: rest -> status_code r = 404 ->
    json_body r = Some v -> (forall data, v <> PyDict data) ->
    snd (_make_request c method endpoint kw n)
    = Raised (AttributeError "object has no attribute 'get'").
Proof.
  intros c method endpoint kw n r rest v Hn Hs Hb Hv.
  rewrite make_request_eq, Hn. cbv zeta. rewrite (not_ok_404 _ Hs).
  unfold rejection. rewrite Hb. simpl.
  destruct v; try reflexivity. now elim (Hv d).
Qed.

Lemma not_found_non_object_body_witness :
  snd (_make_request (__init__ "http://h:5000" 60) "GET" "/download/abc" no_kwargs
                     (scripted [Reply (mkResponse 404 "[]" (Some (PyList [])))]))
  = Raised (AttributeError "object has no attribute 'get'").
Proof.
  apply (not_found_non_object_body _ _ _ _ _
           (mkResponse 404 "[]" (Some (PyList []))) [] (PyList []));
    [reflexivity | reflexivity | reflexivity | discriminate].
Defined.

(** ** A 501 on the ZKP endpoint *)

Lemma lower_app (s t : string) : lower (s ++ t) = lower s ++ lower t.
Proof. induction s as [|a s IH]; simpl; [reflexivity | now rewrite IH]. Qed.

(** The test of line 111 on the endpoint that [get_zk_proof] builds sees
    ["zkp"] only if the hash itself holds it. *)
Lemma zkp_in_zk_proof_endpoint (h : string) :
  contains "zkp" (lower ("/zk-proof/" ++ h)) = contains "zkp" (lower h).
Proof.
  rewrite lower_app. change (lower "/zk-proof/") with "/zk-proof/".
  reflexivity.
Qed.

Lemma classify_501_generic (endpoint : string) (r : response) (detail : pyval) :
  status_code r = 501 -> contains "zkp" (lower endpoint) = false ->
  classify endpoint r detail = mkAPIError 501 detail (text r).
Proof.
  intros Hs Hz. unfold classify. rewrite Hs, Hz. reflexivity.
Qed.

Lemma classify_501_zkp (endpoint : string) (r : response) (detail : pyval) :
  status_code r = 501 -> contains "zkp" (lower endpoint) = true ->
  classify endpoint r detail = ZKPDisabledError.
Proof.
  intros Hs Hz. unfold classify. rewrite Hs, Hz. reflexivity.
Qed.

(** On an endpoint that does hold ["zkp"], a 501 with a body that is an
    object or is not JSON gives [ZKPDisabledError]. *)
Lemma make_request_501_zkp (c : client) (method endpoint : string) (kw : kwargs)
      (n : node) (r : response) (rest : list reply) :
  script n = Reply r :: rest -> status_code r = 501 ->
  contains "zkp" (lower endpoint) = true -> plain_body r ->
  snd (_make_request c method endpoint kw n) = Raised ZKPDisabledError.
Proof.
  intros Hn Hs Hz Hb. rewrite make_request_eq, Hn. cbv zeta. rewrite (not_ok_501 _ Hs).
  unfold rejection.
  destruct Hb as [-> | [d ->]]; simpl; now rewrite (classify_501_zkp _ _ _ Hs Hz).
Qed.

(** C2. [get_zk_proof] asks for ["/zk-proof/<hash>"], line 111 looks for
    ["zkp"] in the lower-cased endpoint, and ["zk-proof"] does not hold
    ["zkp"]: unless the hash does, a 501 answer never gives
    [ZKPDisabledError]; it gives the generic [APIError] with status 501
    when the body is an object or is not JSON. *)
Theorem zk_proof_501_is_generic :
  forall (c : client) (h : string) (n : node) (r : response) (rest : list reply),
    script n = Reply r :: rest -> status_code r = 501 ->
    contains "zkp" (lower h) = false ->
    exists e,
      snd (get_zk_proof c h n) = Raised e /\
      e <> ZKPDisabledError /\
      (plain_body r -> exists detail, e = APIError 501 detail (text r)).
Proof.
  intros c h n r rest Hn Hs Hh.
  exists (rejection ("/zk-proof/" ++ h) r).
  assert (Hz : contains "zkp" (lower ("/zk-proof/" ++ h)) = false)
    by now rewrite zkp_in_zk_proof_endpoint.
  split; [|split].
  - unfold get_zk_proof, bind. rewrite make_request_eq, Hn. cbv zeta.
    now rewrite (not_ok_501 _ Hs).
  - unfold rejection.
    destruct (json_body r) as [[| | | | | |d]|]; try discriminate;
      rewrite (classify_501_generic _ _ _ Hs Hz); discriminate.
  - unfold rejection. intros [-> | [d ->]];
      rewrite (classify_501_generic _ _ _ Hs Hz); eexists; reflexivity.
Qed.

Lemma zk_proof_501_is_generic_witness :
  exists e,
    snd (get_zk_proof (__init__ "http://h:5000" 60) "abc"
           (scripted [Reply (mkResponse 501 "{}"
                               (Some (PyDict [("detail", PyStr "ZKP disabled")])))]))
    = Raised e /\
    e <> ZKPDisabledError /\
    (plain_body (mkResponse 501 "{}" (Some (PyDict [("detail", PyStr "ZKP disabled")])))
     -> exists detail, e = APIError 501 detail "{}").
Proof.
  apply (zk_proof_501_is_generic _ "abc" _
           (mkResponse 501 "{}" (Some (PyDict [("detail", PyStr "ZKP disabled")]))) []);
    reflexivity.
Defined.

(** ** [download] and a 404 *)

Lemma rejection_caught_as_Exception (endpoint : string) (r : response) :
  is_IOError (rejection endpoint r) = false /\ is_Exception (rejection endpoint r) = true.
Proof.
  unfold rejection.
  destruct (json_body r) as [[| | | | | |d]|]; try (split; reflexivity);
    match goal with |- context [classify endpoint r ?d] =>
      destruct (APIError_not_transport _ (classify_is_APIError endpoint r d))
        as (_ & _ & _ & H1 & H2) end;
    now split.
Qed.

(** C1. When the server answers the download request with 404, what
    [_make_request] raises is raised inside the [try] of [download], whose
    last clause is [except Exception]: the exception is taken there, the
    target path is removed, and [download] leaves with a plain
    [PermastoreItError] that has it as cause.  So the caller never gets
    [FileNotFoundErrorOnServer], although that is the exception wrapped
    when the hash is one path segment and the body is an object or is not
    JSON. *)
Theorem download_404_is_wrapped :
  forall (c : client) (h save_dir : string) (name : option string) (n : node)
         (r : response) (rest : list reply),
    makedirs_fails n save_dir = false ->
    script n = Reply r :: rest -> status_code r = 404 ->
    snd (download c h save_dir name n)
    = Raised (PermastoreItError "Unexpected error during download/save: "
                                (rejection ("/download/" ++ h) r))
    /\ snd (download c h save_dir name n) <> Raised (FileNotFoundErrorOnServer h)
    /\ (free_of slash h = true -> plain_body r ->
        rejection ("/download/" ++ h) r = FileNotFoundErrorOnServer h).
Proof.
  intros c h save_dir name n r rest Hmk Hn Hs.
  assert (E : snd (download c h save_dir name n)
              = Raised (PermastoreItError "Unexpected error during download/save: "
                                          (rejection ("/download/" ++ h) r))).
  { unfold download, bind, try_except, makedirs. rewrite Hmk.
    rewrite make_request_eq. cbv zeta.
    change (script (add_event (MadeDirs save_dir) n)) with (script n). rewrite Hn.
    rewrite (not_ok_404 _ Hs).
    destruct (rejection_caught_as_Exception ("/download/" ++ h) r) as [H1 H2].
    unfold handle. rewrite H1, H2. reflexivity. }
  split; [exact E | split].
  - rewrite E. discriminate.
  - intros Hh Hb.
    assert (Hshape : resource_shape ("/download/" ++ h) h)
      by (exists "download"; repeat split; [now left | exact Hh]).
    unfold rejection.
    destruct Hb as [-> | [d ->]]; now apply classify_404_resource.
Qed.

Lemma download_404_is_wrapped_witness :
  let r := mkResponse 404 "{}" (Some (PyDict [("detail", PyStr "File not found")])) in
  let run := download (__init__ "http://h:5000" 60) "abc" "out" None (scripted [Reply r]) in
  snd run = Raised (PermastoreItError "Unexpected error during download/save: "
                                      (rejection ("/download/" ++ "abc") r))
  /\ snd run <> Raised (FileNotFoundErrorOnServer "abc")
  /\ (free_of slash "abc" = true -> plain_body r ->
      rejection ("/download/" ++ "abc") r = FileNotFoundErrorOnServer "abc").
Proof.
  apply (download_404_is_wrapped (__init__ "http://h:5000" 60) "abc" "out" None
           (scripted [Reply (mkResponse 404 "{}"
                               (Some (PyDict [("detail", PyStr "File not found")])))])
           _ []); reflexivity.
Defined.

(** ** [upload] *)

(** C3. For a regular file whose MIME type [guess_type] does not resolve,
    line 174 evaluates [sys.stderr], and permastoreit_sdk.py never imports
    [sys]: [upload] leaves with [NameError] there, with the node as it
    was, so no warning is written and no request is sent. *)
Theorem upload_unresolved_mime_raises :
  forall (c : client) (file_path : string) (n : node),
    isfile n file_path = true -> guess_type n file_path = None ->
    upload c file_path n = (n, Raised (NameError "sys"))
    /\ warnings_of (log (fst (upload c file_path n))) = warnings_of (log n)
    /\ requests_of (log (fst (upload c file_path n))) = requests_of (log n).
Proof.
  intros c file_path n Hf Hg.
  assert (E : upload c file_path n = (n, Raised (NameError "sys"))).
  { unfold upload. rewrite Hf, Hg. reflexivity. }
  rewrite E. repeat split.
Qed.

Lemma upload_unresolved_mime_raises_witness :
  upload (__init__ "http://h:5000" 60) "notes/README" untyped_file
  = (untyped_file, Raised (NameError "sys")).
Proof.
  apply (upload_unresolved_mime_raises (__init__ "http://h:5000" 60) "notes/README");
    reflexivity.
Defined.

(** C8. Every request that [upload] sends carries the timeout
    [max(2 * t, 120)], [t] the default timeout of the client, which is at
    least [2 * t] and at least 120; and [upload] sends exactly one request
    when the file is regular, its MIME type resolves and it can be opened. *)
Theorem upload_timeout :
  forall (c : client) (file_path : string) (n : node),
    exists sent,
      requests_of (log (fst (upload c file_path n))) = (requests_of (log n) ++ sent)%list
      /\ Forall (fun req => req_timeout req = Z.max (2 * timeout c) 120) sent
      /\ 2 * timeout c <= Z.max (2 * timeout c) 120
      /\ 120 <= Z.max (2 * timeout c) 120
      /\ (forall content content_type,
            isfile n file_path = true ->
            guess_type n file_path = Some content_type ->
            file_content n file_path = Some content ->
            sent = [upload_request c file_path content content_type]).
Proof.
  intros c file_path n.
  assert (Hnone : forall n' : node, log n' = log n ->
            (forall content content_type,
               isfile n file_path = true ->
               guess_type n file_path = Some content_type ->
               file_content n file_path = Some content -> False) ->
            exists sent,
              requests_of (log n') = (requests_of (log n) ++ sent)%list
              /\ Forall (fun req => req_timeout req = Z.max (2 * timeout c) 120) sent
              /\ 2 * timeout c <= Z.max (2 * timeout c) 120
              /\ 120 <= Z.max (2 * timeout c) 120
              /\ (forall content content_type,
                    isfile n file_path = true ->
                    guess_type n file_path = Some content_type ->
                    file_content n file_path = Some content ->
                    sent = [upload_request c file_path content content_type])).
  { intros n' Hl Habs. exists []. rewrite Hl, app_nil_r.
    split; [reflexivity | split; [constructor | split; [lia | split; [lia|]]]].
    intros content ct H1 H2 H3. elim (Habs content ct H1 H2 H3). }
  assert (B1 : 2 * timeout c <= Z.max (2 * timeout c) 120) by lia.
  assert (B2 : 120 <= Z.max (2 * timeout c) 120) by lia.
  assert (B3 : Z.max (timeout c * 2) 120 = Z.max (2 * timeout c) 120)
    by (f_equal; lia).
  unfold upload.
  destruct (isfile n file_path) eqn:Hf; cbv beta iota delta [negb].
  2:{ apply Hnone; [reflexivity | discriminate]. }
  destruct (guess_type n file_path) as [ct|] eqn:Hg.
  2:{ apply Hnone; [reflexivity | discriminate]. }
  unfold bind at 1. unfold ret at 1. cbv beta iota.
  unfold try_except, bind, open_rb.
  destruct (file_content n file_path) as [content|] eqn:Hc.
  2:{ apply Hnone; [reflexivity | discriminate]. }
  exists [upload_request c file_path content ct].
  split; [| split; [| split; [exact B1 | split; [exact B2|]]]].
  - pose proof (make_request_log c "POST" "/upload"
                  (mkKwargs (Some (Z.max (timeout c * 2) 120)) []
                            [("file", mkPart (basename file_path) content ct)] false) n)
      as Hlog.
    destruct (_make_request c "POST" "/upload" _ n) as [s' [a|e]]; simpl in Hlog.
    + unfold response_json. destruct (json_body a); simpl;
        rewrite Hlog, requests_of_app; reflexivity.
    + unfold handle. destruct (is_IOError e); simpl;
        rewrite Hlog, requests_of_app; reflexivity.
  - constructor; [exact B3 | constructor].
  - intros content' ct' _ Hct Hcontent. congruence.
Qed.

Lemma upload_timeout_witness :
  let c := __init__ "http://h:5000" 60 in
  let n := mkNode [Reply (mkResponse 201 "{}" (Some (PyDict [("hash", PyStr "h")])))]
                  (fun _ => true) (fun _ => Some "text/plain") (fun _ => Some "data")
                  (fun _ => []) (fun _ => false) (fun _ => None) [] in
  requests_of (log (fst (upload c "a/b.txt" n)))
  = [upload_request c "a/b.txt" "data" "text/plain"]
  /\ req_timeout (upload_request c "a/b.txt" "data" "text/plain") = 120.
Proof.
  intros c n.
  destruct (upload_timeout c "a/b.txt" n) as (sent & Hlog & _ & _ & _ & Hone).
  rewrite Hlog, (Hone "data" "text/plain"); repeat split; reflexivity.
Defined.

(** ** Validation of [limit] *)

Lemma bad_limit_spec (v : pyval) : bad_limit v = negb (positive_integer v).
Proof.
  unfold bad_limit, positive_integer.
  destruct v as [|b|z|q|s|l|d]; simpl; try reflexivity.
  - now destruct b.
  - destruct (z <? 1) eqn:E1, (1 <=? z) eqn:E2; try reflexivity; lia.
Qed.

(** A request followed by [response.json()]: one request goes out, and
    the call does not end with the [ValueError] of the [limit] check. *)
Lemma fetch_json (c : client) (method endpoint : string) (kw : kwargs) (n : node) :
  let run := bind (_make_request c method endpoint kw) response_json n in
  requests_of (log (fst run))
  = (requests_of (log n) ++ [sent_request c method endpoint kw])%list
  /\ snd run <> Raised limit_error.
Proof.
  cbv zeta. unfold bind.
  pose proof (make_request_log c method endpoint kw n) as Hlog.
  pose proof (make_request_outcome c method endpoint kw n) as Hout.
  destruct (_make_request c method endpoint kw n) as [s' [a|e]]; simpl in *.
  - unfold response_json. destruct (json_body a); simpl;
      rewrite Hlog, requests_of_app; split; try reflexivity; discriminate.
  - rewrite Hlog, requests_of_app. split; [reflexivity|].
    intros H. injection H as ->. discriminate.
Qed.

(** C9. [list_files] with a limit that is given and is not a positive
    integer, and [search] with a limit that is not a positive integer,
    leave with the [ValueError] of the check and the node untouched: no
    request has been sent.  With a positive integer (or no limit for
    [list_files]) the call sends its request and does not end with that
    error. *)
Theorem limit_validation :
  (forall (c : client) (limit : pyval) (n : node),
      limit <> PyNone -> positive_integer limit = false ->
      list_files c limit n = (n, Raised limit_error))
  /\ (forall (c : client) (query : string) (limit : pyval) (n : node),
         positive_integer limit = false ->
         search c query limit n = (n, Raised limit_error))
  /\ (forall (c : client) (limit : pyval) (n : node),
         limit = PyNone \/ positive_integer limit = true ->
         snd (list_files c limit n) <> Raised limit_error
         /\ exists req,
             requests_of (log (fst (list_files c limit n)))
             = (requests_of (log n) ++ [req])%list
             /\ req_url req = request_url c "/files")
  /\ (forall (c : client) (query : string) (limit : pyval) (n : node),
         positive_integer limit = true ->
         snd (search c query limit n) <> Raised limit_error
         /\ exists req,
             requests_of (log (fst (search c query limit n)))
             = (requests_of (log n) ++ [req])%list
             /\ req_url req = request_url c "/search").
Proof.
  split; [| split; [| split]].
  - intros c limit n Hnone Hbad. unfold list_files.
    assert (B : bad_limit limit = true) by (rewrite bad_limit_spec, Hbad; reflexivity).
    destruct limit; try (now elim Hnone); unfold bind; rewrite B; reflexivity.
  - intros c query limit n Hbad. unfold search.
    assert (B : bad_limit limit = true) by (rewrite bad_limit_spec, Hbad; reflexivity).
    rewrite B. reflexivity.
  - intros c limit n Hok.
    assert (E : exists params,
               list_files c limit n
               = bind (_make_request c "GET" "/files" (mkKwargs None params [] false))
                      response_json n).
    { unfold list_files. destruct Hok as [-> | Hpos]; [now exists []|].
      assert (B : bad_limit limit = false) by (rewrite bad_limit_spec, Hpos; reflexivity).
      destruct limit; try discriminate; rewrite B; eexists; reflexivity. }
    destruct E as [params ->].
    destruct (fetch_json c "GET" "/files" (mkKwargs None params [] false) n) as [Hl Hr].
    split; [exact Hr | eexists; split; [exact Hl | reflexivity]].
  - intros c query limit n Hpos. unfold search.
    assert (B : bad_limit limit = false) by (rewrite bad_limit_spec, Hpos; reflexivity).
    rewrite B.
    destruct (fetch_json c "GET" "/search"
                (mkKwargs None [("query", PyStr query); ("limit", limit)] [] false) n)
      as [Hl Hr].
    split; [exact Hr | eexists; split; [exact Hl | reflexivity]].
Qed.

Lemma limit_validation_witness :
  list_files (__init__ "http://h:5000" 60) (PyInt 0) (scripted [])
  = (scripted [], Raised limit_error)
  /\ search (__init__ "http://h:5000" 60) "cat" (PyInt (-1)) (scripted [])
     = (scripted [], Raised limit_error)
  /\ snd (list_files (__init__ "http://h:5000" 60) PyNone (scripted []))
     <> Raised limit_error
  /\ snd (search (__init__ "http://h:5000" 60) "cat" (PyInt 10) (scripted []))
     <> Raised limit_error.
Proof.
  destruct limit_validation as (H1 & H2 & H3 & H4).
  split; [| split; [| split]].
  - apply H1; [discriminate | reflexivity].
  - apply H2; reflexivity.
  - apply (H3 _ PyNone); now left.
  - apply (H4 _ "cat" (PyInt 10)); reflexivity.
Defined.

(** ** The SDK raises ordinary exceptions only *)

Lemma never_exits_ret {A} (a : A) : never_exits (ret a).
Proof. intros n n' e H. discriminate. Qed.

Lemma never_exits_raise {A} (e : exn) :
  is_Exception e = true -> never_exits (@raise node A e).
Proof. intros He n n' e' H. injection H as _ <-. exact He. Qed.

Lemma never_exits_bind {A B} (m : M node A) (k : A -> M node B) :
  never_exits m -> (forall a, never_exits (k a)) -> never_exits (bind m k).
Proof.
  intros Hm Hk n n' e. unfold bind.
  destruct (m n) as [n1 [a|e1]] eqn:E.
  - apply Hk.
  - intros H. injection H as _ <-. exact (Hm _ _ _ E).
Qed.

Lemma never_exits_handle {A} (clauses : list (clause node A)) (e : exn) :
  is_Exception e = true ->
  Forall (fun cl => forall e', never_exits (snd cl e')) clauses ->
  never_exits (handle clauses e).
Proof.
  intros He Hcl. induction Hcl as [|[cls h] rest Hh _ IH]; simpl.
  - now apply never_exits_raise.
  - destruct (cls e); [apply Hh | exact IH].
Qed.

Lemma never_exits_try_except {A} (m : M node A) (clauses : list (clause node A)) :
  never_exits m ->
  Forall (fun cl => forall e', never_exits (snd cl e')) clauses ->
  never_exits (try_except m clauses).
Proof.
  intros Hm Hcl n n' e. unfold try_except.
  destruct (m n) as [n1 [a|e1]] eqn:E.
  - discriminate.
  - apply never_exits_handle; [exact (Hm _ _ _ E) | exact Hcl].
Qed.

Lemma leaves_is_Exception (e : exn) : leaves_make_request e = true -> is_Exception e = true.
Proof. destruct e; simpl; intros H; try discriminate; reflexivity. Qed.

Lemma never_exits_make_request (c : client) (method endpoint : string) (kw : kwargs) :
  never_exits (_make_request c method endpoint kw).
Proof.
  intros n n' e H. pose proof (make_request_outcome c method endpoint kw n) as Ho.
  rewrite H in Ho. now apply leaves_is_Exception.
Qed.

Lemma never_exits_response_json (r : response) : never_exits (response_json r).
Proof.
  unfold response_json. destruct (json_body r);
    [apply never_exits_ret | now apply never_exits_raise].
Qed.

Lemma never_exits_emit (ev : event) : never_exits (emit ev).
Proof. intros n n' e H. discriminate. Qed.

Lemma never_exits_makedirs (save_dir : string) : never_exits (makedirs save_dir).
Proof.
  intros n n' e. unfold makedirs. destruct (makedirs_fails n save_dir); intros H.
  - now injection H as _ <-.
  - discriminate.
Qed.

Lemma failure_is_Exception (f : failure) : is_Exception (exn_of_failure f) = true.
Proof. now destruct f. Qed.

Lemma never_exits_write_file (path content : string) : never_exits (write_file path content).
Proof.
  intros n n' e. unfold write_file. destruct (write_error n path); intros H.
  - injection H as _ <-. apply failure_is_Exception.
  - discriminate.
Qed.

Lemma never_exits_get_health (c : client) : never_exits (get_health c).
Proof.
  apply never_exits_bind;
    [apply never_exits_make_request | apply never_exits_response_json].
Qed.

Lemma never_exits_upload (c : client) (file_path : string) :
  never_exits (upload c file_path).
Proof.
  intros n n' e. unfold upload.
  destruct (isfile n file_path); simpl negb; cbv iota.
  2:{ now apply never_exits_raise. }
  apply never_exits_bind.
  - destruct (guess_type n file_path).
    + apply never_exits_ret.
    + apply never_exits_bind; [now apply never_exits_raise|].
      intros _. apply never_exits_bind; [apply never_exits_emit|].
      intros _. apply never_exits_ret.
  - intros ct. apply never_exits_try_except.
    + apply never_exits_bind.
      * intros m m' e'. unfold open_rb. destruct (file_content m file_path); intros H;
          [discriminate | now injection H as _ <-].
      * intros f. apply never_exits_bind;
          [apply never_exits_make_request | apply never_exits_response_json].
    + repeat constructor. intros e'. now apply never_exits_raise.
Qed.

Lemma never_exits_download (c : client) (h save_dir : string) (name : option string) :
  never_exits (download c h save_dir name).
Proof.
  unfold download. apply never_exits_bind.
  - apply never_exits_try_except; [apply never_exits_makedirs|].
    repeat constructor. intros e'. now apply never_exits_raise.
  - intros _. apply never_exits_try_except.
    + apply never_exits_bind; [apply never_exits_make_request|].
      intros r. apply never_exits_bind; [apply never_exits_write_file|].
      intros _. apply never_exits_ret.
    + repeat constructor; intros e'; simpl;
        (apply never_exits_bind; [apply never_exits_emit|]);
        intros _; now apply never_exits_raise.
Qed.

End SDKSpec.

(* ================================================================== *)
(** * Properties of the command layer *)
(* ================================================================== *)

Module CLISpec.

Import Py PyFacts SDK SDKSpec CLI Spec.

(** ** Dictionaries *)

Lemma dict_lookup_set_other (k k' : string) (v : pyval) (d : pydict) :
  k <> k' -> dict_lookup k (dict_set k' v d) = dict_lookup k d.
Proof.
  intros Hk. induction d as [|[k1 v1] d IH]; simpl.
  - destruct (String.eqb_spec k k'); [contradiction | reflexivity].
  - destruct (String.eqb_spec k' k1) as [->|Hk1]; simpl.
    + destruct (String.eqb_spec k k1); [contradiction | reflexivity].
    + destruct (String.eqb_spec k k1); [reflexivity | exact IH].
Qed.

Lemma dict_get_set_other (k k' : string) (default v : pyval) (d : pydict) :
  k <> k' -> dict_get k default (dict_set k' v d) = dict_get k default d.
Proof. intros Hk. unfold dict_get. now rewrite dict_lookup_set_other. Qed.

(** ** Running a command on a symbolic state *)

(** Unfolding the operations of the state monad, to run a command on a
    symbolic state.  What is shown without text of the server goes
    through; the other items are left to the [verdict] of the renderer. *)
Ltac run_monad :=
  unfold bind, try_except, print_output, console_print, sleep, on_console,
    set_vars, get_vars, perf_counter, call, ret, raise;
  cbn [nd con vars clock stdout stderr slept rejects verdict server_text
       message_from_server].

(** ** The renderer *)

Lemma verdict_accepts (r : shown -> option string) (x : shown) :
  (forall y, r y = None) -> verdict r x = None.
Proof. intros H. unfold verdict. rewrite H. now destruct (server_text x). Qed.

(** With a renderer that takes it, [console_print] shows the item. *)
Lemma console_print_shown {L} (x : shown) (st : state L) :
  verdict (rejects (con st)) x = None ->
  console_print x st
  = (mkState (nd st)
             (mkConsole (clock (con st)) (stdout (con st)) (stderr (con st) ++ [x])
                        (slept (con st)) (rejects (con st)))
             (vars st),
     Returned tt).
Proof. intros H. unfold console_print. now rewrite H. Qed.

Lemma console_print_rejected {L} (x : shown) (st : state L) (m : string) :
  verdict (rejects (con st)) x = Some m ->
  console_print x st = (st, Raised (MarkupError m)).
Proof. intros H. unfold console_print. now rewrite H. Qed.

(** [handle_sdk_error] in its two outcomes. *)
Lemma handle_sdk_error_run {L} (e : exn) (exit_on_error : bool) (st : state L) :
  handle_sdk_error e exit_on_error st
  = match verdict (rejects (con st)) (panel_of e) with
    | Some m => (st, Raised (MarkupError m))
    | None =>
        (mkState (nd st)
                 (mkConsole (clock (con st)) (stdout (con st))
                            (stderr (con st) ++ [panel_of e])
                            (slept (con st)) (rejects (con st)))
                 (vars st),
         if exit_on_error then Raised (SystemExit 1) else Returned (snd (describe e)))
    end.
Proof.
  unfold handle_sdk_error, panel_of. destruct (describe e) as [title msg]. cbn [fst snd].
  unfold bind, console_print.
  destruct (verdict (rejects (con st)) (ErrorPanel title msg)); [reflexivity|].
  unfold on_console. cbn [nd con vars]. destruct exit_on_error; reflexivity.
Qed.

(** The clause [except Exception as e: handle_sdk_error(e)] of the
    commands that make one call: whatever the renderer does, the process
    ends with exit status 1, the node and standard output as they were. *)
Lemma exit_clause {L} (e : exn) (st : state L) :
  is_Exception e = true ->
  exists st' e',
    handle [ (is_Exception,
              fun e0 : exn => bind (handle_sdk_error e0 true) (fun _ => @ret (state L) unit tt)) ]
           e st
    = (st', Raised e')
    /\ (e' = SystemExit 1 \/ exists m, e' = MarkupError m)
    /\ nd st' = nd st /\ vars st' = vars st
    /\ stdout (con st') = stdout (con st).
Proof.
  intros He. unfold handle. rewrite He. unfold bind. rewrite handle_sdk_error_run.
  destruct (verdict (rejects (con st)) (panel_of e)) as [m|].
  - exists st, (MarkupError m). repeat split. right. now exists m.
  - eexists. exists (SystemExit 1). repeat split. now left.
Qed.

Lemma exit_status_either {A} (e : exn) :
  e = SystemExit 1 \/ (exists m, e = MarkupError m) ->
  exit_status (@Raised A e) = 1.
Proof. intros [-> | [m ->]]; reflexivity. Qed.

(** ** The [health] command *)

Lemma get_health_200 (c : client) (n : node) (r : response) (rest : list reply)
      (v : pyval) :
  script n = Reply r :: rest -> status_code r = 200 -> json_body r = Some v ->
  get_health c n
  = (set_script rest (add_event (Sent (sent_request c "GET" "/health" no_kwargs)) n),
     Returned v).
Proof.
  intros Hn Hs Hb. unfold get_health, bind. rewrite make_request_eq, Hn. cbv zeta.
  unfold ok. rewrite Hs. simpl. unfold response_json. now rewrite Hb.
Qed.

Lemma is_healthy_set (k : string) (v : pyval) (d : pydict) :
  k <> "status" -> is_healthy (dict_set k v d) = is_healthy d.
Proof.
  intros Hk. unfold is_healthy. rewrite dict_get_set_other; [reflexivity|].
  intros E. now apply Hk.
Qed.


(** In JSON form [health] prints the payload, with the elapsed time, and
    exits with the code of its status. *)
Lemma health_json (c : client) (st : state Z) (r : response) (rest : list reply)
      (d : pydict) :
  script (nd st) = Reply r :: rest -> status_code r = 200 ->
  json_body r = Some (PyDict d) ->
  exists st' t,
    health c Json st = (st', Raised (SystemExit (health_code d)))
    /\ stdout (con st')
       = (stdout (con st)
          ++ [OutValue (PyDict (dict_set "query_time_ms" (PyFloat t) d))])%list.
Proof.
  intros Hn Hs Hb. pose proof (get_health_200 c _ _ _ _ Hn Hs Hb) as G.
  unfold health. run_monad. rewrite G. unfold set_item. run_monad.
  rewrite is_healthy_set by discriminate. unfold health_code.
  destruct (is_healthy d); cbn [negb]; run_monad;
    eexists; eexists; split; reflexivity.
Qed.


(** In text form a [status] that is not a string cannot be shown: the
    process ends with exit status 1 whatever the status says. *)
Lemma health_text_unshown (c : client) (st : state Z) (r : response) (rest : list reply)
      (d : pydict) :
  script (nd st) = Reply r :: rest -> status_code r = 200 ->
  json_body r = Some (PyDict d) ->
  (forall s, dict_get "status" (PyStr "UNKNOWN") d <> PyStr s) ->
  exit_status (snd (health c Text st)) = 1.
Proof.
  intros Hn Hs Hb Hst. pose proof (get_health_200 c _ _ _ _ Hn Hs Hb) as G.
  unfold health. run_monad. rewrite G. unfold set_item. run_monad.
  unfold str_upper. rewrite dict_get_set_other by discriminate.
  destruct (dict_get "status" (PyStr "UNKNOWN") d) eqn:E;
    try (now elim (Hst s));
    run_monad; unfold handle; cbn [is_Exception fst snd];
    rewrite handle_sdk_error_run; cbn [con rejects];
    match goal with
    | |- context [verdict ?r ?x] => destruct (verdict r x)
    end; reflexivity.
Qed.

(** C6. A 200 health response whose body is an object with a [status]
    other than ["healthy"]: [get_health] returns the decoded body, and in
    JSON form the [health] command ends with [sys.exit(2)].  In text form,
    the default, the exit code 2 is set only after the payload has been
    shown, inside the same [try]: when [status] is not a string (null, a
    number, ...) its [upper()] raises, the [except] clause takes the
    exception and the process ends with exit status 1, the code of a call
    that fails. *)
Theorem health_degraded_exit_code :
  forall (c : client) (st : state Z) (r : response) (rest : list reply) (d : pydict),
    script (nd st) = Reply r :: rest -> status_code r = 200 ->
    json_body r = Some (PyDict d) -> is_healthy d = false ->
    snd (get_health c (nd st)) = Returned (PyDict d)
    /\ snd (health c Json st) = Raised (SystemExit 2)
    /\ ((forall s, dict_get "status" (PyStr "UNKNOWN") d <> PyStr s) ->
        exit_status (snd (health c Text st)) = 1).
Proof.
  intros c st r rest d Hn Hs Hb Hh.
  split; [| split].
  - now rewrite (get_health_200 c _ _ _ _ Hn Hs Hb).
  - destruct (health_json c st r rest d Hn Hs Hb) as (st' & t & E & _).
    rewrite E. unfold health_code. now rewrite Hh.
  - now apply (health_text_unshown c st r rest d).
Qed.

Lemma health_degraded_exit_code_witness :
  let d := [("status", PyNone); ("components", PyDict [("storage", PyBool true)])] in
  let st := mkState (scripted [reply_json 200 (PyDict d)]) fresh_console 0 in
  snd (health (__init__ "http://h:5000" 60) Json st) = Raised (SystemExit 2)
  /\ exit_status (snd (health (__init__ "http://h:5000" 60) Text st)) = 1.
Proof.
  intros d st.
  destruct (health_degraded_exit_code (__init__ "http://h:5000" 60) st
              (mkResponse 200 "{}" (Some (PyDict d))) [] d
              eq_refl eq_refl eq_refl eq_refl)
    as (_ & J & T).
  split; [exact J | apply T]. intros s. discriminate.
Defined.

(** ** The repeatable commands *)

Lemma attempts_length {A} (calls : list (M node A)) (n : node) :
  List.length (fst (attempts calls n)) = List.length calls.
Proof.
  revert n. induction calls as [|m rest IH]; intros n; simpl; [reflexivity|].
  destruct (m n) as [n1 o]. specialize (IH n1).
  destruct (attempts rest n1) as [os n2]. simpl in *. now rewrite IH.
Qed.

Lemma range_length (n : Z) : List.length (range n) = Z.to_nat n.
Proof. unfold range. now rewrite length_map, length_seq. Qed.

Lemma range_first (n : Z) : 0 < n -> exists rest, range n = 0 :: rest.
Proof.
  intros Hn. unfold range. destruct (Z.to_nat n) as [|k] eqn:E; [lia|].
  simpl. eexists. reflexivity.
Qed.

Lemma accepts_same (k k' : console) : rejects k = rejects k' -> accepts k' -> accepts k.
Proof. unfold accepts. now intros ->. Qed.

Lemma bind_console_step {L A B} (m : M (state L) A) (f : A -> M (state L) B)
      (st : state L) (a : A) (k : console) :
  console_step m st a k -> bind m f st = f a (mkState (nd st) k (vars st)).
Proof. unfold console_step, bind. now intros ->. Qed.

Lemma optional_sleep_quiet {L} (b : bool) (q : Q) (st : state L) :
  exists k, quiet_step (if b then sleep q else ret tt) st tt k.
Proof.
  destruct b; eexists; repeat split; try reflexivity.
  unfold console_step, ret. destruct st; reflexivity.
Qed.

Lemma optional_print_quiet {L} (b : bool) (x : shown) (st : state L) :
  server_text x = false ->
  exists k, quiet_step (if b then console_print x else ret tt) st tt k.
Proof.
  intros Hx. destruct b.
  - eexists. unfold quiet_step, console_step, console_print, verdict. rewrite Hx.
    repeat split.
  - exists (con st). repeat split. unfold console_step, ret. destruct st; reflexivity.
Qed.

Lemma perf_counter_quiet {L} (st : state L) :
  exists t k, quiet_step perf_counter st t k.
Proof. eexists. eexists. repeat split. Qed.

(** The [except] clause of the loop, in its three outcomes: the failure is
    shown and recorded, and the loop goes on; or, when the command does not
    repeat, the process exits; or the renderer rejects the panel, and the
    [MarkupError] leaves the clause, and the loop, with nothing recorded. *)
Lemma record_failure_batch (repeat : Z) (t : float) (e : exn) (st : state repeat_vars) :
  (repeat =? 1) = false -> verdict (rejects (con st)) (panel_of e) = None ->
  exists k rec,
    record_failure repeat t e st
    = (mkState (nd st) k (mkRepeatVars (results_data (vars st) ++ [rec]) false),
       Returned tt)
    /\ succeeded rec = false /\ stdout k = stdout (con st)
    /\ rejects k = rejects (con st).
Proof.
  intros Hr Hv. unfold record_failure, set_overall_success, append_result.
  run_monad. rewrite handle_sdk_error_run. cbn [con rejects]. rewrite Hv, Hr.
  cbn [nd con vars]. eexists. eexists. repeat split.
Qed.

Lemma record_failure_rejected (repeat : Z) (t : float) (e : exn) (st : state repeat_vars)
      (m : string) :
  verdict (rejects (con st)) (panel_of e) = Some m ->
  exists k,
    record_failure repeat t e st
    = (mkState (nd st) k (mkRepeatVars (results_data (vars st)) false),
       Raised (MarkupError m))
    /\ stdout k = stdout (con st).
Proof.
  intros Hv. unfold record_failure, set_overall_success, append_result.
  run_monad. rewrite handle_sdk_error_run. cbn [con rejects]. rewrite Hv.
  eexists. repeat split.
Qed.

Lemma record_failure_single (t : float) (e : exn) (st : state repeat_vars) :
  exists k e',
    record_failure 1 t e st
    = (mkState (nd st) k (mkRepeatVars (results_data (vars st)) false), Raised e')
    /\ (e' = SystemExit 1 \/ exists m, e' = MarkupError m)
    /\ stdout k = stdout (con st).
Proof.
  unfold record_failure, set_overall_success, append_result.
  run_monad. rewrite handle_sdk_error_run. cbn [con rejects].
  destruct (verdict (rejects (con st)) (panel_of e)) as [m|]; cbn [nd con vars].
  - eexists. exists (MarkupError m). repeat split. right. now exists m.
  - eexists. exists (SystemExit 1). repeat split. now left.
Qed.

(** The [try] block of [upload]: what it does when the upload gives an
    object that can be shown, and when the upload fails. *)
Lemma upload_attempt_good (c : client) (file_path : string) (output_format : format)
      (i : Z) (t : float) (st : state repeat_vars) (n' : node) (o : result pyval) :
  SDK.upload c file_path (nd st) = (n', o) -> presentable output_format o ->
  upload_ok o = true -> accepts (con st) ->
  exists k rec,
    upload_attempt c file_path output_format i t st
    = (mkState n' k (mkRepeatVars (results_data (vars st) ++ [rec])
                                   (overall_success (vars st))),
       Returned tt)
    /\ succeeded rec = true /\ stdout k = stdout (con st)
    /\ rejects k = rejects (con st).
Proof.
  intros Hu Hp Hok Hacc. unfold upload_attempt, append_result. run_monad. rewrite Hu.
  destruct o as [v|e]; [|discriminate]. destruct v; try discriminate.
  unfold set_item. run_monad. destruct output_format; simpl in Hp.
  - destruct Hp as [s Hs]. unfold str_upper.
    rewrite dict_get_set_other by discriminate. rewrite Hs. run_monad.
    rewrite Hacc. eexists. eexists. repeat split.
  - eexists. eexists. repeat split.
Qed.

Lemma upload_attempt_bad (c : client) (file_path : string) (output_format : format)
      (i : Z) (t : float) (st : state repeat_vars) (n' : node) (o : result pyval) :
  SDK.upload c file_path (nd st) = (n', o) -> upload_ok o = false ->
  exists k,
    upload_attempt c file_path output_format i t st
    = (mkState n' k (vars st), Raised (error_of o))
    /\ is_Exception (error_of o) = true
    /\ stdout k = stdout (con st) /\ rejects k = rejects (con st).
Proof.
  intros Hu Hok. unfold upload_attempt. run_monad. rewrite Hu.
  destruct o as [v|e].
  - destruct v; try discriminate; eexists; repeat split.
  - exists (con st). repeat split. exact (never_exits_upload c file_path _ _ _ Hu).
Qed.

Lemma print_records {L} (recs : list record) (st : state L) :
  for_each recs (fun res => print_output (OutRecord res) Json) st
  = (mkState (nd st)
             (mkConsole (clock (con st)) (stdout (con st) ++ map OutRecord recs)
                        (stderr (con st)) (slept (con st)) (rejects (con st)))
             (vars st),
     Returned tt).
Proof.
  revert st. induction recs as [|r recs IH]; intros st.
  - destruct st as [n [ck so se sl rj] v]. simpl. now rewrite app_nil_r.
  - cbn [for_each]. unfold bind at 1. unfold print_output at 1. unfold on_console.
    rewrite IH. simpl. now rewrite <- app_assoc.
Qed.

(** What follows the loop: the records go to standard output in JSON
    form, and the process exits with 1 when an attempt of a repeated
    command failed. *)
Lemma finish_repeat_run (repeat : Z) (output_format : format) (st : state repeat_vars) :
  exists k,
    finish_repeat repeat output_format st
    = (mkState (nd st) k (vars st),
       if negb (overall_success (vars st)) && (1 <? repeat)
       then Raised (SystemExit 1) else Returned tt)
    /\ stdout k = (stdout (con st)
                   ++ match output_format with
                      | Json => map OutRecord (results_data (vars st))
                      | Text => []
                      end)%list.
Proof.
  unfold finish_repeat. destruct output_format.
  - run_monad. exists (con st). rewrite app_nil_r. split; [|reflexivity].
    destruct st as [n k v]; simpl. destruct (negb (overall_success v) && (1 <? repeat));
      reflexivity.
  - unfold bind at 1. unfold bind at 1. unfold get_vars at 1. rewrite print_records.
    run_monad. eexists.
    split; [destruct (negb (overall_success (vars st)) && (1 <? repeat)); reflexivity
           | reflexivity].
Qed.

(** The common shape of the loops of [upload] and [download]: [sdk i] is
    the work that attempt [i] asks of the SDK, [try_block i t] the [try]
    block, [good] tells the outcomes after which the [try] block ends
    without an exception, [fine] the outcomes it can show. *)
Section RepeatLoop.

Context {A : Type}.
Variable sdk : Z -> M node A.
Variable try_block : Z -> float -> M (state repeat_vars) unit.
Variable good : result A -> bool.
Variable fine : result A -> Prop.
Variable line : Z -> string.
Variables (repeat : Z) (delay : Q).

Local Abbreviation iteration := (Spec.iteration try_block line repeat delay).

Hypothesis try_block_good :
  forall i t st n' o,
    sdk i (nd st) = (n', o) -> fine o -> good o = true -> accepts (con st) ->
    exists k rec,
      try_block i t st
      = (mkState n' k (mkRepeatVars (results_data (vars st) ++ [rec])
                                     (overall_success (vars st))),
         Returned tt)
      /\ succeeded rec = true /\ stdout k = stdout (con st)
      /\ rejects k = rejects (con st).

Hypothesis try_block_bad :
  forall i t st n' o,
    sdk i (nd st) = (n', o) -> good o = false ->
    exists k,
      try_block i t st = (mkState n' k (vars st), Raised (error_of o))
      /\ is_Exception (error_of o) = true
      /\ stdout k = stdout (con st) /\ rejects k = rejects (con st).

(** The state in which the [try] block of iteration [i] starts. *)
Lemma iteration_prefix (i : Z) (st : state repeat_vars) :
  exists t k,
    stdout k = stdout (con st)
    /\ rejects k = rejects (con st)
    /\ iteration i st
       = try_except (try_block i t) [ (is_Exception, record_failure repeat t) ]
                    (mkState (nd st) k (vars st)).
Proof.
  unfold iteration.
  destruct (optional_sleep_quiet ((0 <? i) && positive delay) delay st) as [k1 [S1 [O1 R1]]].
  rewrite (bind_console_step _ _ _ _ _ S1).
  destruct (optional_print_quiet (1 <? repeat) (Line (line i))
              (mkState (nd st) k1 (vars st)) eq_refl) as [k2 [S2 [O2 R2]]].
  rewrite (bind_console_step _ _ _ _ _ S2). cbn [nd vars].
  destruct (perf_counter_quiet (mkState (nd st) k2 (vars st))) as [t [k3 [S3 [O3 R3]]]].
  rewrite (bind_console_step _ _ _ _ _ S3). cbn [nd vars].
  exists t, k3. split; [| split; [| reflexivity]]; cbn [con] in *; congruence.
Qed.

(** A failed attempt whose panel the renderer rejects: the [MarkupError]
    raised in the [except] clause leaves the iteration, whatever the repeat
    count, with no record of the attempt. *)
Lemma iteration_rejected (i : Z) (st : state repeat_vars) (n' : node) (o : result A)
      (m : string) :
  sdk i (nd st) = (n', o) -> good o = false ->
  verdict (rejects (con st)) (panel_of (error_of o)) = Some m ->
  exists k,
    iteration i st
    = (mkState n' k (mkRepeatVars (results_data (vars st)) false), Raised (MarkupError m))
    /\ stdout k = stdout (con st).
Proof.
  intros Hs Hg Hv.
  destruct (iteration_prefix i st) as (t & k0 & O0 & R0 & ->).
  destruct (try_block_bad i t (mkState (nd st) k0 (vars st)) n' o Hs Hg)
    as (k1 & T & He & O1 & R1).
  cbn [nd con vars] in *. unfold try_except. rewrite T. unfold handle. rewrite He.
  destruct (record_failure_rejected repeat t (error_of o) (mkState n' k1 (vars st)) m)
    as (k & -> & Ok).
  { cbn [con]. now rewrite R1, R0. }
  exists k. cbn [con vars nd] in *. split; congruence.
Qed.

(** A failed attempt of a command that does not repeat ends the process
    at once, with exit status 1. *)
Lemma iteration_single_failure (i : Z) (st : state repeat_vars) (n' : node)
      (o : result A) :
  repeat = 1 -> sdk i (nd st) = (n', o) -> good o = false ->
  exists k e',
    iteration i st
    = (mkState n' k (mkRepeatVars (results_data (vars st)) false), Raised e')
    /\ (e' = SystemExit 1 \/ exists m, e' = MarkupError m)
    /\ stdout k = stdout (con st).
Proof.
  intros Hr Hs Hg.
  destruct (iteration_prefix i st) as (t & k0 & O0 & R0 & ->).
  destruct (try_block_bad i t (mkState (nd st) k0 (vars st)) n' o Hs Hg)
    as (k1 & T & He & O1 & R1).
  cbn [nd con vars] in *. unfold try_except. rewrite T. unfold handle. rewrite He, Hr.
  destruct (record_failure_single t (error_of o) (mkState n' k1 (vars st)))
    as (k & e' & -> & He' & Ok).
  exists k, e'. cbn [con vars nd] in *. repeat split; congruence.
Qed.

(** With a renderer that takes what it is given, an iteration of a
    repeated command always comes to its end, with one more record. *)
Lemma iteration_batch (i : Z) (st : state repeat_vars) (n' : node) (o : result A) :
  (repeat =? 1) = false -> sdk i (nd st) = (n', o) -> fine o -> accepts (con st) ->
  exists k rec,
    iteration i st
    = (mkState n' k (mkRepeatVars (results_data (vars st) ++ [rec])
                                   (overall_success (vars st) && good o)),
       Returned tt)
    /\ succeeded rec = good o /\ stdout k = stdout (con st)
    /\ rejects k = rejects (con st).
Proof.
  intros Hr Hs Hf Hacc.
  destruct (iteration_prefix i st) as (t & k0 & O0 & R0 & ->).
  assert (Hacc0 : accepts k0) by exact (accepts_same _ _ R0 Hacc).
  unfold try_except. destruct (good o) eqn:Hg.
  - destruct (try_block_good i t (mkState (nd st) k0 (vars st)) n' o Hs Hf Hg Hacc0)
      as (k & rec & -> & Hrec & Ok & Rk).
    exists k, rec. rewrite andb_true_r. cbn [con vars] in *. repeat split; congruence.
  - destruct (try_block_bad i t (mkState (nd st) k0 (vars st)) n' o Hs Hg)
      as (k1 & T & He & O1 & R1).
    cbn [nd con vars] in *. rewrite T. unfold handle. rewrite He.
    destruct (record_failure_batch repeat t (error_of o) (mkState n' k1 (vars st)) Hr)
      as (k' & rec & -> & Hrec & Ok' & Rk').
    { cbn [con]. apply verdict_accepts. rewrite R1. exact Hacc0. }
    exists k', rec. rewrite andb_false_r. cbn [con vars nd] in *.
    repeat split; congruence.
Qed.

(** With such a renderer the loop of a repeated command runs every
    attempt. *)
Lemma loop_batch (idxs : list Z) :
  (repeat =? 1) = false ->
  forall (st : state repeat_vars) (outs : list (result A)) (n' : node),
    attempts (map sdk idxs) (nd st) = (outs, n') -> Forall fine outs ->
    accepts (con st) ->
    exists k recs,
      for_each idxs iteration st
      = (mkState n' k (mkRepeatVars (results_data (vars st) ++ recs)
                                     (overall_success (vars st) && forallb good outs)),
         Returned tt)
      /\ map succeeded recs = map good outs /\ stdout k = stdout (con st).
Proof.
  intros Hr. induction idxs as [|i idxs IH]; intros st outs n' Ha Hf Hacc.
  - simpl in Ha. injection Ha as <- <-. exists (con st), [].
    simpl. rewrite app_nil_r, andb_true_r.
    destruct st as [n k [rs ov]]. repeat split.
  - simpl in Ha. destruct (sdk i (nd st)) as [n1 o] eqn:Hs.
    destruct (attempts (map sdk idxs) n1) as [os n2] eqn:Hrest.
    injection Ha as <- <-. inversion Hf as [|? ? Fo Fos]; subst.
    destruct (iteration_batch i st n1 o Hr Hs Fo Hacc) as (k1 & rec & E1 & R1 & O1 & J1).
    simpl for_each. unfold bind at 1. rewrite E1.
    destruct (IH (mkState n1 k1 (mkRepeatVars (results_data (vars st) ++ [rec])
                                               (overall_success (vars st) && good o)))
                 os n2 Hrest Fos (accepts_same _ _ J1 Hacc))
      as (k2 & recs & E2 & R2 & O2).
    rewrite E2. exists k2, (rec :: recs). cbn [con vars results_data overall_success] in *.
    rewrite <- app_assoc, <- andb_assoc. simpl.
    repeat split; congruence.
Qed.

Variable intro : string.
Variable output_format : format.

Local Abbreviation command :=
  (Spec.command try_block line repeat delay intro output_format).

Lemma exit_iff_failure (outs : list (result A)) :
  exit_status (if forallb good outs then Returned tt else Raised (SystemExit 1)) <> 0
  <-> exists o, In o outs /\ good o = false.
Proof.
  destruct (forallb good outs) eqn:F; simpl.
  - split; [intros H; now elim H|].
    intros (o & Hin & Hg). rewrite forallb_forall in F. rewrite (F o Hin) in Hg.
    discriminate.
  - split; [intros _ | discriminate].
    destruct (forallb_forall good outs) as [_ H].
    assert (N : ~ (forall o, In o outs -> good o = true))
      by (intros G; rewrite (H G) in F; discriminate).
    clear H F. induction outs as [|o outs IH].
    + elim N. intros o [].
    + destruct (good o) eqn:G.
      * destruct IH as (o' & Hin & Hg).
        { intros Hall. apply N. intros o' [<- | Hin]; auto. }
        exists o'. split; [now right | exact Hg].
      * exists o. split; [now left | exact G].
Qed.

(** The state in which the loop of the command starts. *)
Lemma command_prefix (st : state repeat_vars) :
  exists k,
    stdout k = stdout (con st)
    /\ rejects k = rejects (con st)
    /\ command st
       = bind (for_each (range repeat) iteration)
              (fun _ => finish_repeat repeat output_format)
              (mkState (nd st) k (mkRepeatVars [] true)).
Proof.
  unfold command. unfold bind at 1. unfold console_print at 1, on_console, verdict.
  cbn [server_text]. unfold bind at 1. unfold set_vars at 1. cbn [nd con vars].
  eexists. split; [| split; [| reflexivity]]; reflexivity.
Qed.

(** With a repeat count above 1 and a renderer that takes what it is
    given: every attempt is made, each leaves one record, and the exit
    status is not 0 exactly when one failed. *)
Lemma command_batch (st : state repeat_vars) (outs : list (result A)) (n' : node) :
  1 < repeat ->
  attempts (map sdk (range repeat)) (nd st) = (outs, n') -> Forall fine outs ->
  accepts (con st) ->
  exists st',
    command st
    = (st', if forallb good outs then Returned tt else Raised (SystemExit 1))
    /\ nd st' = n'
    /\ List.length outs = Z.to_nat repeat
    /\ map succeeded (results_data (vars st')) = map good outs
    /\ stdout (con st')
       = (stdout (con st)
          ++ match output_format with
             | Json => map OutRecord (results_data (vars st'))
             | Text => []
             end)%list.
Proof.
  intros Hr Ha Hf Hacc.
  assert (Hr1 : (repeat =? 1) = false) by lia.
  assert (Hr2 : (1 <? repeat) = true) by lia.
  assert (Hlen : List.length outs = Z.to_nat repeat).
  { pose proof (attempts_length (map sdk (range repeat)) (nd st)) as L.
    rewrite Ha in L. simpl in L. now rewrite L, length_map, range_length. }
  destruct (command_prefix st) as (k0 & O0 & R0 & ->).
  destruct (loop_batch (range repeat) Hr1 (mkState (nd st) k0 (mkRepeatVars [] true))
              outs n' Ha Hf (accepts_same _ _ R0 Hacc))
    as (k & recs & E & R & O).
  unfold bind at 1. rewrite E. cbn [nd con vars results_data overall_success] in *.
  match goal with
  | |- context [finish_repeat repeat output_format ?s] =>
      destruct (finish_repeat_run repeat output_format s) as (k' & F & O')
  end.
  rewrite F. cbn [nd con vars results_data overall_success stdout snd] in *.
  rewrite Hr2, andb_true_r.
  destruct (forallb good outs) eqn:G; cbn [andb negb] in *;
    (eexists; split; [reflexivity | split; [reflexivity | split; [exact Hlen |]]]);
    cbn [con vars results_data];
    (split; [exact R | rewrite O', O, O0; reflexivity]).
Qed.

(** With repeat count 1: a failed attempt ends the process at once with
    exit status 1; no record is kept and nothing reaches standard output. *)
Lemma command_single_failure (st : state repeat_vars) (o : result A) (n' : node) :
  repeat = 1 -> sdk 0 (nd st) = (n', o) -> good o = false ->
  exists st' e',
    command st = (st', Raised e')
    /\ (e' = SystemExit 1 \/ exists m, e' = MarkupError m)
    /\ nd st' = n'
    /\ results_data (vars st') = []
    /\ stdout (con st') = stdout (con st).
Proof.
  intros Hr Hs Hg.
  destruct (command_prefix st) as (k0 & O0 & R0 & ->).
  replace (range repeat) with [0] by (rewrite Hr; reflexivity). cbn [for_each].
  destruct (iteration_single_failure 0 (mkState (nd st) k0 (mkRepeatVars [] true)) n' o
              Hr Hs Hg) as (k & e' & E & He' & O).
  unfold bind at 1. unfold bind at 1. rewrite E.
  eexists. exists e'.
  split; [reflexivity | split; [exact He' | split; [reflexivity | split; [reflexivity |]]]].
  cbn [con] in *. congruence.
Qed.

(** With any repeat count above 0: when the first attempt fails and the
    renderer rejects the panel of the failure, the command ends there with
    the [MarkupError]; the other attempts are not made, no record is kept
    and nothing reaches standard output. *)
Lemma command_rejected (st : state repeat_vars) (o : result A) (n' : node) (m : string) :
  0 < repeat -> sdk 0 (nd st) = (n', o) -> good o = false ->
  verdict (rejects (con st)) (panel_of (error_of o)) = Some m ->
  exists st',
    command st = (st', Raised (MarkupError m))
    /\ nd st' = n'
    /\ results_data (vars st') = []
    /\ stdout (con st') = stdout (con st).
Proof.
  intros Hr Hs Hg Hv.
  destruct (command_prefix st) as (k0 & O0 & R0 & ->).
  destruct (range_first repeat Hr) as [rest ->]. cbn [for_each].
  destruct (iteration_rejected 0 (mkState (nd st) k0 (mkRepeatVars [] true)) n' o m
              Hs Hg) as (k & E & O).
  { cbn [con]. now rewrite R0. }
  unfold bind at 1. unfold bind at 1. rewrite E.
  eexists. split; [reflexivity | split; [reflexivity | split; [reflexivity |]]].
  cbn [con] in *. congruence.
Qed.

End RepeatLoop.

Lemma never_exits_download_work (c : client) (h out_dir : string) (name : option string)
      (repeat i : Z) :
  never_exits (download_work c h out_dir name repeat i).
Proof.
  apply never_exits_bind; [apply never_exits_makedirs|].
  intros _. apply never_exits_download.
Qed.

(** The [try] block of [download]: the panel it shows holds the path the
    operator asked for, so it goes through with every renderer. *)
Lemma download_attempt_good (c : client) (h out_dir : string) (name : option string)
      (repeat : Z) (output_format : format) (i : Z) (t : float) (st : state repeat_vars)
      (n' : node) (o : result string) :
  download_work c h out_dir name repeat i (nd st) = (n', o) -> download_ok o = true ->
  exists k rec,
    download_attempt c h out_dir
      (attempt_filename match name with
                        | Some n => if String.eqb n EmptyString then h else n
                        | None => h
                        end repeat i)
      output_format i t st
    = (mkState n' k (mkRepeatVars (results_data (vars st) ++ [rec])
                                   (overall_success (vars st))),
       Returned tt)
    /\ succeeded rec = true /\ stdout k = stdout (con st)
    /\ rejects k = rejects (con st).
Proof.
  intros Hw Hok. destruct o as [p|e]; [|discriminate].
  unfold download_work, bind in Hw. cbv zeta in Hw.
  unfold download_attempt, append_result. run_monad.
  destruct (makedirs out_dir (nd st)) as [n1 [[]|e1]] eqn:Hm; [|discriminate].
  cbn [nd con vars].
  destruct (SDK.download c h out_dir _ n1) as [n2 [p'|e2]] eqn:Hd; [|discriminate].
  injection Hw as <- <-.
  destruct output_format; run_monad; eexists; eexists; repeat split.
Qed.

Lemma download_attempt_bad (c : client) (h out_dir : string) (name : option string)
      (repeat : Z) (output_format : format) (i : Z) (t : float) (st : state repeat_vars)
      (n' : node) (o : result string) :
  download_work c h out_dir name repeat i (nd st) = (n', o) -> download_ok o = false ->
  exists k,
    download_attempt c h out_dir
      (attempt_filename match name with
                        | Some n => if String.eqb n EmptyString then h else n
                        | None => h
                        end repeat i)
      output_format i t st
    = (mkState n' k (vars st), Raised (error_of o))
    /\ is_Exception (error_of o) = true
    /\ stdout k = stdout (con st) /\ rejects k = rejects (con st).
Proof.
  intros Hw Hok. destruct o as [p|e]; [discriminate|].
  pose proof (never_exits_download_work c h out_dir name repeat i _ _ _ Hw) as Hex.
  unfold download_work, bind in Hw. cbv zeta in Hw.
  unfold download_attempt. run_monad.
  destruct (makedirs out_dir (nd st)) as [n1 [[]|e1]] eqn:Hm; cbn [nd con vars].
  - destruct (SDK.download c h out_dir _ n1) as [n2 [p'|e2]] eqn:Hd; [discriminate|].
    injection Hw as <- <-. exists (con st). repeat split. exact Hex.
  - injection Hw as <- <-. exists (con st). repeat split. exact Hex.
Qed.

Lemma upload_is_command (c : client) (file_path : string) (repeat : Z) (delay : Q)
      (output_format : format) :
  CLI.upload c file_path repeat delay output_format
  = command (upload_attempt c file_path output_format)
            (fun i => "-- Attempt " ++ str_of_int (i + 1) ++ "/"
                      ++ str_of_int repeat ++ " --")
            repeat delay ("Uploading '" ++ basename file_path ++ "' ...") output_format.
Proof. reflexivity. Qed.

Lemma download_is_command (c : client) (h out_dir : string) (name : option string)
      (repeat : Z) (delay : Q) (output_format : format) :
  let base := match name with
              | Some n => if String.eqb n EmptyString then h else n
              | None => h
              end in
  CLI.download c h out_dir name repeat delay output_format
  = command (fun i => download_attempt c h out_dir (attempt_filename base repeat i)
                                       output_format i)
            (fun i => "-- Attempt " ++ str_of_int (i + 1) ++ "/" ++ str_of_int repeat
                      ++ " -> " ++ path_join out_dir (attempt_filename base repeat i)
                      ++ " --")
            repeat delay ("Downloading hash '" ++ h ++ "' ...") output_format.
Proof. reflexivity. Qed.

(** In text form an upload whose result has a [status] that is not a
    string is recorded as a success, then fails to be shown, and is recorded
    again as a failure: one attempt, two records. *)
Lemma upload_recorded_twice (c : client) (file_path : string) (repeat : Z) (delay : Q)
      (i : Z) (st : state repeat_vars) (n' : node) (d : pydict) :
  (repeat =? 1) = false ->
  SDK.upload c file_path (nd st) = (n', Returned (PyDict d)) ->
  (forall s, dict_get "status" (PyStr "N/A") d <> PyStr s) ->
  verdict (rejects (con st)) (panel_of (AttributeError "object has no attribute 'upper'"))
  = None ->
  exists st' rec1 rec2,
    upload_iteration c file_path repeat delay Text i st = (st', Returned tt)
    /\ nd st' = n'
    /\ results_data (vars st') = (results_data (vars st) ++ [rec1; rec2])%list
    /\ succeeded rec1 = true /\ succeeded rec2 = false
    /\ overall_success (vars st') = false.
Proof.
  intros Hr Hu Hst Hv.
  change (upload_iteration c file_path repeat delay Text i st)
    with (iteration (upload_attempt c file_path Text)
                    (fun i => "-- Attempt " ++ str_of_int (i + 1) ++ "/"
                              ++ str_of_int repeat ++ " --")
                    repeat delay i st).
  destruct (iteration_prefix (upload_attempt c file_path Text)
              (fun i => "-- Attempt " ++ str_of_int (i + 1) ++ "/"
                        ++ str_of_int repeat ++ " --")
              repeat delay i st) as (t & k0 & O0 & R0 & ->).
  unfold try_except, upload_attempt, append_result. run_monad. rewrite Hu.
  unfold set_item. run_monad. unfold str_upper.
  rewrite dict_get_set_other by discriminate.
  destruct (dict_get "status" (PyStr "N/A") d) eqn:E; try (now elim (Hst s));
    run_monad; unfold handle; cbn [is_Exception fst snd];
    match goal with
    | |- context [record_failure repeat t ?e ?s] =>
        destruct (record_failure_batch repeat t e s Hr) as (k & rec & -> & Hrec & _);
        [cbn [con rejects]; rewrite R0; exact Hv |]
    end;
    (eexists; eexists; exists rec;
     split; [reflexivity | split; [reflexivity | split;
       [cbn [vars results_data]; rewrite <- app_assoc; reflexivity
       | split; [reflexivity | split; [exact Hrec | reflexivity]]]]]).
Qed.

(** With a renderer that takes what it is given, and upload results that
    can be shown, the repeated commands do run every attempt: one record per
    attempt, with the success flag of that attempt, printed in JSON form,
    and an exit status that is not 0 exactly when an attempt failed. *)
Lemma upload_batch (c : client) (file_path : string) (repeat : Z) (delay : Q)
      (output_format : format) (st : state repeat_vars)
      (outs : list (result pyval)) (n' : node) :
  1 < repeat -> accepts (con st) ->
  attempts (map (fun _ => SDK.upload c file_path) (range repeat)) (nd st) = (outs, n') ->
  Forall (presentable output_format) outs ->
  exists st',
    CLI.upload c file_path repeat delay output_format st
    = (st', if forallb upload_ok outs then Returned tt else Raised (SystemExit 1))
    /\ nd st' = n'
    /\ List.length outs = Z.to_nat repeat
    /\ map succeeded (results_data (vars st')) = map upload_ok outs
    /\ stdout (con st')
       = (stdout (con st)
          ++ match output_format with
             | Json => map OutRecord (results_data (vars st'))
             | Text => []
             end)%list.
Proof.
  intros Hr Hacc Ha Hf. rewrite upload_is_command.
  apply (command_batch (fun _ => SDK.upload c file_path)
           (upload_attempt c file_path output_format) upload_ok
           (presentable output_format)); auto.
  - intros i t st0 n0 o Hs Hp Hg Hacc0.
    exact (upload_attempt_good c file_path output_format i t st0 n0 o Hs Hp Hg Hacc0).
  - intros i t st0 n0 o Hs Hg.
    exact (upload_attempt_bad c file_path output_format i t st0 n0 o Hs Hg).
Qed.

Lemma download_batch (c : client) (h out_dir : string) (name : option string)
      (repeat : Z) (delay : Q) (output_format : format) (st : state repeat_vars)
      (outs : list (result string)) (n' : node) :
  1 < repeat -> accepts (con st) ->
  attempts (map (download_work c h out_dir name repeat) (range repeat)) (nd st)
  = (outs, n') ->
  exists st',
    CLI.download c h out_dir name repeat delay output_format st
    = (st', if forallb download_ok outs then Returned tt else Raised (SystemExit 1))
    /\ nd st' = n'
    /\ List.length outs = Z.to_nat repeat
    /\ map succeeded (results_data (vars st')) = map download_ok outs
    /\ stdout (con st')
       = (stdout (con st)
          ++ match output_format with
             | Json => map OutRecord (results_data (vars st'))
             | Text => []
             end)%list.
Proof.
  intros Hr Hacc Ha.
  pose proof (download_is_command c h out_dir name repeat delay output_format) as E.
  cbv zeta in E. rewrite E.
  apply (command_batch (download_work c h out_dir name repeat) _ download_ok
           (fun _ => True)); auto.
  - intros i t st0 n0 o Hs _ Hg _.
    exact (download_attempt_good c h out_dir name repeat output_format i t st0 n0 o Hs Hg).
  - intros i t st0 n0 o Hs Hg.
    exact (download_attempt_bad c h out_dir name repeat output_format i t st0 n0 o Hs Hg).
  - clear. induction outs; constructor; auto.
Qed.

(** C5. The repeatable commands.  With repeat count 1 a failed attempt
    ends the process at once with exit status 1, as the claim says.  With a
    repeat count above 1 the loop does not always run every attempt:
    the [except] clause shows the failure before it records it, and the
    message holds the text of the server as Rich markup, so when Rich
    rejects that text [MarkupError] is raised inside the [except] clause and
    ends the command after the first attempt, with no record at all.
    Nor is there always one record per attempt: in text form an upload
    whose [status] is not a string is recorded as a success, fails to be
    shown, and is recorded once more as a failure. *)
Theorem repeat_loop_can_stop_early :
  (forall (c : client) (file_path : string) (delay : Q) (output_format : format)
          (st : state repeat_vars) (o : result pyval) (n' : node),
      SDK.upload c file_path (nd st) = (n', o) -> upload_ok o = false ->
      exists st' e',
        CLI.upload c file_path 1 delay output_format st = (st', Raised e')
        /\ exit_status (snd (CLI.upload c file_path 1 delay output_format st)) = 1
        /\ nd st' = n' /\ results_data (vars st') = []
        /\ stdout (con st') = stdout (con st))
  /\ (forall (c : client) (h out_dir : string) (name : option string) (delay : Q)
             (output_format : format) (st : state repeat_vars)
             (o : result string) (n' : node),
         download_work c h out_dir name 1 0 (nd st) = (n', o) -> download_ok o = false ->
         exists st' e',
           CLI.download c h out_dir name 1 delay output_format st = (st', Raised e')
           /\ exit_status (snd (CLI.download c h out_dir name 1 delay output_format st)) = 1
           /\ nd st' = n' /\ results_data (vars st') = []
           /\ stdout (con st') = stdout (con st))
  /\ (forall (c : client) (file_path : string) (repeat : Z) (delay : Q)
             (output_format : format) (st : state repeat_vars)
             (o : result pyval) (n' : node) (m : string),
         1 < repeat ->
         SDK.upload c file_path (nd st) = (n', o) -> upload_ok o = false ->
         verdict (rejects (con st)) (panel_of (error_of o)) = Some m ->
         exists st',
           CLI.upload c file_path repeat delay output_format st
           = (st', Raised (MarkupError m))
           /\ nd st' = n' /\ results_data (vars st') = []
           /\ stdout (con st') = stdout (con st))
  /\ (forall (c : client) (h out_dir : string) (name : option string) (repeat : Z)
             (delay : Q) (output_format : format) (st : state repeat_vars)
             (o : result string) (n' : node) (m : string),
         1 < repeat ->
         download_work c h out_dir name repeat 0 (nd st) = (n', o) ->
         download_ok o = false ->
         verdict (rejects (con st)) (panel_of (error_of o)) = Some m ->
         exists st',
           CLI.download c h out_dir name repeat delay output_format st
           = (st', Raised (MarkupError m))
           /\ nd st' = n' /\ results_data (vars st') = []
           /\ stdout (con st') = stdout (con st))
  /\ (forall (c : client) (file_path : string) (repeat : Z) (delay : Q) (i : Z)
             (st : state repeat_vars) (n' : node) (d : pydict),
         1 < repeat ->
         SDK.upload c file_path (nd st) = (n', Returned (PyDict d)) ->
         (forall s, dict_get "status" (PyStr "N/A") d <> PyStr s) ->
         verdict (rejects (con st))
                 (panel_of (AttributeError "object has no attribute 'upper'")) = None ->
         exists st' rec1 rec2,
           upload_iteration c file_path repeat delay Text i st = (st', Returned tt)
           /\ nd st' = n'
           /\ results_data (vars st') = (results_data (vars st) ++ [rec1; rec2])%list
           /\ succeeded rec1 = true /\ succeeded rec2 = false
           /\ overall_success (vars st') = false).
Proof.
  split; [| split; [| split; [| split]]].
  - intros c file_path delay fmt st o n' Hu Hok. rewrite upload_is_command.
    destruct (command_single_failure (fun _ => SDK.upload c file_path)
                (upload_attempt c file_path fmt) upload_ok
                (fun i => "-- Attempt " ++ str_of_int (i + 1) ++ "/"
                          ++ str_of_int 1 ++ " --")
                1 delay
                (fun i t st0 n0 o0 => upload_attempt_bad c file_path fmt i t st0 n0 o0)
                ("Uploading '" ++ basename file_path ++ "' ...") fmt st o n'
                eq_refl Hu Hok)
      as (st' & e' & E & He' & Hn & Hres & Hout).
    exists st', e'. rewrite E. cbn [snd].
    split; [reflexivity | split; [now apply exit_status_either | auto]].
  - intros c h out_dir name delay fmt st o n' Hw Hok.
    pose proof (download_is_command c h out_dir name 1 delay fmt) as E0.
    cbv zeta in E0. rewrite E0. clear E0.
    match goal with
    | |- context [command ?tb ?ln 1 delay ?intro fmt st] =>
        destruct (command_single_failure (download_work c h out_dir name 1) tb
                    download_ok ln 1 delay
                    (fun i t st0 n0 o0 =>
                       download_attempt_bad c h out_dir name 1 fmt i t st0 n0 o0)
                    intro fmt st o n' eq_refl Hw Hok)
          as (st' & e' & E & He' & Hn & Hres & Hout)
    end.
    exists st', e'. rewrite E. cbn [snd].
    split; [reflexivity | split; [now apply exit_status_either | auto]].
  - intros c file_path repeat delay fmt st o n' m Hr Hu Hok Hv. rewrite upload_is_command.
    apply (command_rejected (fun _ => SDK.upload c file_path)
             (upload_attempt c file_path fmt) upload_ok _ repeat delay
             (fun i t st0 n0 o0 => upload_attempt_bad c file_path fmt i t st0 n0 o0)
             _ fmt st o n' m); auto. lia.
  - intros c h out_dir name repeat delay fmt st o n' m Hr Hw Hok Hv.
    pose proof (download_is_command c h out_dir name repeat delay fmt) as E0.
    cbv zeta in E0. rewrite E0. clear E0.
    apply (command_rejected (download_work c h out_dir name repeat) _ download_ok
             _ repeat delay
             (fun i t st0 n0 o0 =>
                download_attempt_bad c h out_dir name repeat fmt i t st0 n0 o0)
             _ fmt st o n' m); auto. lia.
  - intros c file_path repeat delay i st n' d Hr Hu Hst Hv.
    apply (upload_recorded_twice c file_path repeat delay i st n' d); auto. lia.
Qed.

Lemma repeat_loop_can_stop_early_witness :
  let c := __init__ "http://h:5000" 60 in
  let st := mkState (writable [reply_text 500 "bad [/] thing";
                               reply_json 201 (PyDict [("status", PyStr "success")]);
                               reply_json 201 (PyDict [("status", PyStr "success")])])
                    strict_console (mkRepeatVars [] true) in
  exists st',
    CLI.upload c "a.txt" 3 0 Json st
    = (st', Raised (MarkupError "closing tag '[/]' at position 30 has nothing to close"))
    /\ requests_sent (nd st') = 1%nat
    /\ results_data (vars st') = []
    /\ stdout (con st') = [].
Proof.
  intros c st.
  destruct (proj1 (proj2 (proj2 repeat_loop_can_stop_early))
              c "a.txt" 3 0%Q Json st
              (snd (SDK.upload c "a.txt" (nd st))) (fst (SDK.upload c "a.txt" (nd st)))
              "closing tag '[/]' at position 30 has nothing to close"
              ltac:(lia) eq_refl eq_refl eq_refl)
    as (st' & E & Hn & Hres & Hout).
  exists st'. split; [exact E | split; [| split; [exact Hres | exact Hout]]].
  rewrite Hn. reflexivity.
Defined.

(** ** The [upload_bulk] command *)

Lemma summaries_of_app (l l' : list shown) :
  summaries_of (l ++ l') = (summaries_of l ++ summaries_of l')%list.
Proof.
  induction l as [|x l IH]; [reflexivity|].
  destruct x; simpl; rewrite IH; reflexivity.
Qed.


Lemma dict_lookup_set_same (k : string) (v : pyval) (d : pydict) :
  dict_lookup k (dict_set k v d) = Some v.
Proof.
  induction d as [|[k1 v1] d IH]; simpl.
  - now rewrite String.eqb_refl.
  - destruct (String.eqb_spec k k1) as [->|Hk]; simpl.
    + now rewrite String.eqb_refl.
    + destruct (String.eqb_spec k k1); [contradiction | exact IH].
Qed.


Lemma bulk_attempt_bad (c : client) (file_path : string) (t : float)
      (st : state bulk_vars) (n' : node) (o : result pyval) :
  SDK.upload c file_path (nd st) = (n', o) -> upload_ok o = false ->
  exists k,
    bulk_attempt c file_path t st = (mkState n' k (vars st), Raised (error_of o))
    /\ is_Exception (error_of o) = true
    /\ stdout k = stdout (con st) /\ rejects k = rejects (con st)
    /\ stderr k = stderr (con st).
Proof.
  intros Hu Hok. unfold bulk_attempt. run_monad. rewrite Hu.
  destruct o as [v|e].
  - destruct v; try discriminate; eexists; repeat split.
  - exists (con st). repeat split. exact (never_exits_upload c file_path _ _ _ Hu).
Qed.


Lemma bulk_failure_rejected (file_path : string) (t : float) (e : exn)
      (st : state bulk_vars) (m : string) :
  verdict (rejects (con st)) (panel_of e) = Some m ->
  exists k,
    bulk_failure file_path t e st = (mkState (nd st) k (vars st), Raised (MarkupError m))
    /\ stdout k = stdout (con st) /\ stderr k = stderr (con st).
Proof.
  intros Hv. unfold bulk_failure. run_monad. rewrite handle_sdk_error_run.
  cbn [con rejects]. rewrite Hv. eexists. repeat split.
Qed.

(** The state in which the [try] block of an iteration starts. *)
Lemma bulk_iteration_prefix (c : client) (delay : Q) (file_path : string)
      (st : state bulk_vars) :
  exists t k,
    stdout k = stdout (con st) /\ rejects k = rejects (con st)
    /\ summaries_of (stderr k) = summaries_of (stderr (con st))
    /\ bulk_iteration c delay file_path st
       = bind (try_except (bulk_attempt c file_path t)
                          [ (is_Exception, bulk_failure file_path t) ])
              (fun _ => console_print ProgressAdvance)
              (mkState (nd st) k (vars st)).
Proof.
  unfold bulk_iteration.
  destruct (positive delay); unfold bind at 1; unfold sleep, on_console, ret;
    unfold bind at 1; unfold console_print at 1, verdict; cbn [server_text];
    unfold on_console; unfold bind at 1; unfold perf_counter;
    cbn [nd con vars clock stdout stderr slept rejects];
    (eexists; eexists;
     split; [| split; [| split; [| reflexivity]]]);
    cbn [stdout rejects stderr]; try reflexivity;
    rewrite summaries_of_app; simpl; now rewrite app_nil_r.
Qed.


(** One iteration when the upload fails and the renderer rejects the
    panel: the [MarkupError] leaves the loop; the failure is neither counted
    nor recorded. *)
Lemma bulk_iteration_rejected (c : client) (delay : Q) (file_path : string)
      (st : state bulk_vars) (n' : node) (o : result pyval) (m : string) :
  SDK.upload c file_path (nd st) = (n', o) -> upload_ok o = false ->
  verdict (rejects (con st)) (panel_of (error_of o)) = Some m ->
  exists k,
    bulk_iteration c delay file_path st
    = (mkState n' k (vars st), Raised (MarkupError m))
    /\ stdout k = stdout (con st)
    /\ summaries_of (stderr k) = summaries_of (stderr (con st)).
Proof.
  intros Hu Hok Hv.
  destruct (bulk_iteration_prefix c delay file_path st) as (t & k0 & O0 & R0 & S0 & ->).
  unfold bind, try_except.
  destruct (bulk_attempt_bad c file_path t (mkState (nd st) k0 (vars st)) n' o Hu Hok)
    as (k1 & T & He & O1 & R1 & S1).
  cbn [nd con vars] in *. rewrite T. unfold handle. rewrite He.
  destruct (bulk_failure_rejected file_path t (error_of o) (mkState n' k1 (vars st)) m)
    as (k2 & -> & O2 & S2).
  { cbn [con] in *. now rewrite R1, R0. }
  exists k2. cbn [nd con vars] in *. repeat split; congruence.
Qed.


(** The state in which the loop of [upload_bulk] starts, when a file
    matches. *)
Lemma upload_bulk_prefix (c : client) (directory_path pattern : string) (delay : Q)
      (output_format : format) (st : state bulk_vars) :
  let files := filter (isfile (nd st)) (glob (nd st) (path_join directory_path pattern)) in
  files <> [] ->
  exists k,
    stdout k = stdout (con st) /\ rejects k = rejects (con st)
    /\ summaries_of (stderr k) = summaries_of (stderr (con st))
    /\ upload_bulk c directory_path pattern delay output_format st
       = bind (for_each files (bulk_iteration c delay))
              (fun _ =>
                 bind get_vars (fun v =>
                 bind (console_print (BulkSummary (success_count v) (fail_count v)))
                      (fun _ =>
                 match output_format with
                 | Json =>
                     bind (print_output
                             (OutSummary (Z.of_nat (List.length files))
                                         (success_count v) (fail_count v)) Json)
                          (fun _ =>
                     for_each (bulk_results v)
                              (fun res => print_output (OutRecord res) Json))
                 | Text => ret tt
                 end)))
              (mkState (nd st) k (mkBulkVars [] 0 0)).
Proof.
  intros files Hne.
  unfold upload_bulk. unfold bind at 1. unfold console_print at 1, verdict, on_console.
  cbn [server_text]. unfold bind at 1. unfold try_except, call, find_files.
  cbn [nd con vars]. fold files. clearbody files.
  destruct files as [|f fs] eqn:Hfiles; [now elim Hne|].
  rewrite <- Hfiles. clear Hfiles.
  unfold bind at 1. unfold console_print at 1, verdict, on_console. cbn [server_text].
  unfold bind at 1. unfold set_vars at 1.
  unfold bind at 1. unfold console_print at 1, verdict, on_console. cbn [server_text].
  cbn [nd con vars clock stdout stderr slept rejects].
  eexists. split; [| split; [| split; [| reflexivity]]]; cbn [stdout rejects stderr];
    try reflexivity.
  rewrite !summaries_of_app. simpl. now rewrite !app_nil_r.
Qed.


(** C7. A per-file failure can abort the batch.  The [except] clause of
    the loop shows the failure before it counts it, and the message holds
    the text of the server as Rich markup: when Rich rejects that text for
    the first file, [MarkupError] is raised inside the [except] clause and
    ends the command there.  The files that follow are not attempted, the
    failure is neither counted nor recorded, no summary is shown and
    nothing is printed. *)
Theorem bulk_upload_can_abort :
  forall (c : client) (directory_path pattern : string) (delay : Q)
         (output_format : format) (st : state bulk_vars)
         (file_path : string) (others : list string)
         (o : result pyval) (n' : node) (m : string),
    filter (isfile (nd st)) (glob (nd st) (path_join directory_path pattern))
    = file_path :: others ->
    SDK.upload c file_path (nd st) = (n', o) -> upload_ok o = false ->
    verdict (rejects (con st)) (panel_of (error_of o)) = Some m ->
    exists st',
      upload_bulk c directory_path pattern delay output_format st
      = (st', Raised (MarkupError m))
      /\ nd st' = n'
      /\ bulk_results (vars st') = [] /\ fail_count (vars st') = 0
      /\ summaries_of (stderr (con st')) = summaries_of (stderr (con st))
      /\ stdout (con st') = stdout (con st).
Proof.
  intros c directory_path pattern delay fmt st f others o n' m Hfiles Hu Hok Hv.
  destruct (upload_bulk_prefix c directory_path pattern delay fmt st) as (k0 & O0 & R0 & S0 & E).
  { rewrite Hfiles. discriminate. }
  rewrite E, Hfiles. clear E. cbn [for_each].
  destruct (bulk_iteration_rejected c delay f (mkState (nd st) k0 (mkBulkVars [] 0 0))
              n' o m Hu Hok) as (k & E & O & S).
  { cbn [con]. now rewrite R0. }
  unfold bind at 1. unfold bind at 1. rewrite E.
  eexists. split; [reflexivity | split; [reflexivity | split; [reflexivity |
    split; [reflexivity |]]]].
  cbn [con] in *. split; congruence.
Qed.

Lemma bulk_upload_can_abort_witness :
  let c := __init__ "http://h:5000" 60 in
  let st := mkState (set_script [reply_text 500 "bad [/] thing";
                                 reply_json 201 (PyDict [("status", PyStr "success")])]
                                three_files)
                    strict_console (mkBulkVars [] 0 0) in
  exists st',
    upload_bulk c "d" "*" 0 Json st
    = (st', Raised (MarkupError "closing tag '[/]' at position 30 has nothing to close"))
    /\ requests_sent (nd st') = 1%nat
    /\ summaries_of (stderr (con st')) = []
    /\ stdout (con st') = [].
Proof.
  intros c st.
  destruct (bulk_upload_can_abort c "d" "*" 0%Q Json st "d/a.txt" ["d/b"; "d/c.txt"]
              (snd (SDK.upload c "d/a.txt" (nd st))) (fst (SDK.upload c "d/a.txt" (nd st)))
              "closing tag '[/]' at position 30 has nothing to close"
              eq_refl eq_refl eq_refl eq_refl)
    as (st' & E & Hn & _ & _ & S & O).
  exists st'. split; [exact E | split; [| split; [exact S | exact O]]].
  rewrite Hn. reflexivity.
Defined.

End CLISpec.

(* ================================================================== *)
(** * Further properties of the SDK *)
(* ================================================================== *)

Module SDKExtra.

Import Py PyFacts SDK Spec SDKSpec.

(** ** Strings *)

Lemma prefix_app (pat rest : string) : String.prefix pat (pat ++ rest) = true.
Proof.
  induction pat as [|a pat IH]; simpl; [now destruct rest|].
  destruct (ascii_dec a a) as [_|N]; [exact IH | now elim N].
Qed.

Lemma contains_prefix (pat s : string) : String.prefix pat s = true -> contains pat s = true.
Proof. intros H. destruct s; simpl in *; rewrite H; reflexivity. Qed.

Lemma contains_app (pat before after : string) :
  contains pat (before ++ pat ++ after) = true.
Proof.
  induction before as [|a before IH]; cbn [append].
  - apply contains_prefix, prefix_app.
  - change (contains pat (String a (before ++ pat ++ after)))
      with (String.prefix pat (String a (before ++ pat ++ after))
            || contains pat (before ++ pat ++ after)).
    rewrite IH. apply orb_true_r.
Qed.

Lemma take_length (n : nat) (s : string) : (String.length (take n s) <= n)%nat.
Proof.
  unfold take. revert s. induction n as [|n IH]; intros [|a s]; simpl; try lia.
  specialize (IH s). lia.
Qed.

Lemma take_prefix (n : nat) (s : string) : String.prefix (take n s) s = true.
Proof.
  unfold take. revert s. induction n as [|n IH]; intros [|a s]; simpl; try reflexivity.
  destruct (ascii_dec a a) as [_|N]; [apply IH | now elim N].
Qed.

Lemma take_short (n : nat) (s : string) : (String.length s <= n)%nat -> take n s = s.
Proof.
  unfold take. revert s. induction n as [|n IH]; intros [|a s]; simpl; intros H;
    try reflexivity; try lia.
  f_equal. apply IH. lia.
Qed.

(** ** [_make_request] *)

(** X1. Whatever the transport raises from the three families of
    [requests] exceptions leaves [_make_request] as a [NetworkError] that
    keeps it as cause and names the URL; no exception that leaves
    [_make_request] is a [requests] exception. *)
Theorem transport_failures_become_network_errors :
  (forall (c : client) (method endpoint : string) (kw : kwargs) (n : node)
          (f : failure) (rest : list reply),
      script n = Fails f :: rest -> is_RequestException (exn_of_failure f) = true ->
      exists msg,
        snd (_make_request c method endpoint kw n)
        = Raised (NetworkError msg (exn_of_failure f))
        /\ contains (request_url c endpoint) msg = true)
  /\ (forall (c : client) (method endpoint : string) (kw : kwargs) (n : node) (e : exn),
         snd (_make_request c method endpoint kw n) = Raised e ->
         is_RequestException e = false).
Proof.
  split.
  - intros c method endpoint kw n f rest Hn Hf.
    rewrite make_request_eq, Hn. cbv zeta. cbn [snd].
    destruct f; try discriminate; cbn [transport_error exn_of_failure];
      eexists; (split; [reflexivity | apply contains_app]).
  - intros c method endpoint kw n e He.
    pose proof (make_request_outcome c method endpoint kw n) as Ho.
    rewrite He in Ho. destruct e; simpl in *; try discriminate; reflexivity.
Qed.

Lemma transport_failures_become_network_errors_witness :
  exists msg,
    snd (get_status (__init__ "http://h:5000" 60) (scripted [Fails (TimedOut "read")]))
    = Raised (NetworkError msg (Timeout "read"))
    /\ contains "http://h:5000/status" msg = true.
Proof.
  destruct (proj1 transport_failures_become_network_errors
              (__init__ "http://h:5000" 60) "GET" "/status" no_kwargs
              (scripted [Fails (TimedOut "read")]) (TimedOut "read") [])
    as (msg & E & Hc); [reflexivity | reflexivity |].
  exists msg. split; [|exact Hc].
  unfold get_status, bind.
  destruct (_make_request _ _ _ _ _) as [n' [r|e]]; simpl in E; [discriminate|].
  injection E as ->. reflexivity.
Defined.

Lemma truthy_py_or (a b : pyval) : truthy b = true -> truthy (py_or a b) = true.
Proof. intros Hb. unfold py_or. destruct (truthy a) eqn:Ha; assumption. Qed.

Lemma mkAPIError_invariant (status : Z) (detail : pyval) (raw : string) :
  is_APIError (mkAPIError status detail raw) = true
  /\ exn_status_code (mkAPIError status detail raw) = status
  /\ truthy (exn_detail (mkAPIError status detail raw)) = true.
Proof.
  unfold mkAPIError. cbn [is_APIError exn_status_code exn_detail].
  repeat split. now apply truthy_py_or.
Qed.

Lemma classify_invariant (endpoint : string) (r : response) (detail : pyval) :
  is_APIError (classify endpoint r detail) = true
  /\ exn_status_code (classify endpoint r detail) = status_code r
  /\ truthy (exn_detail (classify endpoint r detail)) = true.
Proof.
  unfold classify.
  destruct (status_code r =? 404) eqn:E4.
  - apply Z.eqb_eq in E4. destruct (_ && _).
    + rewrite E4. repeat split.
    + apply mkAPIError_invariant.
  - destruct (status_code r =? 501) eqn:E5; cbn [andb].
    + apply Z.eqb_eq in E5. destruct (contains _ _).
      * rewrite E5. repeat split.
      * apply mkAPIError_invariant.
    + apply mkAPIError_invariant.
Qed.

(** X2. A response that is not ok, with a body that is an object or is not
    JSON, always leaves [_make_request] as an [APIError] (or one of its two
    subclasses) whose [status_code] is the status of the response and whose
    [detail] is never empty. *)
Theorem api_errors_carry_status_and_detail :
  forall (c : client) (method endpoint : string) (kw : kwargs) (n : node)
         (r : response) (rest : list reply),
    script n = Reply r :: rest -> ok r = false -> plain_body r ->
    exists e,
      snd (_make_request c method endpoint kw n) = Raised e
      /\ is_APIError e = true
      /\ exn_status_code e = status_code r
      /\ truthy (exn_detail e) = true.
Proof.
  intros c method endpoint kw n r rest Hn Hok Hb.
  rewrite make_request_eq, Hn. cbv zeta. rewrite Hok. cbn [snd].
  exists (rejection endpoint r). split; [reflexivity|].
  unfold rejection. destruct Hb as [-> | [d ->]]; apply classify_invariant.
Qed.

Lemma api_errors_carry_status_and_detail_witness :
  exists e,
    snd (_make_request (__init__ "http://h:5000" 60) "POST" "/upload" no_kwargs
                       (scripted [reply_json 413 (PyDict [("detail", PyStr EmptyString)])]))
    = Raised e
    /\ is_APIError e = true /\ exn_status_code e = 413
    /\ truthy (exn_detail e) = true.
Proof.
  apply (api_errors_carry_status_and_detail _ _ _ _ _
           (mkResponse 413 "{}" (Some (PyDict [("detail", PyStr EmptyString)]))) []);
    [reflexivity | reflexivity | right; eexists; reflexivity].
Defined.

Lemma classify_plain (endpoint : string) (r : response) (detail : pyval) :
  status_code r <> 404 -> status_code r <> 501 ->
  classify endpoint r detail = mkAPIError (status_code r) detail (text r).
Proof.
  intros H4 H5. unfold classify.
  destruct (Z.eqb_spec (status_code r) 404); [contradiction|].
  destruct (Z.eqb_spec (status_code r) 501); [contradiction|]. reflexivity.
Qed.

(** X3. When the body of a response that is not ok is not JSON, the
    detail of the [APIError] is the first 200 characters of the body: a
    prefix of it, never longer than 200, the whole body when that has at
    most 200 characters; [response_text] keeps the whole body.  (Stated for
    the statuses other than 404 and 501, which have branches of their own.) *)
Theorem detail_is_bounded_excerpt :
  forall (c : client) (method endpoint : string) (kw : kwargs) (n : node)
         (r : response) (rest : list reply),
    script n = Reply r :: rest -> ok r = false ->
    status_code r <> 404 -> status_code r <> 501 ->
    json_body r = None -> text r <> EmptyString ->
    exists d,
      snd (_make_request c method endpoint kw n)
      = Raised (APIError (status_code r) (PyStr d) (text r))
      /\ (String.length d <= 200)%nat
      /\ String.prefix d (text r) = true
      /\ ((String.length (text r) <= 200)%nat -> d = text r).
Proof.
  intros c method endpoint kw n r rest Hn Hok H4 H5 Hb Ht.
  rewrite make_request_eq, Hn. cbv zeta. rewrite Hok. cbn [snd].
  exists (take 200 (text r)).
  split; [| split; [apply take_length | split; [apply take_prefix | apply take_short]]].
  unfold rejection. rewrite Hb, (classify_plain _ _ _ H4 H5).
  destruct (String.eqb_spec (text r) EmptyString) as [E|_]; [contradiction|].
  cbn [negb]. unfold mkAPIError, py_or.
  assert (Hne : truthy (PyStr (take 200 (text r))) = true).
  { destruct (text r) as [|a t]; [now elim Ht | reflexivity]. }
  now rewrite Hne.
Qed.

Lemma detail_is_bounded_excerpt_witness :
  exists d,
    snd (_make_request (__init__ "http://h:5000" 60) "GET" "/status" no_kwargs
                       (scripted [reply_text 502 "Bad Gateway"]))
    = Raised (APIError 502 (PyStr d) "Bad Gateway")
    /\ (String.length d <= 200)%nat
    /\ String.prefix d "Bad Gateway" = true
    /\ ((String.length "Bad Gateway" <= 200)%nat -> d = "Bad Gateway").
Proof.
  apply (detail_is_bounded_excerpt _ _ _ _ _ (mkResponse 502 "Bad Gateway" None) []);
    try reflexivity; discriminate.
Defined.

(** X4. When the body gives no detail, the [APIError] gets a default one:
    an object without ["detail"] gives ["Resource not found"] on a 404 that
    is not a resource endpoint and ["Server returned status N"] on the
    other statuses; an empty body gives ["No detail provided (Status: N)"]. *)
Theorem missing_detail_defaults :
  forall (c : client) (method endpoint : string) (kw : kwargs) (n : node)
         (r : response) (rest : list reply),
    script n = Reply r :: rest -> ok r = false ->
    ((forall data, json_body r = Some (PyDict data) ->
                   dict_lookup "detail" data = None ->
                   status_code r = 404 -> (forall seg, ~ resource_shape endpoint seg) ->
        snd (_make_request c method endpoint kw n)
        = Raised (APIError 404 (PyStr "Resource not found") (text r)))
     /\ (forall data, json_body r = Some (PyDict data) ->
                      dict_lookup "detail" data = None ->
                      status_code r <> 404 -> status_code r <> 501 ->
           snd (_make_request c method endpoint kw n)
           = Raised (APIError (status_code r)
                              (PyStr ("Server returned status " ++ str_of_int (status_code r)))
                              (text r)))
     /\ (json_body r = None -> text r = EmptyString ->
         status_code r <> 404 -> status_code r <> 501 ->
         snd (_make_request c method endpoint kw n)
         = Raised (APIError (status_code r)
                            (PyStr ("No detail provided (Status: "
                                    ++ str_of_int (status_code r) ++ ")"))
                            EmptyString))).
Proof.
  intros c method endpoint kw n r rest Hn Hok.
  rewrite make_request_eq, Hn. cbv zeta. rewrite Hok. cbn [snd]. unfold rejection.
  split; [| split].
  - intros data -> Hd Hs Hno. unfold dict_get. rewrite Hd.
    rewrite (classify_404_other _ _ _ Hs Hno). reflexivity.
  - intros data -> Hd H4 H5. unfold dict_get. rewrite Hd.
    rewrite (classify_plain _ _ _ H4 H5). reflexivity.
  - intros -> Ht H4 H5. rewrite (classify_plain _ _ _ H4 H5), Ht. reflexivity.
Qed.

Lemma missing_detail_defaults_witness :
  snd (_make_request (__init__ "http://h:5000" 60) "GET" "/files" no_kwargs
                     (scripted [reply_json 404 (PyDict [])]))
  = Raised (APIError 404 (PyStr "Resource not found") "{}").
Proof.
  apply (proj1 (missing_detail_defaults (__init__ "http://h:5000" 60) "GET" "/files"
                  no_kwargs (scripted [reply_json 404 (PyDict [])])
                  (mkResponse 404 "{}" (Some (PyDict []))) []
                  eq_refl eq_refl) []); try reflexivity.
  intros seg (p & Hp & _ & E). simpl in E.
  destruct Hp as [<- | [<- | [<- | []]]]; discriminate.
Defined.

(** ** The methods that read *)

Lemma fetch_sends (c : client) (endpoint : string) (params : pydict) (n : node)
      (url_path : string) :
  request_url c endpoint = base_url c ++ url_path ->
  requests_of (log (fst (bind (_make_request c "GET" endpoint (mkKwargs None params [] false))
                              response_json n)))
  = (requests_of (log n) ++ [get_request c url_path params false])%list.
Proof.
  intros Hu.
  destruct (fetch_json c "GET" endpoint (mkKwargs None params [] false) n) as [Hl _].
  cbv zeta in Hl. rewrite Hl. unfold sent_request, get_request. cbn [kw_timeout kw_params
    kw_files kw_stream]. now rewrite Hu.
Qed.

(** X5. Each method that reads sends exactly one request: a GET to its
    own path under the base URL of the client, with the default timeout of
    the client, no file, not streamed; [list_files] passes [limit] only
    when one is given, [search] passes [query] and [limit]. *)
Theorem read_methods_send_one_get :
  forall (c : client) (n : node),
    requests_of (log (fst (get_root_message c n)))
    = (requests_of (log n) ++ [get_request c "/" [] false])%list
    /\ requests_of (log (fst (get_status c n)))
       = (requests_of (log n) ++ [get_request c "/status" [] false])%list
    /\ requests_of (log (fst (get_health c n)))
       = (requests_of (log n) ++ [get_request c "/health" [] false])%list
    /\ (forall h,
          requests_of (log (fst (get_file_info c h n)))
          = (requests_of (log n) ++ [get_request c ("/file-info/" ++ h) [] false])%list)
    /\ (forall h,
          requests_of (log (fst (get_zk_proof c h n)))
          = (requests_of (log n) ++ [get_request c ("/zk-proof/" ++ h) [] false])%list)
    /\ requests_of (log (fst (list_files c PyNone n)))
       = (requests_of (log n) ++ [get_request c "/files" [] false])%list
    /\ (forall limit,
          positive_integer limit = true ->
          requests_of (log (fst (list_files c limit n)))
          = (requests_of (log n) ++ [get_request c "/files" [("limit", limit)] false])%list)
    /\ (forall query limit,
          positive_integer limit = true ->
          requests_of (log (fst (search c query limit n)))
          = (requests_of (log n)
             ++ [get_request c "/search" [("query", PyStr query); ("limit", limit)] false])%list).
Proof.
  intros c n.
  split; [| split; [| split; [| split; [| split; [| split; [| split]]]]]].
  - now apply fetch_sends.
  - now apply fetch_sends.
  - now apply fetch_sends.
  - intros h. now apply fetch_sends.
  - intros h. now apply fetch_sends.
  - now apply fetch_sends.
  - intros limit Hpos. unfold list_files.
    assert (B : bad_limit limit = false) by (rewrite bad_limit_spec, Hpos; reflexivity).
    destruct limit; try discriminate; rewrite B; now apply fetch_sends.
  - intros query limit Hpos. unfold search.
    assert (B : bad_limit limit = false) by (rewrite bad_limit_spec, Hpos; reflexivity).
    rewrite B. now apply fetch_sends.
Qed.

Lemma read_methods_send_one_get_witness :
  requests_of (log (fst (search (__init__ "http://h:5000/" 30) "cat" (PyInt 5) (scripted []))))
  = [mkRequest "GET" "http://h:5000/search" 30
               [("query", PyStr "cat"); ("limit", PyInt 5)] [] false].
Proof.
  destruct (read_methods_send_one_get (__init__ "http://h:5000/" 30) (scripted []))
    as (_ & _ & _ & _ & _ & _ & _ & H).
  rewrite (H "cat" (PyInt 5)); reflexivity.
Defined.

(** X6. [get_file_info] and [get_zk_proof] answered 404, for a hash that
    is one path segment and a body that is an object or is not JSON, raise
    [FileNotFoundErrorOnServer] carrying the hash. *)
Theorem unknown_hash_is_reported :
  forall (c : client) (h : string) (n : node) (r : response) (rest : list reply),
    script n = Reply r :: rest -> status_code r = 404 -> plain_body r ->
    free_of slash h = true ->
    snd (get_file_info c h n) = Raised (FileNotFoundErrorOnServer h)
    /\ snd (get_zk_proof c h n) = Raised (FileNotFoundErrorOnServer h).
Proof.
  intros c h n r rest Hn Hs Hb Hh.
  assert (S1 : resource_shape ("/file-info/" ++ h) h)
    by (exists "file-info"; repeat split; [right; now left | exact Hh]).
  assert (S2 : resource_shape ("/zk-proof/" ++ h) h)
    by (exists "zk-proof"; repeat split; [right; right; now left | exact Hh]).
  unfold get_file_info, get_zk_proof, bind.
  pose proof (proj1 (make_request_404 c "GET" ("/file-info/" ++ h) no_kwargs n r rest
                       Hn Hs Hb) h S1) as E1.
  pose proof (proj1 (make_request_404 c "GET" ("/zk-proof/" ++ h) no_kwargs n r rest
                       Hn Hs Hb) h S2) as E2.
  destruct (_make_request c "GET" ("/file-info/" ++ h) no_kwargs n) as [n1 [r1|e1]];
    simpl in E1; [discriminate|].
  destruct (_make_request c "GET" ("/zk-proof/" ++ h) no_kwargs n) as [n2 [r2|e2]];
    simpl in E2; [discriminate|].
  injection E1 as ->. injection E2 as ->. split; reflexivity.
Qed.

Lemma unknown_hash_is_reported_witness :
  snd (get_file_info (__init__ "http://h:5000" 60) "abc"
         (scripted [reply_json 404 (PyDict [("detail", PyStr "File not found")])]))
  = Raised (FileNotFoundErrorOnServer "abc").
Proof.
  apply (unknown_hash_is_reported (__init__ "http://h:5000" 60) "abc" _
           (mkResponse 404 "{}" (Some (PyDict [("detail", PyStr "File not found")]))) []);
    try reflexivity.
  right. eexists. reflexivity.
Defined.

(** X7. A successful response whose body is not JSON: the methods that
    read decode it outside [_make_request], so the [JSONDecodeError] of
    [requests] reaches the caller as it is. *)
Theorem success_body_must_be_json :
  forall (c : client) (n : node) (r : response) (rest : list reply),
    script n = Reply r :: rest -> ok r = true -> json_body r = None ->
    snd (get_root_message c n) = Raised JSONDecodeError
    /\ snd (get_status c n) = Raised JSONDecodeError
    /\ snd (get_health c n) = Raised JSONDecodeError
    /\ (forall h, snd (get_file_info c h n) = Raised JSONDecodeError)
    /\ (forall h, snd (get_zk_proof c h n) = Raised JSONDecodeError)
    /\ snd (list_files c PyNone n) = Raised JSONDecodeError
    /\ (forall query, snd (search c query (PyInt 10) n) = Raised JSONDecodeError).
Proof.
  intros c n r rest Hn Hok Hb.
  assert (F : forall endpoint kw,
             snd (bind (_make_request c "GET" endpoint kw) response_json n)
             = Raised JSONDecodeError).
  { intros endpoint kw. unfold bind. rewrite make_request_eq, Hn. cbv zeta.
    rewrite Hok. unfold response_json. now rewrite Hb. }
  repeat split; intros; apply F.
Qed.

Lemma success_body_must_be_json_witness :
  snd (get_status (__init__ "http://h:5000" 60) (scripted [reply_text 200 "OK"]))
  = Raised JSONDecodeError.
Proof.
  apply (success_body_must_be_json (__init__ "http://h:5000" 60) _
           (mkResponse 200 "OK" None) []); reflexivity.
Defined.

(** ** [upload] *)

(** The cases of [upload]. *)
Lemma upload_eq (c : client) (file_path : string) (n : node) :
  upload c file_path n =
  if negb (isfile n file_path) then
    (n, Raised (FileNotFoundError
                  ("Local file not found or is not a regular file: " ++ file_path)))
  else
    match guess_type n file_path with
    | None => (n, Raised (NameError "sys"))
    | Some content_type =>
        let wrap := PermastoreItError ("Failed to read local file " ++ file_path ++ ": ") in
        match file_content n file_path with
        | None => (n, Raised (wrap (OSError ("cannot open " ++ file_path))))
        | Some content =>
            match _make_request c "POST" "/upload"
                    (mkKwargs (Some (Z.max (timeout c * 2) 120)) []
                              [("file", mkPart (basename file_path) content content_type)]
                              false) n with
            | (n', Returned r) =>
                match json_body r with
                | Some v => (n', Returned v)
                | None => (n', Raised (wrap JSONDecodeError))
                end
            | (n', Raised e) => (n', Raised (if is_IOError e then wrap e else e))
            end
        end
    end.
Proof.
  unfold upload. destruct (isfile n file_path); cbn [negb]; [|reflexivity].
  destruct (guess_type n file_path) as [ct|]; [|reflexivity].
  unfold bind at 1. unfold ret at 1. unfold try_except, bind, open_rb.
  destruct (file_content n file_path) as [content|]; [|reflexivity].
  destruct (_make_request c "POST" "/upload" _ n) as [n' [r|e]].
  - unfold response_json. destruct (json_body r); reflexivity.
  - unfold handle. destruct (is_IOError e); reflexivity.
Qed.

(** X8. [upload] fails before any request when the path is not a regular
    file ([FileNotFoundError]) and when the file cannot be opened
    ([PermastoreItError] around the [OSError]): the node is left as it was. *)
Theorem upload_fails_before_any_request :
  (forall (c : client) (file_path : string) (n : node),
      isfile n file_path = false ->
      exists msg, upload c file_path n = (n, Raised (FileNotFoundError msg)))
  /\ (forall (c : client) (file_path content_type : string) (n : node),
         isfile n file_path = true -> guess_type n file_path = Some content_type ->
         file_content n file_path = None ->
         exists msg cause,
           upload c file_path n = (n, Raised (PermastoreItError msg cause))
           /\ is_IOError cause = true).
Proof.
  split.
  - intros c file_path n Hf. rewrite upload_eq, Hf. eexists. reflexivity.
  - intros c file_path ct n Hf Hg Hc. rewrite upload_eq, Hf, Hg, Hc.
    eexists. eexists. split; reflexivity.
Qed.

Lemma upload_fails_before_any_request_witness :
  exists msg,
    upload (__init__ "http://h:5000" 60) "missing.txt" (scripted [reply_json 201 (PyDict [])])
    = (scripted [reply_json 201 (PyDict [])], Raised (FileNotFoundError msg)).
Proof.
  apply (proj1 upload_fails_before_any_request). reflexivity.
Defined.

(** X9. [upload] of a regular file that opens, with a resolved MIME type,
    answered by a response that is ok with a JSON body: it returns the
    decoded body, having sent one POST to [/upload] whose only part is
    [file], with the base name of the path, the content of the file and
    the MIME type, and having taken one reply. *)
Theorem upload_success :
  forall (c : client) (file_path content content_type : string) (n : node)
         (r : response) (rest : list reply) (v : pyval),
    isfile n file_path = true -> guess_type n file_path = Some content_type ->
    file_content n file_path = Some content ->
    script n = Reply r :: rest -> ok r = true -> json_body r = Some v ->
    exists n',
      upload c file_path n = (n', Returned v)
      /\ script n' = rest
      /\ log n' = (log n ++ [Sent (upload_request c file_path content content_type)])%list
      /\ req_files (upload_request c file_path content content_type)
         = [("file", mkPart (basename file_path) content content_type)].
Proof.
  intros c file_path content ct n r rest v Hf Hg Hc Hn Hok Hb.
  rewrite upload_eq, Hf, Hg, Hc. cbn [negb]. cbv zeta.
  rewrite make_request_eq, Hn. cbv zeta. rewrite Hok, Hb.
  eexists. repeat split.
Qed.

Lemma upload_success_witness :
  exists n',
    upload (__init__ "http://h:5000" 60) "docs/a.txt"
           (writable [reply_json 201 (PyDict [("hash", PyStr "h1")])])
    = (n', Returned (PyDict [("hash", PyStr "h1")]))
    /\ requests_of (log n')
       = [mkRequest "POST" "http://h:5000/upload" 120 []
                    [("file", mkPart "a.txt" "data" "text/plain")] false].
Proof.
  destruct (upload_success (__init__ "http://h:5000" 60) "docs/a.txt" "data" "text/plain"
              (writable [reply_json 201 (PyDict [("hash", PyStr "h1")])])
              (mkResponse 201 "{}" (Some (PyDict [("hash", PyStr "h1")]))) []
              (PyDict [("hash", PyStr "h1")]))
    as (n' & E & _ & L & _); try reflexivity.
  exists n'. split; [exact E | rewrite L; reflexivity].
Defined.

(** X10. For a regular file, no [IOError] leaves [upload]: whatever the
    [try] block raises of that class is wrapped in a [PermastoreItError]
    ["Failed to read local file ..."].  That includes the [JSONDecodeError]
    of a successful response whose body is not JSON, since the exceptions
    of [requests] derive from [IOError]. *)
Theorem upload_wraps_io_errors :
  (forall (c : client) (file_path : string) (n n' : node) (e : exn),
      isfile n file_path = true -> upload c file_path n = (n', Raised e) ->
      is_IOError e = false)
  /\ (forall (c : client) (file_path content content_type : string) (n : node)
             (r : response) (rest : list reply),
         isfile n file_path = true -> guess_type n file_path = Some content_type ->
         file_content n file_path = Some content ->
         script n = Reply r :: rest -> ok r = true -> json_body r = None ->
         snd (upload c file_path n)
         = Raised (PermastoreItError ("Failed to read local file " ++ file_path ++ ": ")
                                     JSONDecodeError)).
Proof.
  split.
  - intros c file_path n n' e Hf. rewrite upload_eq, Hf. cbn [negb].
    destruct (guess_type n file_path) as [ct|]; [|now intros [= _ <-]]. cbv zeta.
    destruct (file_content n file_path) as [content|]; [|now intros [= _ <-]].
    destruct (_make_request c "POST" "/upload" _ n) as [n1 [r|e1]].
    + destruct (json_body r); [discriminate | now intros [= _ <-]].
    + destruct (is_IOError e1) eqn:E; intros [= _ <-]; [reflexivity | exact E].
  - intros c file_path content ct n r rest Hf Hg Hc Hn Hok Hb.
    rewrite upload_eq, Hf, Hg, Hc. cbn [negb]. cbv zeta.
    rewrite make_request_eq, Hn. cbv zeta. now rewrite Hok, Hb.
Qed.

Lemma upload_wraps_io_errors_witness :
  snd (upload (__init__ "http://h:5000" 60) "a.txt" (writable [reply_text 200 "OK"]))
  = Raised (PermastoreItError ("Failed to read local file " ++ "a.txt" ++ ": ")
                              JSONDecodeError).
Proof.
  apply (proj2 upload_wraps_io_errors (__init__ "http://h:5000" 60) "a.txt" "data"
           "text/plain" (writable [reply_text 200 "OK"]) (mkResponse 200 "OK" None) []);
    reflexivity.
Defined.

(** ** [download] *)

(** The cases of [download]. *)
Lemma download_eq (c : client) (h save_dir : string) (name : option string) (n : node) :
  download c h save_dir name n =
  let path := path_join save_dir (saved_as h name) in
  if makedirs_fails n save_dir then
    (n, Raised (PermastoreItError ("Failed to create save directory '" ++ save_dir ++ "': ")
                                  (OSError ("cannot create " ++ save_dir))))
  else
    match _make_request c "GET" ("/download/" ++ h) (mkKwargs None [] [] true)
                        (add_event (MadeDirs save_dir) n) with
    | (n', Returned r) =>
        match write_error n' path with
        | None => (add_event (Wrote path (text r)) n', Returned path)
        | Some f =>
            (add_event (Removed path) (add_event (WriteFailed path) n'),
             Raised (PermastoreItError
                       ("Failed to write downloaded file to '" ++ path ++ "': ")
                       (exn_of_failure f)))
        end
    | (n', Raised e) =>
        (add_event (Removed path) n',
         Raised (PermastoreItError
                   (if is_IOError e
                    then "Failed to write downloaded file to '" ++ path ++ "': "
                    else "Unexpected error during download/save: ") e))
    end.
Proof.
  unfold download, saved_as. cbv zeta. unfold bind at 1. unfold try_except at 1.
  unfold makedirs at 1. destruct (makedirs_fails n save_dir); [reflexivity|].
  unfold try_except, bind.
  pose proof (never_exits_make_request c "GET" ("/download/" ++ h)
                (mkKwargs None [] [] true) (add_event (MadeDirs save_dir) n)) as Hex.
  destruct (_make_request c "GET" ("/download/" ++ h) _ _) as [n' [r|e]].
  - unfold write_file.
    destruct (write_error n' _) as [f|]; [|reflexivity].
    unfold handle. destruct f; reflexivity.
  - specialize (Hex _ _ eq_refl). unfold handle.
    destruct (is_IOError e); [reflexivity|]. rewrite Hex. reflexivity.
Qed.

(** X11. When [download] returns, it returns the path made of the
    directory and of the given name, or of the hash when no name (or an
    empty one) is given, and what it has done is: create the directory,
    send one streamed GET to [/download/<hash>], write the body of the
    response to that path.  It does return when the directory can be
    created, the response is ok and the file can be written. *)
Theorem download_saves_the_body :
  (forall (c : client) (h save_dir : string) (name : option string) (n n' : node)
          (p : string),
      download c h save_dir name n = (n', Returned p) ->
      p = path_join save_dir (saved_as h name)
      /\ exists body,
          log n' = (log n ++ [MadeDirs save_dir;
                              Sent (get_request c ("/download/" ++ h) [] true);
                              Wrote p body])%list)
  /\ (forall (c : client) (h save_dir : string) (name : option string) (n : node)
             (r : response) (rest : list reply),
         makedirs_fails n save_dir = false ->
         script n = Reply r :: rest -> ok r = true ->
         write_error n (path_join save_dir (saved_as h name)) = None ->
         exists n',
           download c h save_dir name n
           = (n', Returned (path_join save_dir (saved_as h name)))
           /\ log n' = (log n ++ [MadeDirs save_dir;
                                  Sent (get_request c ("/download/" ++ h) [] true);
                                  Wrote (path_join save_dir (saved_as h name)) (text r)])%list).
Proof.
  split.
  - intros c h save_dir name n n' p. rewrite download_eq. cbv zeta.
    destruct (makedirs_fails n save_dir); [discriminate|].
    pose proof (make_request_log c "GET" ("/download/" ++ h) (mkKwargs None [] [] true)
                  (add_event (MadeDirs save_dir) n)) as Hlog.
    destruct (_make_request c "GET" ("/download/" ++ h) _ _) as [n1 [r|e]];
      [|discriminate].
    destruct (write_error n1 _); [discriminate|].
    intros [= <- <-]. split; [reflexivity|]. exists (text r).
    cbn [fst] in Hlog. cbn [add_event log]. rewrite Hlog. cbn [add_event log].
    rewrite <- !app_assoc. reflexivity.
  - intros c h save_dir name n r rest Hmk Hn Hok Hw.
    rewrite download_eq. cbv zeta. rewrite Hmk, make_request_eq.
    change (script (add_event (MadeDirs save_dir) n)) with (script n). rewrite Hn.
    cbv zeta. rewrite Hok.
    change (write_error (set_script rest _)) with (write_error n). rewrite Hw.
    eexists. split; [reflexivity|].
    cbn [add_event set_script log]. rewrite <- !app_assoc. reflexivity.
Qed.

Lemma download_saves_the_body_witness :
  exists n',
    download (__init__ "http://h:5000" 60) "abc" "out" None
             (writable [reply_text 200 "content"])
    = (n', Returned "out/abc")
    /\ log n' = [MadeDirs "out";
                 Sent (mkRequest "GET" "http://h:5000/download/abc" 60 [] [] true);
                 Wrote "out/abc" "content"].
Proof.
  apply (proj2 download_saves_the_body (__init__ "http://h:5000" 60) "abc" "out" None
           (writable [reply_text 200 "content"]) (mkResponse 200 "content" None) []);
    reflexivity.
Defined.

(** X12. For a directory and a file name that hold no NUL character
    (on which [os.makedirs] and [os.remove] raise [ValueError]): whatever
    goes wrong, [download] leaves with a plain [PermastoreItError].  When
    the directory cannot be created nothing else is done; otherwise the
    request has been sent and the last thing done is the removal of the
    target path, after the write that failed if the response was ok. *)
Theorem download_failure_is_wrapped_and_cleaned :
  forall (c : client) (h save_dir : string) (name : option string) (n n' : node)
         (e : exn),
    no_nul save_dir = true -> no_nul (path_join save_dir (saved_as h name)) = true ->
    download c h save_dir name n = (n', Raised e) ->
    (exists msg cause, e = PermastoreItError msg cause)
    /\ (makedirs_fails n save_dir = true -> n' = n)
    /\ (makedirs_fails n save_dir = false ->
        log n' = (log n ++ [MadeDirs save_dir;
                            Sent (get_request c ("/download/" ++ h) [] true);
                            Removed (path_join save_dir (saved_as h name))])%list
        \/ log n' = (log n ++ [MadeDirs save_dir;
                               Sent (get_request c ("/download/" ++ h) [] true);
                               WriteFailed (path_join save_dir (saved_as h name));
                               Removed (path_join save_dir (saved_as h name))])%list).
Proof.
  intros c h save_dir name n n' e _ _. rewrite download_eq. cbv zeta.
  destruct (makedirs_fails n save_dir).
  - intros [= <- <-]. split; [eauto | split; [reflexivity | discriminate]].
  - pose proof (make_request_log c "GET" ("/download/" ++ h) (mkKwargs None [] [] true)
                  (add_event (MadeDirs save_dir) n)) as Hlog.
    destruct (_make_request c "GET" ("/download/" ++ h) _ _) as [n1 [r|e1]];
      cbn [fst] in Hlog.
    + destruct (write_error n1 _); [|discriminate].
      intros [= <- <-]. split; [eauto | split; [discriminate | intros _; right]].
      cbn [add_event log]. rewrite Hlog. cbn [add_event log].
      rewrite <- !app_assoc. reflexivity.
    + intros [= <- <-]. split; [eauto | split; [discriminate | intros _; left]].
      cbn [add_event log]. rewrite Hlog. cbn [add_event log].
      rewrite <- !app_assoc. reflexivity.
Qed.

Lemma download_failure_is_wrapped_and_cleaned_witness :
  let n := writable [Fails (Unreachable "refused")] in
  (exists msg cause,
      snd (download (__init__ "http://h:5000" 60) "abc" "out" (Some "f.bin") n)
      = Raised (PermastoreItError msg cause))
  /\ log (fst (download (__init__ "http://h:5000" 60) "abc" "out" (Some "f.bin") n))
     = [MadeDirs "out";
        Sent (mkRequest "GET" "http://h:5000/download/abc" 60 [] [] true);
        Removed "out/f.bin"].
Proof.
  intros n.
  destruct (download (__init__ "http://h:5000" 60) "abc" "out" (Some "f.bin") n)
    as [n' [p|e]] eqn:E; [vm_compute in E; discriminate|].
  destruct (download_failure_is_wrapped_and_cleaned
              (__init__ "http://h:5000" 60) "abc" "out" (Some "f.bin") n n' e
              eq_refl eq_refl E)
    as ((msg & cause & ->) & _ & L).
  split; [exists msg, cause; reflexivity |].
  destruct (L eq_refl) as [L1 | L2]; [exact L1 |].
  exfalso. vm_compute in E. injection E as <- _. vm_compute in L2. discriminate L2.
Defined.

End SDKExtra.

(* ================================================================== *)
(** * Further properties of the command layer *)
(* ================================================================== *)

Module CLIExtra.

Import Py PyFacts SDK Spec SDKSpec CLI CLISpec SDKExtra.

(** ** [handle_sdk_error] *)

(** X13. [handle_sdk_error] gives its panel to the renderer.  When Rich
    rejects the markup of the message, [MarkupError] leaves
    [handle_sdk_error]: nothing is shown, and neither the exit nor the
    return is reached.  Otherwise the panel, and nothing else, goes to
    standard error, and the process exits with code 1 or the message is
    returned, as asked.  The panel is titled as a warning for
    [ZKPDisabledError] and for no other exception, names the resource for
    [FileNotFoundErrorOnServer] and for no other exception, and these two
    panels, that hold no text of the server, are always shown; the message
    of a generic API error is used for no subclass of [APIError]. *)
Theorem errors_are_shown_by_kind :
  (forall L (e : exn) (exit_on_error : bool) (st : state L),
      handle_sdk_error e exit_on_error st
      = match verdict (rejects (con st)) (panel_of e) with
        | Some m => (st, Raised (MarkupError m))
        | None =>
            (mkState (nd st)
                     (mkConsole (clock (con st)) (stdout (con st))
                                (stderr (con st) ++ [panel_of e])
                                (slept (con st)) (rejects (con st)))
                     (vars st),
             if exit_on_error then Raised (SystemExit 1)
             else Returned (snd (describe e)))
        end)
  /\ (forall e, fst (describe e) = "Warning" <-> e = ZKPDisabledError)
  /\ (forall e id, snd (describe e) = NotFoundMessage id
                   <-> e = FileNotFoundErrorOnServer id)
  /\ (forall e status detail,
         snd (describe e) = ApiMessage status detail ->
         exists raw, e = APIError status detail raw)
  /\ (forall (r : shown -> option string) (e : exn),
         e = ZKPDisabledError \/ (exists id, e = FileNotFoundErrorOnServer id) ->
         verdict r (panel_of e) = None).
Proof.
  split; [| split; [| split; [| split]]].
  - intros L e exit_on_error st. apply handle_sdk_error_run.
  - intros e. split.
    + destruct e; simpl; intros H; try discriminate; reflexivity.
    + intros ->. reflexivity.
  - intros e id. split.
    + destruct e; simpl; intros H; try discriminate. now injection H as ->.
    + intros ->. reflexivity.
  - intros e status detail. destruct e; simpl; intros H; try discriminate.
    injection H as <- <-. eauto.
  - intros r e [-> | [id ->]]; reflexivity.
Qed.

Lemma errors_are_shown_by_kind_witness :
  let e := APIError 500 (PyStr "bad [/] thing") "bad [/] thing" in
  let st := mkState (scripted []) strict_console tt in
  handle_sdk_error e false st
  = (st, Raised (MarkupError "closing tag '[/]' at position 30 has nothing to close"))
  /\ handle_sdk_error ZKPDisabledError false st
     = (mkState (scripted [])
                (mkConsole [] [] [ErrorPanel "Warning" (ZkpMessage ZKPDisabledError)] []
                           strict)
                tt,
        Returned (ZkpMessage ZKPDisabledError))
  /\ exists raw, e = APIError 500 (PyStr "bad [/] thing") raw.
Proof.
  intros e st. split; [| split].
  - rewrite (proj1 errors_are_shown_by_kind). reflexivity.
  - rewrite (proj1 errors_are_shown_by_kind).
    rewrite (proj2 (proj2 (proj2 (proj2 errors_are_shown_by_kind)))
               (rejects (con st)) ZKPDisabledError (or_introl eq_refl)).
    reflexivity.
  - exact (proj1 (proj2 (proj2 (proj2 errors_are_shown_by_kind)))
             e 500 (PyStr "bad [/] thing") eq_refl).
Defined.

(** ** The single-shot commands *)

Lemma never_exits_fetch (c : client) (endpoint : string) :
  never_exits (bind (_make_request c "GET" endpoint no_kwargs) response_json).
Proof.
  apply never_exits_bind;
    [apply never_exits_make_request | apply never_exits_response_json].
Qed.

Lemma single_shot_never_exits (c : client) (fetch : M node pyval)
      (cmd : format -> M (state unit) unit) :
  single_shot c fetch cmd -> never_exits fetch.
Proof.
  intros [[-> _] | [[h [-> _]] | [h [-> _]]]]; apply never_exits_fetch.
Qed.

Lemma single_shot_run (c : client) (fetch : M node pyval)
      (cmd : format -> M (state unit) unit) :
  single_shot c fetch cmd ->
  forall output_format st,
  exists k, stdout k = stdout (con st) /\ rejects k = rejects (con st)
            /\ cmd output_format st
               = fetch_and_print fetch output_format (mkState (nd st) k (vars st)).
Proof.
  intros [[-> ->] | [[h [-> ->]] | [h [-> ->]]]] fmt st;
    eexists; (split; [| split; [| reflexivity]]); reflexivity.
Qed.

(** X14. The commands [status], [info] and [zkp].  When the call of the
    SDK returns an object, the command returns (exit status 0); in JSON
    form it prints one line, that object with ["query_time_ms"] set and
    every other member as the server sent it, and in text form it prints
    nothing on standard output.  When the call raises, or returns
    something that is not an object, the process ends with exit status 1
    and nothing on standard output, whether the panel of the error is shown
    or rejected by Rich. *)
Theorem single_shot_commands :
  forall (c : client) (fetch : M node pyval) (cmd : format -> M (state unit) unit),
    single_shot c fetch cmd ->
    (forall (output_format : format) (st : state unit) (n' : node) (d : pydict),
        fetch (nd st) = (n', Returned (PyDict d)) ->
        exists st' shown_payload,
          cmd output_format st = (st', Returned tt)
          /\ exit_status (snd (cmd output_format st)) = 0
          /\ nd st' = n'
          /\ stdout (con st')
             = (stdout (con st)
                ++ match output_format with
                   | Json => [OutValue (PyDict shown_payload)]
                   | Text => []
                   end)%list
          /\ (exists t, dict_lookup "query_time_ms" shown_payload = Some (PyFloat t))
          /\ (forall key, key <> "query_time_ms" ->
                          dict_lookup key shown_payload = dict_lookup key d))
    /\ (forall (output_format : format) (st : state unit) (n' : node) (o : result pyval),
           fetch (nd st) = (n', o) ->
           (forall d, o <> Returned (PyDict d)) ->
           exists st' e',
             cmd output_format st = (st', Raised e')
             /\ exit_status (snd (cmd output_format st)) = 1
             /\ nd st' = n'
             /\ stdout (con st') = stdout (con st)).
Proof.
  intros c fetch cmd Hss. pose proof (single_shot_never_exits _ _ _ Hss) as Hex.
  split.
  - intros fmt st n' d Hf.
    destruct (single_shot_run _ _ _ Hss fmt st) as (k & Hk & _ & E). rewrite E.
    unfold fetch_and_print. run_monad. rewrite Hf. unfold set_item. run_monad.
    destruct fmt; run_monad;
      (eexists;
       exists (dict_set "query_time_ms"
                        (PyFloat (duration_ms (hd 0%float (clock k))
                                              (hd 0%float (tl (clock k))))) d);
       split; [reflexivity | split; [reflexivity | split; [reflexivity |]]]);
      cbn [con stdout]; rewrite Hk;
      (split; [try reflexivity; now rewrite app_nil_r | split]);
      try (eexists; apply dict_lookup_set_same);
      intros key Hkey; now apply dict_lookup_set_other.
  - intros fmt st n' o Hf Hbad.
    destruct (single_shot_run _ _ _ Hss fmt st) as (k & Hk & _ & E). rewrite E.
    unfold fetch_and_print. run_monad. rewrite Hf.
    assert (F : forall (e : exn) (k1 : console),
               stdout k1 = stdout (con st) ->
               let out := handle_sdk_error e true (mkState n' k1 (vars st)) in
               exists st' e',
                 (let (s', r) := out in
                  match r with
                  | Returned _ => (s', Returned tt)
                  | Raised e1 => (s', Raised e1)
                  end) = (st', @Raised unit e')
                 /\ exit_status (@Raised unit e') = 1
                 /\ nd st' = n' /\ stdout (con st') = stdout (con st)).
    { intros e k1 Hk1 out. subst out.
      rewrite handle_sdk_error_run. cbn [con nd vars].
      destruct (verdict (rejects k1) (panel_of e));
        (eexists; eexists;
         split; [reflexivity | split; [reflexivity | split; [reflexivity |]]]);
        exact Hk1. }
    destruct o as [v|e].
    + destruct v; try (now elim (Hbad d)); run_monad; unfold set_item; run_monad;
        unfold handle; cbn [is_Exception fst snd];
        match goal with
        | |- context [handle_sdk_error ?e true (mkState _ ?k1 _)] =>
            destruct (F e k1) as (st' & e' & E1 & X & N & O);
            [cbn [stdout]; exact Hk |]
        end;
        exists st', e'; cbv zeta in E1; rewrite E1; repeat split; assumption.
    + unfold handle. rewrite (Hex _ _ _ Hf). cbn [fst snd].
      match goal with
      | |- context [handle_sdk_error ?e true (mkState _ ?k1 _)] =>
          destruct (F e k1) as (st' & e' & E1 & X & N & O);
          [cbn [stdout]; exact Hk |]
      end.
      exists st', e'. cbv zeta in E1. rewrite E1. repeat split; assumption.
Qed.

Lemma single_shot_commands_witness :
  let c := __init__ "http://h:5000" 60 in
  let st := fresh (scripted [reply_json 200 (PyDict [("node_id", PyStr "n1")])]) tt in
  exists st' shown_payload,
    status c Json st = (st', Returned tt)
    /\ stdout (con st') = [OutValue (PyDict shown_payload)]
    /\ dict_lookup "node_id" shown_payload = Some (PyStr "n1").
Proof.
  intros c st.
  destruct (proj1 (single_shot_commands c (get_status c) (status c)
                     (or_introl (conj eq_refl eq_refl)))
              Json st (fst (get_status c (nd st)))
              [("node_id", PyStr "n1")])
    as (st' & p & E & _ & _ & O & _ & K); [reflexivity|].
  exists st', p. split; [exact E | split; [exact O |]].
  rewrite K; [reflexivity | discriminate].
Defined.

(** X15. The commands [info] and [zkp] on a hash the server answers 404
    for (the hash one path segment, the body an object or not JSON): the
    panel on standard error names the hash as a resource not found, nothing
    reaches standard output, and the process exits with code 1. *)
Theorem unknown_hash_is_shown_as_not_found :
  forall (c : client) (h : string) (output_format : format) (st : state unit)
         (r : response) (rest : list reply),
    script (nd st) = Reply r :: rest -> status_code r = 404 -> plain_body r ->
    free_of slash h = true ->
    (exists st',
        info c h output_format st = (st', Raised (SystemExit 1))
        /\ stdout (con st') = stdout (con st)
        /\ stderr (con st')
           = (stderr (con st)
              ++ [Line ("Getting info for hash '" ++ h ++ "' ...");
                  ErrorPanel "Error" (NotFoundMessage h)])%list)
    /\ (exists st',
           zkp c h output_format st = (st', Raised (SystemExit 1))
           /\ stdout (con st') = stdout (con st)
           /\ stderr (con st')
              = (stderr (con st)
                 ++ [Line ("Generating ZKP for hash '" ++ h ++ "' ...");
                     ErrorPanel "Error" (NotFoundMessage h)])%list).
Proof.
  intros c h fmt st r rest Hn Hs Hb Hh.
  assert (S1 : resource_shape ("/file-info/" ++ h) h)
    by (exists "file-info"; repeat split; [right; now left | exact Hh]).
  assert (S2 : resource_shape ("/zk-proof/" ++ h) h)
    by (exists "zk-proof"; repeat split; [right; right; now left | exact Hh]).
  pose proof (proj1 (make_request_404 c "GET" ("/file-info/" ++ h) no_kwargs (nd st) r rest
                       Hn Hs Hb) h S1) as E1.
  pose proof (proj1 (make_request_404 c "GET" ("/zk-proof/" ++ h) no_kwargs (nd st) r rest
                       Hn Hs Hb) h S2) as E2.
  split.
  - unfold info, fetch_and_print, get_file_info, handle_sdk_error. run_monad.
    destruct (_make_request c "GET" ("/file-info/" ++ h) no_kwargs (nd st)) as [n1 [r1|e1]];
      simpl in E1; [discriminate|].
    injection E1 as ->. simpl. eexists. split; [reflexivity|].
    cbn [con stdout stderr]. split; [reflexivity|]. now rewrite <- app_assoc.
  - unfold zkp, fetch_and_print, get_zk_proof, handle_sdk_error. run_monad.
    destruct (_make_request c "GET" ("/zk-proof/" ++ h) no_kwargs (nd st)) as [n1 [r1|e1]];
      simpl in E2; [discriminate|].
    injection E2 as ->. simpl. eexists. split; [reflexivity|].
    cbn [con stdout stderr]. split; [reflexivity|]. now rewrite <- app_assoc.
Qed.

Lemma unknown_hash_is_shown_as_not_found_witness :
  let st := fresh (scripted [reply_text 404 "Not Found"]) tt in
  exists st',
    info (__init__ "http://h:5000" 60) "abc" Text st = (st', Raised (SystemExit 1))
    /\ stderr (con st')
       = [Line "Getting info for hash 'abc' ..."; ErrorPanel "Error" (NotFoundMessage "abc")].
Proof.
  intros st.
  destruct (proj1 (unknown_hash_is_shown_as_not_found
                     (__init__ "http://h:5000" 60) "abc" Text st
                     (mkResponse 404 "Not Found" None) []
                     eq_refl eq_refl (or_introl eq_refl) eq_refl))
    as (st' & E & _ & S).
  exists st'. split; [exact E | exact S].
Defined.

(** ** The [get-metrics] command *)

(** X16. The client has no [get_metrics] method, so the [get-metrics]
    command never gets to its placeholder result: whatever the node and the
    output format, it sends no request, prints nothing on standard output,
    shows the "not found" notice and exits with code 1; the [sys.exit]
    inside the [try] block is not taken by [except Exception]. *)
Theorem get_metrics_is_not_implemented :
  forall (c : client) (output_format : format) (st : state unit),
    hasattr "get_metrics" = false
    /\ exists st',
        get_metrics c output_format st = (st', Raised (SystemExit 1))
        /\ nd st' = nd st
        /\ stdout (con st') = stdout (con st)
        /\ stderr (con st')
           = (stderr (con st)
              ++ [Line "Fetching metrics ...";
                  Line "SDK method 'get_metrics()' not found."])%list.
Proof.
  intros c fmt st. split; [reflexivity|].
  unfold get_metrics. change (hasattr "get_metrics") with false. cbn [negb].
  run_monad. unfold handle. cbn [is_Exception fst]. eexists.
  split; [reflexivity | split; [reflexivity | split; [reflexivity |]]].
  cbn [con stderr]. now rewrite <- app_assoc.
Qed.

(** ** The [health] command *)



(** ** The repeatable commands, once more *)

(** With a repeat count of 0 or less the loop has nothing to run. *)
Lemma command_nothing (try_block : Z -> float -> M (state repeat_vars) unit)
      (line : Z -> string) (repeat : Z) (delay : Q) (intro : string)
      (output_format : format) (st : state repeat_vars) :
  repeat <= 0 ->
  exists st',
    command try_block line repeat delay intro output_format st = (st', Returned tt)
    /\ nd st' = nd st
    /\ results_data (vars st') = []
    /\ stdout (con st') = stdout (con st).
Proof.
  intros Hr.
  assert (Hrange : range repeat = []).
  { unfold range. replace (Z.to_nat repeat) with 0%nat by lia. reflexivity. }
  assert (Hr1 : (1 <? repeat) = false) by lia.
  destruct (command_prefix try_block line repeat delay intro output_format st)
    as (k & Ok & _ & E).
  rewrite E. rewrite Hrange. cbn [for_each]. unfold bind at 1. unfold ret at 1.
  match goal with
  | |- context [finish_repeat repeat output_format ?s] =>
      destruct (finish_repeat_run repeat output_format s) as (k' & F & O')
  end.
  rewrite F. cbn [nd con vars results_data overall_success stdout negb andb] in *.
  eexists. split; [reflexivity | split; [reflexivity | split; [reflexivity |]]].
  cbn [con]. rewrite O', Ok. destruct output_format; simpl; now rewrite app_nil_r.
Qed.

(** X18. With a repeat count of 0 or less, [upload] and [download] make
    no attempt at all: the node is left as it was, no record is kept,
    nothing is printed on standard output, and the command returns (exit
    status 0) although nothing was transferred. *)
Theorem nothing_to_repeat :
  forall (repeat : Z),
    repeat <= 0 ->
    (forall (c : client) (file_path : string) (delay : Q) (output_format : format)
            (st : state repeat_vars),
        exists st',
          CLI.upload c file_path repeat delay output_format st = (st', Returned tt)
          /\ nd st' = nd st
          /\ results_data (vars st') = []
          /\ stdout (con st') = stdout (con st))
    /\ (forall (c : client) (h out_dir : string) (name : option string) (delay : Q)
               (output_format : format) (st : state repeat_vars),
           exists st',
             CLI.download c h out_dir name repeat delay output_format st
             = (st', Returned tt)
             /\ nd st' = nd st
             /\ results_data (vars st') = []
             /\ stdout (con st') = stdout (con st)).
Proof.
  intros repeat Hr. split.
  - intros c file_path delay fmt st. rewrite upload_is_command.
    now apply command_nothing.
  - intros c h out_dir name delay fmt st.
    pose proof (download_is_command c h out_dir name repeat delay fmt) as E.
    cbv zeta in E. rewrite E. now apply command_nothing.
Qed.

Lemma nothing_to_repeat_witness :
  let st := fresh (writable [reply_json 201 (PyDict [])]) (mkRepeatVars [] true) in
  exists st',
    CLI.upload (__init__ "http://h:5000" 60) "a.txt" 0 0 Json st = (st', Returned tt)
    /\ nd st' = nd st.
Proof.
  intros st.
  destruct (proj1 (nothing_to_repeat 0 ltac:(lia))
              (__init__ "http://h:5000" 60) "a.txt" 0%Q Json st)
    as (st' & E & Hn & _).
  exists st'. split; [exact E | exact Hn].
Defined.




(** ** The files a repeated download writes *)

Lemma to_int_not_nil (z : Z) :
  Z.to_int z <> Decimal.Pos Decimal.Nil /\ Z.to_int z <> Decimal.Neg Decimal.Nil.
Proof.
  destruct z as [|q|q]; simpl; split; try discriminate;
    intros [= H]; exact (DecimalPos.Unsigned.to_uint_nonnil q H).
Qed.

Lemma str_of_int_inj (i j : Z) : str_of_int i = str_of_int j -> i = j.
Proof.
  unfold str_of_int. intros H. apply DecimalZ.to_int_inj.
  destruct (to_int_not_nil i) as [Hi1 Hi2]. destruct (to_int_not_nil j) as [Hj1 Hj2].
  pose proof (NilZero.isi _ Hi1 Hi2) as Ei. pose proof (NilZero.isi _ Hj1 Hj2) as Ej.
  rewrite H in Ei. rewrite Ei in Ej. now injection Ej.
Qed.

Lemma append_inj_l (a x y : string) : a ++ x = a ++ y -> x = y.
Proof.
  induction a as [|ch a IH]; simpl; [trivial|]. intros [= H]. now apply IH.
Qed.

Lemma starts_with_numbered (base s : string) :
  starts_with slash (base ++ "." ++ s) = starts_with slash (base ++ ".").
Proof. destruct base; reflexivity. Qed.

(** X20. When a download is repeated, attempt [i] is saved as
    [<base>.<i>]: the name is never empty, so the SDK keeps it, and two
    attempts never write the same path, whatever the directory. *)
Theorem repeated_downloads_do_not_collide :
  forall (out_dir save_filename_base file_hash : string) (repeat i j : Z),
    1 < repeat ->
    saved_as file_hash (Some (attempt_filename save_filename_base repeat i))
    = save_filename_base ++ "." ++ str_of_int i
    /\ (path_join out_dir (attempt_filename save_filename_base repeat i)
        = path_join out_dir (attempt_filename save_filename_base repeat j) ->
        i = j).
Proof.
  intros out_dir base h repeat i j Hr.
  assert (Hr' : (1 <? repeat) = true) by lia.
  unfold attempt_filename. rewrite Hr'. split.
  - unfold saved_as.
    destruct (String.eqb_spec (base ++ "." ++ str_of_int i) EmptyString) as [E|_];
      [|reflexivity].
    destruct base; discriminate.
  - unfold path_join. rewrite !starts_with_numbered.
    intros H. apply str_of_int_inj. apply (append_inj_l ".").
    destruct (starts_with slash (base ++ ".")).
    + now apply (append_inj_l base).
    + destruct (String.eqb out_dir EmptyString || ends_with slash out_dir).
      * apply (append_inj_l base). now apply (append_inj_l out_dir).
      * apply (append_inj_l base). apply (append_inj_l "/").
        now apply (append_inj_l out_dir).
Qed.

Lemma repeated_downloads_do_not_collide_witness :
  saved_as "abc" (Some (attempt_filename "f.bin" 3 2)) = "f.bin.2".
Proof.
  exact (proj1 (repeated_downloads_do_not_collide "out" "f.bin" "abc" 3 2 0 ltac:(lia))).
Defined.

(** ** The records of a bulk upload *)




(** ** Requests are never repeated *)

Section Growth.

Context {St : Type}.
Variable size : St -> nat.

Lemma grows_ret {A} (a : A) : grows_by size 0 (ret a).
Proof. intros s. simpl. lia. Qed.

Lemma grows_raise {A} (e : exn) : grows_by size 0 (@raise St A e).
Proof. intros s. simpl. lia. Qed.

Lemma grows_weaken {A} (a b : nat) (m : M St A) :
  (a <= b)%nat -> grows_by size a m -> grows_by size b m.
Proof. intros Hab Hm s. specialize (Hm s). lia. Qed.

Lemma grows_bind {A B} (a b : nat) (m : M St A) (f : A -> M St B) :
  grows_by size a m -> (forall x, grows_by size b (f x)) ->
  grows_by size (a + b) (bind m f).
Proof.
  intros Hm Hf s. unfold bind. specialize (Hm s).
  destruct (m s) as [s1 [x|e]]; cbn [fst] in *; [specialize (Hf x s1)|]; lia.
Qed.

Lemma grows_bind_l {A B} (k : nat) (m : M St A) (f : A -> M St B) :
  grows_by size 0 m -> (forall x, grows_by size k (f x)) -> grows_by size k (bind m f).
Proof. intros Hm Hf. exact (grows_bind 0 k m f Hm Hf). Qed.

Lemma grows_bind_r {A B} (k : nat) (m : M St A) (f : A -> M St B) :
  grows_by size k m -> (forall x, grows_by size 0 (f x)) -> grows_by size k (bind m f).
Proof.
  intros Hm Hf. apply (grows_weaken (k + 0) k); [lia|]. now apply grows_bind.
Qed.

Lemma grows_handle {A} (b : nat) (clauses : list (clause St A)) (e : exn) :
  Forall (fun cl => forall e', grows_by size b (snd cl e')) clauses ->
  grows_by size b (handle clauses e).
Proof.
  induction 1 as [|[cls h] rest Hh _ IH]; cbn [handle].
  - apply (grows_weaken 0 b); [lia | apply grows_raise].
  - destruct (cls e); [apply Hh | exact IH].
Qed.

Lemma grows_try_except {A} (a b : nat) (m : M St A) (clauses : list (clause St A)) :
  grows_by size a m ->
  Forall (fun cl => forall e', grows_by size b (snd cl e')) clauses ->
  grows_by size (a + b) (try_except m clauses).
Proof.
  intros Hm Hc s. unfold try_except. specialize (Hm s).
  destruct (m s) as [s1 [x|e]]; cbn [fst] in *; [lia|].
  pose proof (grows_handle b clauses e Hc s1). lia.
Qed.

Lemma grows_try_quiet {A} (k : nat) (m : M St A) (clauses : list (clause St A)) :
  grows_by size k m ->
  Forall (fun cl => forall e', grows_by size 0 (snd cl e')) clauses ->
  grows_by size k (try_except m clauses).
Proof.
  intros Hm Hc. apply (grows_weaken (k + 0) k); [lia|]. now apply grows_try_except.
Qed.

Lemma grows_for_each {A} (a : nat) (xs : list A) (body : A -> M St unit) :
  (forall x, grows_by size a (body x)) ->
  grows_by size (List.length xs * a) (for_each xs body).
Proof.
  intros Hb. induction xs as [|x xs IH]; cbn [for_each List.length].
  - apply grows_ret.
  - change (Datatypes.S (List.length xs) * a)%nat with (a + List.length xs * a)%nat.
    apply grows_bind; [apply Hb | intros _; exact IH].
Qed.

Lemma grows_for_each_quiet {A} (xs : list A) (body : A -> M St unit) :
  (forall x, grows_by size 0 (body x)) -> grows_by size 0 (for_each xs body).
Proof.
  intros Hb. apply (grows_weaken (List.length xs * 0) 0); [lia|].
  now apply grows_for_each.
Qed.

End Growth.

(** *** The SDK *)

Lemma requests_sent_add_sent (req : request) (n : node) :
  requests_sent (add_event (Sent req) n) = Datatypes.S (requests_sent n).
Proof.
  unfold requests_sent. cbn [add_event log].
  rewrite requests_of_app, length_app. simpl. lia.
Qed.

Lemma make_request_grows (c : client) (method endpoint : string) (kw : kwargs) :
  grows_by requests_sent 1 (_make_request c method endpoint kw).
Proof.
  intros n. unfold requests_sent. rewrite make_request_log.
  rewrite requests_of_app, length_app. simpl. lia.
Qed.

Lemma response_json_grows {St} (size : St -> nat) (r : response) :
  grows_by size 0 (response_json r).
Proof.
  unfold response_json. destruct (json_body r); [apply grows_ret | apply grows_raise].
Qed.

Lemma fetch_grows (c : client) (endpoint : string) (kw : kwargs) :
  grows_by requests_sent 1 (bind (_make_request c "GET" endpoint kw) response_json).
Proof.
  apply grows_bind_r; [apply make_request_grows | intros r; apply response_json_grows].
Qed.

Lemma upload_grows (c : client) (file_path : string) :
  grows_by requests_sent 1 (SDK.upload c file_path).
Proof.
  intros n. rewrite upload_eq.
  destruct (isfile n file_path); cbn [negb fst]; [|lia].
  destruct (guess_type n file_path); cbn [fst]; [|lia].
  destruct (file_content n file_path); cbn [fst]; [|lia].
  match goal with
  | |- context [_make_request c ?m ?ep ?kw n] =>
      pose proof (make_request_grows c m ep kw n) as H;
      destruct (_make_request c m ep kw n) as [n' [r|e]]
  end; cbn [fst] in *; [destruct (json_body r)|]; cbn [fst]; lia.
Qed.

Lemma makedirs_grows (save_dir : string) : grows_by requests_sent 0 (makedirs save_dir).
Proof.
  intros n. unfold makedirs. destruct (makedirs_fails n save_dir); cbn [fst]; [lia|].
  unfold requests_sent. cbn [add_event log]. rewrite requests_of_app, length_app.
  simpl. lia.
Qed.

Lemma requests_sent_add_other (ev : event) (n : node) :
  requests_of [ev] = [] -> requests_sent (add_event ev n) = requests_sent n.
Proof.
  intros H. unfold requests_sent. cbn [add_event log].
  rewrite requests_of_app, H, app_nil_r. reflexivity.
Qed.

Lemma download_grows (c : client) (h save_dir : string) (name : option string) :
  grows_by requests_sent 1 (SDK.download c h save_dir name).
Proof.
  intros n. rewrite download_eq. cbv zeta.
  destruct (makedirs_fails n save_dir); cbn [fst]; [lia|].
  match goal with
  | |- context [_make_request c ?m ?ep ?kw ?n0] =>
      pose proof (make_request_grows c m ep kw n0) as H;
      destruct (_make_request c m ep kw n0) as [n' [r|e]]
  end; cbn [fst] in *;
    rewrite requests_sent_add_other in H by reflexivity.
  - destruct (write_error n' _) as [[]|]; cbn [fst];
      rewrite ?requests_sent_add_other by reflexivity; exact H.
  - rewrite requests_sent_add_other by reflexivity. exact H.
Qed.

(** *** The commands *)

Lemma grows_call {L A} (k : nat) (m : M node A) :
  grows_by requests_sent k m -> grows_by (@sent_so_far L) k (call m).
Proof.
  intros Hm st. unfold call, sent_so_far. specialize (Hm (nd st)).
  destruct (m (nd st)) as [n' o]. exact Hm.
Qed.

Lemma grows_on_console {L} (f : console -> console) :
  grows_by (@sent_so_far L) 0 (on_console f).
Proof. intros st. unfold sent_so_far. simpl. lia. Qed.

Lemma grows_perf_counter {L} : grows_by (@sent_so_far L) 0 perf_counter.
Proof. intros st. unfold sent_so_far. simpl. lia. Qed.

Lemma grows_get_vars {L} : grows_by (@sent_so_far L) 0 get_vars.
Proof. intros st. unfold sent_so_far. simpl. lia. Qed.

Lemma grows_set_vars {L} (v : L) : grows_by (@sent_so_far L) 0 (set_vars v).
Proof. intros st. unfold sent_so_far. simpl. lia. Qed.

Lemma grows_console_print {L} (x : shown) : grows_by (@sent_so_far L) 0 (console_print x).
Proof.
  intros st. unfold console_print, sent_so_far.
  destruct (verdict (rejects (con st)) x); simpl; lia.
Qed.

Ltac quiet :=
  unfold print_output, sleep, set_item, str_upper, items,
    append_result, set_overall_success;
  repeat first
    [ apply grows_ret | apply grows_raise | apply grows_on_console
    | apply grows_console_print
    | apply grows_perf_counter | apply grows_get_vars | apply grows_set_vars
    | apply grows_bind_l; [| intros ?]
    | apply grows_for_each_quiet; intros ?
    | match goal with
      | |- grows_by _ _ (if ?b then _ else _) => destruct b
      | |- grows_by _ _ (match ?x with _ => _ end) => destruct x
      | |- grows_by _ _ (let (_, _) := ?x in _) => destruct x
      end ].

Lemma grows_handle_sdk_error {L} (e : exn) (exit_on_error : bool) :
  grows_by (@sent_so_far L) 0 (handle_sdk_error e exit_on_error).
Proof. unfold handle_sdk_error. quiet. Qed.

Lemma grows_exit_handler {L} :
  Forall (fun cl : clause (state L) unit =>
            forall e', grows_by sent_so_far 0 (snd cl e'))
         [ (is_Exception, fun e => bind (handle_sdk_error e true) (fun _ => ret tt)) ].
Proof.
  constructor; [|constructor]. intros e. cbn [snd].
  apply grows_bind_l; [apply grows_handle_sdk_error | intros _; apply grows_ret].
Qed.

Lemma grows_record_failure (repeat : Z) (t : float) (e : exn) :
  grows_by sent_so_far 0 (record_failure repeat t e).
Proof.
  unfold record_failure.
  apply grows_bind_l; [apply grows_perf_counter | intros t_end].
  apply grows_bind_l; [quiet | intros _].
  apply grows_bind_l; [apply grows_handle_sdk_error | intros msg]. quiet.
Qed.

Lemma grows_finish_repeat (repeat : Z) (output_format : format) :
  grows_by sent_so_far 0 (finish_repeat repeat output_format).
Proof. unfold finish_repeat. quiet. Qed.

Lemma grows_upload_attempt (c : client) (file_path : string) (output_format : format)
      (i : Z) (t : float) :
  grows_by sent_so_far 1 (upload_attempt c file_path output_format i t).
Proof.
  unfold upload_attempt.
  apply grows_bind_r; [apply grows_call, upload_grows | intros result]. quiet.
Qed.

Lemma grows_download_attempt (c : client) (h out_dir save_filename : string)
      (output_format : format) (i : Z) (t : float) :
  grows_by sent_so_far 1 (download_attempt c h out_dir save_filename output_format i t).
Proof.
  unfold download_attempt.
  apply grows_bind_l; [apply grows_call, makedirs_grows | intros _].
  apply grows_bind_r; [apply grows_call, download_grows | intros p]. quiet.
Qed.

Lemma grows_command (try_block : Z -> float -> M (state repeat_vars) unit)
      (line : Z -> string) (repeat : Z) (delay : Q) (intro : string)
      (output_format : format) :
  (forall i t, grows_by sent_so_far 1 (try_block i t)) ->
  grows_by sent_so_far (Z.to_nat repeat)
           (command try_block line repeat delay intro output_format).
Proof.
  intros Htb. unfold command.
  apply grows_bind_l; [quiet | intros _].
  apply grows_bind_l; [quiet | intros _].
  apply grows_bind_r; [| intros _; apply grows_finish_repeat].
  rewrite <- (range_length repeat), <- (Nat.mul_1_r (List.length (range repeat))).
  apply grows_for_each. intros i. unfold iteration.
  apply grows_bind_l; [quiet | intros _].
  apply grows_bind_l; [quiet | intros _].
  apply grows_bind_l; [apply grows_perf_counter | intros t].
  apply grows_try_quiet; [apply Htb|].
  constructor; [|constructor]. intros e. apply grows_record_failure.
Qed.

Lemma grows_bulk_iteration (c : client) (delay : Q) (file_path : string) :
  grows_by sent_so_far 1 (bulk_iteration c delay file_path).
Proof.
  unfold bulk_iteration.
  apply grows_bind_l; [quiet | intros _].
  apply grows_bind_l; [quiet | intros _].
  apply grows_bind_l; [apply grows_perf_counter | intros t].
  apply grows_bind_r; [| intros _; quiet].
  apply grows_try_quiet.
  - unfold bulk_attempt.
    apply grows_bind_r; [apply grows_call, upload_grows | intros result]. quiet.
  - constructor; [|constructor]. intros e. cbn [snd]. unfold bulk_failure.
    apply grows_bind_l; [apply grows_perf_counter | intros t_end].
    apply grows_bind_l; [apply grows_handle_sdk_error | intros msg]. quiet.
Qed.

Lemma grows_fetch_and_print (fetch : M node pyval) (output_format : format) :
  grows_by requests_sent 1 fetch ->
  grows_by sent_so_far 1 (fetch_and_print fetch output_format).
Proof.
  intros Hf. unfold fetch_and_print.
  apply grows_try_quiet; [| apply grows_exit_handler].
  apply grows_bind_l; [apply grows_perf_counter | intros t].
  apply grows_bind_r; [apply grows_call, Hf | intros result]. quiet.
Qed.

(** X22. No command retries.  A command sends at most one request per
    attempt it is asked for: [upload] and [download] at most [repeat]
    requests, [upload_bulk] at most one per matching file, [status],
    [info], [zkp] and [health] at most one, whatever the replies,
    failures included. *)
Theorem commands_never_retry :
  (forall (c : client) (file_path : string) (repeat : Z) (delay : Q)
          (output_format : format),
      grows_by sent_so_far (Z.to_nat repeat)
               (CLI.upload c file_path repeat delay output_format))
  /\ (forall (c : client) (h out_dir : string) (name : option string) (repeat : Z)
             (delay : Q) (output_format : format),
         grows_by sent_so_far (Z.to_nat repeat)
                  (CLI.download c h out_dir name repeat delay output_format))
  /\ (forall (c : client) (directory_path pattern : string) (delay : Q)
             (output_format : format) (st : state bulk_vars),
         (sent_so_far (fst (upload_bulk c directory_path pattern delay output_format st))
          <= sent_so_far st
             + List.length (filter (isfile (nd st))
                                   (glob (nd st) (path_join directory_path pattern))))%nat)
  /\ (forall (c : client) (output_format : format),
         grows_by sent_so_far 1 (status c output_format)
         /\ grows_by sent_so_far 1 (health c output_format)
         /\ forall h, grows_by sent_so_far 1 (info c h output_format)
                      /\ grows_by sent_so_far 1 (zkp c h output_format)).
Proof.
  split; [| split; [| split]].
  - intros c file_path repeat delay fmt. rewrite upload_is_command.
    apply grows_command. intros i t. apply grows_upload_attempt.
  - intros c h out_dir name repeat delay fmt.
    pose proof (download_is_command c h out_dir name repeat delay fmt) as E.
    cbv zeta in E. rewrite E. apply grows_command. intros i t.
    apply grows_download_attempt.
  - intros c directory_path pattern delay fmt st.
    unfold upload_bulk. unfold bind at 1. unfold console_print at 1, verdict, on_console.
    cbn [server_text]. unfold bind at 1. unfold try_except, call, find_files.
    cbn [nd con vars].
    set (files := filter (isfile (nd st)) (glob (nd st) (path_join directory_path pattern))).
    match goal with
    | |- (sent_so_far (fst (?rest ?s)) <= _)%nat =>
        assert (G : grows_by sent_so_far (List.length files) rest);
        [| exact (G s)]
    end.
    destruct files as [|f fs] eqn:Hfiles; [quiet|].
    rewrite <- Hfiles. clear Hfiles.
    apply grows_bind_l; [quiet | intros _].
    apply grows_bind_l; [quiet | intros _].
    apply grows_bind_l; [quiet | intros _].
    apply grows_bind_r; [| intros _; quiet].
    rewrite <- (Nat.mul_1_r (List.length files)).
    apply grows_for_each. intros file_path. apply grows_bulk_iteration.
  - intros c fmt. split; [| split; [| intros h; split]].
    + unfold status. apply grows_bind_l; [quiet | intros _].
      apply grows_fetch_and_print, fetch_grows.
    + unfold health.
      apply grows_bind_l; [quiet | intros _].
      apply grows_bind_l; [quiet | intros _].
      apply grows_bind_r; [| intros _; quiet].
      apply grows_try_quiet; [| apply grows_exit_handler].
      apply grows_bind_l; [apply grows_perf_counter | intros t].
      apply grows_bind_r; [apply grows_call, fetch_grows | intros result]. quiet.
    + unfold info. apply grows_bind_l; [quiet | intros _].
      apply grows_fetch_and_print, fetch_grows.
    + unfold zkp. apply grows_bind_l; [quiet | intros _].
      apply grows_fetch_and_print, fetch_grows.
Qed.

End CLIExtra.
